(** * A catalog-to-channel poll bot: embedding and verification

    The repository holds two variants of one program, a bot that polls a
    WooCommerce product catalog and posts every product it has not posted
    before to a Telegram channel:

    - [bbbbbaqiap92s.py], the plain variant (module [Bbbbbaqiap92s]);
    - [testing22.py], the hardened variant with a health endpoint
      (module [Testing22]).

    Both are embedded shallowly.  Python values returned by [r.json()] are
    a [json] tree; a Python [str] is the list of its code points; code that
    can raise returns a [result]; code that touches the dedup file, the
    network, the clock or the console runs in the state monad [M] over a
    [world] that holds the file and the trace of observable events.  *)

From Stdlib Require Import ZArith List Lia Bool Ascii String.
From Stdlib Require Import DecimalPos DecimalZ Sorted.
From Stdlib Require QArith.
From stdpp Require Import base option list gmap sets.

Local Open Scope Z_scope.
Set Warnings "-register-all".

(* ===================================================================== *)
(** * Part I: definitions                                                 *)
(* ===================================================================== *)

(** ** Python strings *)

(** A character is a Unicode code point, a [str] is a list of them. *)
Definition char := N.
Definition pystr := list N.

(** [lit] reads an ASCII literal of the source as a [str]. *)
Definition lit (s : string) : pystr :=
  List.map N_of_ascii (list_ascii_of_string s).

Definition LF : char := 10%N.
Definition CR : char := 13%N.
Definition SPACE : char := 32%N.
Definition HASH : char := 35%N.
Definition PLUS : char := 43%N.
Definition MINUS : char := 45%N.
Definition DOT : char := 46%N.
Definition LT : char := 60%N.
Definition GT : char := 62%N.
Definition UNDERSCORE : char := 95%N.

(** The characters [str.strip()] removes and the regular expression class
    [\s] matches on a [str]: CPython's [Py_UNICODE_ISSPACE]. *)
Definition is_space (c : char) : bool :=
  ((9 <=? c) && (c <=? 13) || (28 <=? c) && (c <=? 32)
   || (c =? 133) || (c =? 160) || (c =? 5760)
   || (8192 <=? c) && (c <=? 8202)
   || (c =? 8232) || (c =? 8233) || (c =? 8239) || (c =? 8287)
   || (c =? 12288))%N.

Fixpoint lstrip (s : pystr) : pystr :=
  match s with
  | c :: r => if is_space c then lstrip r else s
  | [] => []
  end.

Definition rstrip (s : pystr) : pystr := rev (lstrip (rev s)).

(** [s.strip()] *)
Definition py_strip (s : pystr) : pystr := rstrip (lstrip s).

(** [s.replace(" ", "_")] *)
Definition replace_space (s : pystr) : pystr :=
  List.map (fun c => if (c =? SPACE)%N then UNDERSCORE else c) s.

(** ["." in s] *)
Definition has_dot (s : pystr) : bool := existsb (fun c => (c =? DOT)%N) s.

(** [sep.join(parts)] *)
Fixpoint py_join (sep : pystr) (parts : list pystr) : pystr :=
  match parts with
  | [] => []
  | [p] => p
  | p :: rest => p ++ sep ++ py_join sep rest
  end.

(** ** Integers as text *)

Fixpoint chars_of_uint (u : Decimal.uint) : pystr :=
  match u with
  | Decimal.Nil => []
  | Decimal.D0 r => 48%N :: chars_of_uint r
  | Decimal.D1 r => 49%N :: chars_of_uint r
  | Decimal.D2 r => 50%N :: chars_of_uint r
  | Decimal.D3 r => 51%N :: chars_of_uint r
  | Decimal.D4 r => 52%N :: chars_of_uint r
  | Decimal.D5 r => 53%N :: chars_of_uint r
  | Decimal.D6 r => 54%N :: chars_of_uint r
  | Decimal.D7 r => 55%N :: chars_of_uint r
  | Decimal.D8 r => 56%N :: chars_of_uint r
  | Decimal.D9 r => 57%N :: chars_of_uint r
  end.

(** [str(z)] and [f"{z}"] for an [int]: decimal digits, a minus sign for
    negative numbers. *)
Definition str_of_int (z : Z) : pystr :=
  match Z.to_int z with
  | Decimal.Pos u => chars_of_uint u
  | Decimal.Neg u => MINUS :: chars_of_uint u
  end.

(** The code points of the digit zero of every script: the decimal digits
    of Unicode (category Nd) come in runs of ten, zero to nine, and these
    are the starts of the runs in Unicode 14.0, the character data of
    CPython 3.11. *)
Definition decimal_zeros : list N :=
  [48; 1632; 1776; 1984; 2406; 2534; 2662; 2790; 2918; 3046; 3174; 3302;
   3430; 3558; 3664; 3792; 3872; 4160; 4240; 6112; 6160; 6470; 6608;
   6784; 6800; 6992; 7088; 7232; 7248; 42528; 43216; 43264; 43472;
   43504; 43600; 44016; 65296; 66720; 68912; 69734; 69872; 69942; 70096;
   70384; 70736; 70864; 71248; 71360; 71472; 71904; 72016; 72784; 73040;
   73120; 92768; 92864; 93008; 120782; 120792; 120802; 120812; 120822;
   123200; 123632; 125264; 130032]%N.

(** The decimal value of a character, when it is a decimal digit:
    [Py_UNICODE_TODECIMAL]. *)
Definition decimal (c : char) : option N :=
  option_map (fun z => c - z)%N
    (List.find (fun z => (z <=? c) && (c <? z + 10))%N decimal_zeros).

(** The decimal digit a character stands for.  [int()] takes the decimal
    digits of every script. *)
Definition digit (c : char) : option (Decimal.uint -> Decimal.uint) :=
  option_map
    (fun v =>
       match v with
       | 0%N => Decimal.D0
       | 1%N => Decimal.D1
       | 2%N => Decimal.D2
       | 3%N => Decimal.D3
       | 4%N => Decimal.D4
       | 5%N => Decimal.D5
       | 6%N => Decimal.D6
       | 7%N => Decimal.D7
       | 8%N => Decimal.D8
       | _ => Decimal.D9
       end)
    (decimal c).

(** Digits with single underscores between them, as [int()] reads them;
    [after_us] says that the character before was an underscore. *)
Fixpoint uint_of_chars (after_us : bool) (s : pystr) : option Decimal.uint :=
  match s with
  | [] => if after_us then None else Some Decimal.Nil
  | c :: r =>
      match digit c with
      | Some d => option_map d (uint_of_chars false r)
      | None =>
          if (c =? UNDERSCORE)%N && negb after_us
          then uint_of_chars true r
          else None
      end
  end.

Definition starts_with_digit (s : pystr) : bool :=
  match s with
  | c :: _ => match digit c with Some _ => true | None => false end
  | [] => false
  end.

Definition nat_of_chars (s : pystr) : option Z :=
  if starts_with_digit s
  then option_map Z.of_uint (uint_of_chars false s)
  else None.

(** The white space [int()] skips at both ends of a [str]: that of
    [str.strip()] but for the four separators U+001C to U+001F, which are
    white space to [strip] and not to [int]. *)
Definition is_int_space (c : char) : bool :=
  is_space c && negb ((28 <=? c) && (c <=? 31))%N.

Fixpoint int_lstrip (s : pystr) : pystr :=
  match s with
  | c :: r => if is_int_space c then int_lstrip r else s
  | [] => []
  end.

Definition int_strip (s : pystr) : pystr :=
  rev (int_lstrip (rev (int_lstrip s))).

(** [int(s)] for a [str]: surrounding whitespace is dropped, then an
    optional sign and the digits; [None] stands for [ValueError].  The
    limit CPython 3.11 puts on the number of digits of a conversion
    ([sys.int_max_str_digits]) is no part of the function: see
    [int_max_str_digits] below. *)
Definition int_of_str (s : pystr) : option Z :=
  match int_strip s with
  | c :: r =>
      if (c =? MINUS)%N then option_map Z.opp (nat_of_chars r)
      else if (c =? PLUS)%N then nat_of_chars r
      else nat_of_chars (c :: r)
  | [] => None
  end.

(** ** Values decoded from JSON *)

(** What [r.json()] returns: [None], [bool], [int], [str], [list] and
    [dict] with [str] keys.  Numbers are integers; a [dict] is the list of
    its items, looked up from the front. *)
Inductive json :=
| JNull
| JBool (b : bool)
| JNum (z : Z)
| JStr (s : pystr)
| JArr (items : list json)
| JObj (fields : list (pystr * json)).

(** ** Exceptions and results *)

(** The exception classes the two programs can meet.  [OSError] stands
    for the input/output errors other than [FileNotFoundError];
    [TelegramError] for the send failures other than [RetryAfter], which
    is part of a [behaviour] below and never leaves [send_to_channel];
    [RecursionError] is what the interpreter raises when the calls nested
    in one another exceed its recursion limit. *)
Inductive exn :=
| FileNotFoundError
| OSError
| ValueError
| KeyError
| IndexError
| TypeError
| AttributeError
| RequestException
| TelegramError
| RecursionError.

Inductive result (A : Type) :=
| Ok (a : A)
| Raise (e : exn).
Arguments Ok {A} a.
Arguments Raise {A} e.

Definition bind {A B} (r : result A) (k : A -> result B) : result B :=
  match r with
  | Ok a => k a
  | Raise e => Raise e
  end.

Definition raises {A} (r : result A) : bool :=
  match r with
  | Ok _ => false
  | Raise _ => true
  end.

Declare Scope py_scope.
Delimit Scope py_scope with py.
Notation "x <~ r ; k" := (bind r (fun x => k))
  (at level 20, r at level 100, k at level 200, only parsing) : py_scope.
Local Open Scope py_scope.

Definition exn_eqb (a b : exn) : bool :=
  match a, b with
  | FileNotFoundError, FileNotFoundError
  | OSError, OSError
  | ValueError, ValueError
  | KeyError, KeyError
  | IndexError, IndexError
  | TypeError, TypeError
  | AttributeError, AttributeError
  | RequestException, RequestException
  | TelegramError, TelegramError
  | RecursionError, RecursionError => true
  | _, _ => false
  end.

(** ** Python operations on decoded values *)

Fixpoint str_eqb (a b : pystr) : bool :=
  match a, b with
  | [], [] => true
  | x :: a', y :: b' => (x =? y)%N && str_eqb a' b'
  | _, _ => false
  end.

Fixpoint lookup_key (k : pystr) (fields : list (pystr * json)) : option json :=
  match fields with
  | [] => None
  | (k', v) :: rest => if str_eqb k k' then Some v else lookup_key k rest
  end.

(** [bool(v)], the test of [if v] and [v or d]. *)
Definition truthy (v : json) : bool :=
  match v with
  | JNull => false
  | JBool b => b
  | JNum z => negb (z =? 0)
  | JStr s => negb (Nat.eqb (length s) 0)
  | JArr l => negb (Nat.eqb (length l) 0)
  | JObj l => negb (Nat.eqb (length l) 0)
  end.

(** [v or d] *)
Definition py_or (v d : json) : json := if truthy v then v else d.

(** [v[k]] for a [str] key [k]. *)
Definition getitem (v : json) (k : pystr) : result json :=
  match v with
  | JObj fields =>
      match lookup_key k fields with
      | Some x => Ok x
      | None => Raise KeyError
      end
  | _ => Raise TypeError
  end.

(** [v[0]] *)
Definition getitem0 (v : json) : result json :=
  match v with
  | JArr (x :: _) => Ok x
  | JArr [] => Raise IndexError
  | JStr (c :: _) => Ok (JStr [c])
  | JStr [] => Raise IndexError
  | JObj _ => Raise KeyError
  | _ => Raise TypeError
  end.

(** [v.get(k, d)]: only a [dict] has the method. *)
Definition py_get (v : json) (k : pystr) (d : json) : result json :=
  match v with
  | JObj fields =>
      match lookup_key k fields with
      | Some x => Ok x
      | None => Ok d
      end
  | _ => Raise AttributeError
  end.

(** The elements [for x in v] visits: the items of a [list], the keys of a
    [dict], the characters of a [str]. *)
Definition py_iter (v : json) : result (list json) :=
  match v with
  | JArr l => Ok l
  | JObj fields => Ok (List.map (fun kv => JStr (fst kv)) fields)
  | JStr s => Ok (List.map (fun c => JStr [c]) s)
  | _ => Raise TypeError
  end.

(** [int(v)] *)
Definition py_int (v : json) : result Z :=
  match v with
  | JNum z => Ok z
  | JBool b => Ok (if b then 1 else 0)
  | JStr s =>
      match int_of_str s with
      | Some z => Ok z
      | None => Raise ValueError
      end
  | _ => Raise TypeError
  end.

(** [v in s] for a set [s] of [int]: a [list] or [dict] cannot be hashed,
    [True] and [False] equal [1] and [0], no [str] or [None] is a member. *)
Definition py_in (v : json) (s : gset Z) : result bool :=
  match v with
  | JNum z => Ok (bool_decide (z ∈ s))
  | JBool b => Ok (bool_decide ((if b then 1 else 0) ∈ s))
  | JStr _ | JNull => Ok false
  | JArr _ | JObj _ => Raise TypeError
  end.

(** [isinstance(v, list)] *)
Definition is_list (v : json) : bool :=
  match v with
  | JArr _ => true
  | _ => false
  end.

(** [str(v)] and [f"{v}"].  The text Python gives a [list] or a [dict]
    (their [repr]) is left to the parameter [repr]. *)
Definition py_str (repr : json -> pystr) (v : json) : pystr :=
  match v with
  | JNull => lit "None"
  | JBool true => lit "True"
  | JBool false => lit "False"
  | JNum z => str_of_int z
  | JStr s => s
  | JArr _ | JObj _ => repr v
  end.

(** [f"{v}"] for a value read from the environment, [None] when unset. *)
Definition str_of_setting (v : option pystr) : pystr :=
  match v with
  | Some s => s
  | None => lit "None"
  end.

(** ** Regular expressions of the source *)

(** Whether a [>] comes before the next line feed: [.] matches every
    character but the line feed. *)
Fixpoint closes (s : pystr) : bool :=
  match s with
  | [] => false
  | c :: r =>
      if (c =? GT)%N then true
      else if (c =? LF)%N then false
      else closes r
  end.

(** [re.sub] of the pattern [<.*?>] by the empty text.  At a [<] the
    lazy [.*?] runs to the first [>] of the line, if there is one; the
    match is dropped and the scan goes on behind it.  [in_tag] says that
    the scan is inside a match. *)
Fixpoint sub_tags (in_tag : bool) (s : pystr) : pystr :=
  match s with
  | [] => []
  | c :: r =>
      if in_tag then sub_tags (negb (c =? GT)%N) r
      else if (c =? LT)%N && closes r then sub_tags true r
      else c :: sub_tags false r
  end.

(** Whether whitespace alone separates the position from a later line
    feed. *)
Fixpoint newline_ahead (s : pystr) : bool :=
  match s with
  | [] => false
  | c :: r => if (c =? LF)%N then true else is_space c && newline_ahead r
  end.

(** [re.sub(r"\s+\n", "\n", s)].  In a run of whitespace the greedy [\s+]
    backtracks to the last line feed of the run that is not its first
    character; the match, from the start of the run to that line feed,
    becomes one line feed.  So a whitespace character goes exactly when a
    line feed follows it in its run. *)
Fixpoint sub_space_newline (s : pystr) : pystr :=
  match s with
  | [] => []
  | c :: r =>
      if is_space c && newline_ahead r then sub_space_newline r
      else c :: sub_space_newline r
  end.

(** ** Text files *)

(** The lines a text file opened for reading yields, with universal
    newlines: a line ends at [\n], [\r] or [\r\n], and the line end reads
    as [\n].  [cur] is the line read so far. *)
Fixpoint readlines (cur : pystr) (s : pystr) : list pystr :=
  match s with
  | [] => match cur with [] => [] | _ => [cur] end
  | c :: r =>
      if (c =? LF)%N then (cur ++ [LF]) :: readlines [] r
      else if (c =? CR)%N then
        match r with
        | d :: r' =>
            if (d =? LF)%N then (cur ++ [LF]) :: readlines [] r'
            else (cur ++ [LF]) :: readlines [] r
        | [] => (cur ++ [LF]) :: readlines [] r
        end
      else readlines (cur ++ [c]) r
  end.

(** [{int(line.strip()) for line in f if line.strip()}] *)
Fixpoint ids_of_lines (lines : list pystr) : result (gset Z) :=
  match lines with
  | [] => Ok ∅
  | line :: rest =>
      match py_strip line with
      | [] => ids_of_lines rest
      | t =>
          match int_of_str t with
          | Some z => s <~ ids_of_lines rest; Ok ({[z]} ∪ s)
          | None => Raise ValueError
          end
      end
  end.

(** The dedup file: its text when it exists, and whether the process can
    read it and append to it. *)
Record file := {
  data : option pystr;
  can_read : bool;
  can_write : bool
}.

Definition file_text (f : file) : pystr := default [] (data f).

(** ** The world outside the program *)

(** A call of the Telegram client that goes out to the channel:
    [bot.send_photo] or [bot.send_message] with the channel, the text and
    the link of the one inline button.  The parse mode (HTML) and the
    label of the button are constants of the source. *)
Inductive call :=
| send_photo (chat_id : option pystr) (photo : json) (caption : pystr)
    (url : json)
| send_message (chat_id : option pystr) (text : pystr) (url : json).

(** The arguments of [requests.get] that matter here: what can stand as a
    value of the [params] dictionary. *)
Inductive pyarg :=
| ANone
| AStr (s : pystr)
| AInt (z : Z)
| ATuple (items : list (option pystr))
| ADict (fields : list (pystr * pyarg)).

(** The request [requests.get] prepares: the address, the pairs of the
    query string before percent-encoding, the credential pair of basic
    authentication, the timeout. *)
Record request := {
  url : option pystr;
  query : list (pystr * pystr);
  auth : option (option pystr * option pystr);
  timeout : option Z
}.

(** The lines the programs print, by what they report. *)
Inductive msg :=
| MsgStarted
| MsgChecking
| MsgNoIdsFile
| MsgLoadError (e : exn)
| MsgSaveError (e : exn)
| MsgSent
| MsgRetryAfter (seconds : Z)
| MsgSendError (e : exn)
| MsgFetchError (e : exn)
| MsgUnexpectedResponse (products : json)
| MsgNoNew
| MsgFound (n : nat)
| MsgPreparing (title : json)
| MsgPreparingId (title : json) (pid : Z)
| MsgSaved (id : json)
| MsgNotSent (pid : Z)
| MsgLoopError (e : exn)
| MsgResting (n : Z).

Inductive event :=
| Print (m : msg)
| Sleep (seconds : QArith_base.Q)
| Api (c : call)
| Get (r : request)
| Wrote (text : pystr).

Record world := {
  disk : file;
  sends : nat;
  gets : nat;
  log : list event
}.

(** How one call of [send_to_channel] is answered: the channel asks to
    retry after each of [waits] seconds in turn; then it delivers the
    message, or it refuses it with an error that is not [RetryAfter], or
    the client raises such an error before the call goes out
    ([Unsent]). *)
Inductive delivery :=
| Delivered
| Refused (e : exn)
| Unsent (e : exn).

Record behaviour := {
  waits : list Z;
  final : delivery
}.

(** The settings read from the environment; a [None] is a variable that
    is not set. *)
Record config := {
  CHANNEL_ID : option pystr;
  CHANNEL_USERNAME : option pystr;
  CONSUMER_KEY : option pystr;
  CONSUMER_SECRET : option pystr;
  API_URL : option pystr;
  CHECK_INTERVAL_SECONDS : Z;
  SEND_DELAY_SECONDS : QArith_base.Q
}.

(** What the program cannot decide: its settings, the text Python gives a
    [list] or [dict], what Telegram has in store for the [k]-th call of
    [send_to_channel], the answer of the catalog to the [k]-th request (the
    decoded body, or the error of the request, of its status or of the
    decoding), and the room the interpreter leaves for recursion: [stack]
    is the number of calls of [send_to_channel], nested in one another,
    whose send still runs; in the next one the send ends in
    [RecursionError] before it goes out (CPython allows about a thousand
    nested calls unless configured otherwise). *)
Record env := {
  cfg : config;
  repr : json -> pystr;
  telegram : nat -> behaviour;
  network : nat -> result json;
  stack : nat
}.

(** What the [k]-th call of [send_to_channel] gets to see of the answers
    Telegram has in store for it: all of them when the recursion has room
    for every retry, and else the first [stack] requests to wait, after
    which the send fails with [RecursionError]. *)
Definition channel (E : env) (k : nat) : behaviour :=
  let b := telegram E k in
  if (length (waits b) <? stack E)%nat then b
  else {| waits := firstn (stack E) (waits b);
          final := Unsent RecursionError |}.

(** ** The monad of the programs: state and exceptions *)

Definition M (A : Type) : Type := world -> result A * world.

Definition ret {A} (a : A) : M A := fun w => (Ok a, w).

Definition raise {A} (e : exn) : M A := fun w => (Raise e, w).

Definition bindM {A B} (m : M A) (k : A -> M B) : M B :=
  fun w =>
    match m w with
    | (Ok a, w') => k a w'
    | (Raise e, w') => (Raise e, w')
    end.

Notation "x <- m ; k" := (bindM m (fun x => k))
  (at level 20, m at level 100, k at level 200, only parsing) : py_scope.
Notation "m ;; k" := (bindM m (fun _ => k))
  (at level 100, k at level 200, only parsing, right associativity)
  : py_scope.

Definition lift {A} (r : result A) : M A := fun w => (r, w).

Definition set_log (w : world) (l : list event) : world :=
  {| disk := disk w; sends := sends w; gets := gets w; log := l |}.

Definition emit (ev : event) : M unit :=
  fun w => (Ok tt, set_log w (log w ++ [ev])).

Definition print (m : msg) : M unit := emit (Print m).

(** [await asyncio.sleep(seconds)] *)
Definition sleep (seconds : QArith_base.Q) : M unit := emit (Sleep seconds).

(** [try: body / except C as e: handler], where [catches] tells the
    exceptions of class [C]. *)
Definition try_except {A} (body : M A) (catches : exn -> bool)
    (handler : exn -> M A) : M A :=
  fun w =>
    match body w with
    | (Ok a, w') => (Ok a, w')
    | (Raise e, w') => if catches e then handler e w' else (Raise e, w')
    end.

(** [except Exception] *)
Definition any_exception (e : exn) : bool := true.

(** [for x in l: body] *)
Fixpoint for_each {A} (l : list A) (body : A -> M unit) : M unit :=
  match l with
  | [] => ret tt
  | x :: rest => body x;; for_each rest body
  end.

(** The first [n] rounds of [while True: body]. *)
Fixpoint while_true (n : nat) (body : M unit) : M unit :=
  match n with
  | O => ret tt
  | S k => body;; while_true k body
  end.

(** [open(SENT_IDS_FILE, "r")] and the reading of the whole text. *)
Definition open_read : M pystr :=
  fun w =>
    match data (disk w) with
    | None => (Raise FileNotFoundError, w)
    | Some text =>
        if can_read (disk w) then (Ok text, w) else (Raise OSError, w)
    end.

(** The world after [text] went to the end of the dedup file; the file
    is created when it is missing. *)
Definition written (w : world) (text : pystr) : world :=
  {| disk := {| data := Some (file_text (disk w) ++ text);
                can_read := can_read (disk w);
                can_write := can_write (disk w) |};
     sends := sends w; gets := gets w;
     log := log w ++ [Wrote text] |}.

(** [open(SENT_IDS_FILE, "a")] and [f.write(text)] *)
Definition append (text : pystr) : M unit :=
  fun w =>
    if can_write (disk w) then (Ok tt, written w text)
    else (Raise OSError, w).

(** The [k]-th call of [send_to_channel] begins. *)
Definition next_send (E : env) : M behaviour :=
  fun w =>
    (Ok (telegram E (sends w)),
     {| disk := disk w; sends := S (sends w); gets := gets w; log := log w |}).

(** ** [requests.get] *)

(** The values one key of [params] contributes to the query string, as
    [requests] encodes them: a [None] nothing, a text or number itself, a
    tuple its items that are not [None], a dictionary its keys. *)
Definition query_values (v : pyarg) : list pystr :=
  match v with
  | ANone => []
  | AStr s => [s]
  | AInt z => [str_of_int z]
  | ATuple items => omap id items
  | ADict fields => List.map fst fields
  end.

Definition encode_params (params : list (pystr * pyarg))
    : list (pystr * pystr) :=
  flat_map (fun kv => List.map (pair (fst kv)) (query_values (snd kv))) params.

(** [requests.get(url, params=None, **kwargs)] with the keywords [auth]
    and [timeout]. *)
Definition requests_get (url : option pystr)
    (params : option (list (pystr * pyarg)))
    (auth : option (option pystr * option pystr))
    (timeout : option Z) : request :=
  {| url := url;
     query := encode_params (default [] params);
     auth := auth;
     timeout := timeout |}.

(** The request is sent; [raise_for_status] and [json] give the decoded
    body or raise. *)
Definition http_json (E : env) (req : request) : M json :=
  fun w =>
    (network E (gets w),
     {| disk := disk w; sends := sends w; gets := S (gets w);
        log := log w ++ [Get req] |}).

(** The message prepared for one product: [text], [image] and [link] of
    the loop that sends the new products. *)
Record payload := {
  text : pystr;
  image : json;
  link : json
}.

(** The call [send_to_channel] makes: a photo with caption when [image]
    is true, a text message otherwise. *)
Definition api_call (E : env) (p : payload) : call :=
  if truthy (image p)
  then send_photo (CHANNEL_ID (cfg E)) (image p) (text p) (link p)
  else send_message (CHANNEL_ID (cfg E)) (text p) (link p).

(** The f-string of the message text; its first character is the
    shopping cart U+1F6D2, its last part the text [username] that the
    module-level [CHANNEL_USERNAME] of the program is written as. *)
Definition caption (E : env) (username : pystr) (title : json)
    (excerpt tags : pystr) : pystr :=
  [128722%N; SPACE] ++ lit "<b>" ++ py_str (repr E) title ++ lit "</b>"
  ++ [LF; LF] ++ excerpt ++ [LF; LF] ++ tags ++ [LF; LF] ++ username.

(* --------------------------------------------------------------------- *)
(** ** [bbbbbaqiap92s.py]                                                 *)
(* --------------------------------------------------------------------- *)

Module Bbbbbaqiap92s.
Section Program.
Context (E : env).

(** [CHANNEL_USERNAME = os.environ.get("CHANNEL_USERNAME")], as an
    f-string writes it: [None] when the variable is not set. *)
Definition channel_username : pystr :=
  str_of_setting (CHANNEL_USERNAME (cfg E)).

(** Only a missing file is caught; a file that cannot be read or a line
    that is no number raises out of the function. *)
Definition load_sent_ids : M (gset Z) :=
  try_except
    (content <- open_read; lift (ids_of_lines (readlines [] content)))
    (exn_eqb FileNotFoundError)
    (fun _ => print MsgNoIdsFile;; ret ∅).

Definition save_sent_id (product_id : json) : M unit :=
  append (py_str (repr E) product_id ++ [LF]).

(** [re.sub] raises [TypeError] on what is no [str]. *)
Definition clean_html (raw_html : json) : result pystr :=
  match raw_html with
  | JStr s => Ok (sub_tags false s)
  | _ => Raise TypeError
  end.

(** The loop of [format_tags] over the elements of [tags_list]; only a
    [str] has the method [replace]. *)
Fixpoint hashtags (ts : list json) : result (list pystr) :=
  match ts with
  | [] => Ok []
  | t :: rest =>
      name <~ getitem t (lit "name");
      tag_text <~ match name with
                  | JStr s => Ok (replace_space s)
                  | _ => Raise AttributeError
                  end;
      tags <~ hashtags rest;
      Ok (if has_dot tag_text then tags else (HASH :: tag_text) :: tags)
  end.

Definition format_tags (tags_list : json) : result pystr :=
  ts <~ py_iter tags_list;
  tags <~ hashtags ts;
  Ok (py_join [SPACE] tags).

(** The body of [send_to_channel] when Telegram asks [ws] more times to
    retry and the interpreter has room for [depth] more nested calls whose
    send runs; the recursive call of the source is the recursive call
    here.  Without room the send raises [RecursionError] inside the [try],
    which [except Exception] catches like any other error. *)
Fixpoint send_to_channel_rec (depth : nat) (ws : list Z) (fin : delivery)
    (p : payload) : M bool :=
  match depth with
  | O => print (MsgSendError RecursionError);; ret false
  | S room =>
      match ws with
      | n :: rest =>
          emit (Api (api_call E p));;
          print (MsgRetryAfter n);;
          sleep (QArith_base.inject_Z n);;
          send_to_channel_rec room rest fin p
      | [] =>
          match fin with
          | Delivered => emit (Api (api_call E p));; print MsgSent;; ret true
          | Refused e =>
              emit (Api (api_call E p));; print (MsgSendError e);; ret false
          | Unsent e => print (MsgSendError e);; ret false
          end
      end
  end.

Definition send_to_channel (p : payload) : M bool :=
  b <- next_send E;
  send_to_channel_rec (stack E) (waits b) (final b) p.

(** [params] of [check_for_new_products] *)
Definition params : list (pystr * pyarg) :=
  [(lit "per_page", AInt 100);
   (lit "orderby", AStr (lit "date"));
   (lit "order", AStr (lit "desc"))].

(** [requests.get(API_URL, auth=(CONSUMER_KEY, CONSUMER_SECRET),
    params=params, timeout=20)] *)
Definition fetch_request : request :=
  requests_get (API_URL (cfg E)) (Some params)
    (Some (CONSUMER_KEY (cfg E), CONSUMER_SECRET (cfg E))) (Some 20).

(** [[p for p in products if p["id"] not in sent_ids]] over the elements
    of [products]. *)
Fixpoint select (products : list json) (sent_ids : gset Z)
    : result (list json) :=
  match products with
  | [] => Ok []
  | p :: rest =>
      id <~ getitem p (lit "id");
      known <~ py_in id sent_ids;
      news <~ select rest sent_ids;
      Ok (if known then news else p :: news)
  end.

Definition new_products (products : json) (sent_ids : gset Z)
    : result (list json) :=
  ps <~ py_iter products;
  select ps sent_ids.

(** [product["images"][0]["src"] if product["images"] else None] *)
Definition first_image (product : json) : result json :=
  images <~ getitem product (lit "images");
  if truthy images
  then first <~ getitem0 images; getitem first (lit "src")
  else Ok JNull.

(** [title] of the loop body. *)
Definition item_title (product : json) : result json :=
  getitem product (lit "name").

(** [excerpt], [image], [tags], [link] and [text] of the loop body. *)
Definition item_payload (product title : json) : result payload :=
  sd <~ py_get product (lit "short_description") (JStr []);
  excerpt <~ clean_html sd;
  img <~ first_image product;
  tl <~ py_get product (lit "tags") (JArr []);
  tags <~ format_tags tl;
  lnk <~ py_get product (lit "permalink") (JStr [HASH]);
  Ok {| text := caption E channel_username title excerpt tags;
        image := img; link := lnk |}.

(** The formatting of one product, without the effects around it. *)
Definition format_item (product : json) : result payload :=
  title <~ item_title product;
  item_payload product title.

(** The body of [for product in reversed(new_products)]. *)
Definition handle (product : json) : M unit :=
  title <- lift (item_title product);
  print (MsgPreparing title);;
  p <- lift (item_payload product title);
  ok <- send_to_channel p;
  (if ok : bool then
     id <- lift (getitem product (lit "id"));
     save_sent_id id;;
     print (MsgSaved id)
   else ret tt);;
  sleep (QArith_base.inject_Z 3).

Definition check_for_new_products : M unit :=
  print MsgChecking;;
  sent_ids <- load_sent_ids;
  fetched <- try_except
               (products <- http_json E fetch_request; ret (Some products))
               (exn_eqb RequestException)
               (fun e => print (MsgFetchError e);; ret None);
  match fetched with
  | None => ret tt
  | Some products =>
      news <- lift (new_products products sent_ids);
      match news with
      | [] => print MsgNoNew
      | _ :: _ =>
          print (MsgFound (length news));;
          for_each (rev news) handle
      end
  end.

(** One round of [while True] in [main]. *)
Definition main_round : M unit :=
  try_except check_for_new_products any_exception
    (fun e => print (MsgLoopError e));;
  print (MsgResting (3600 / 60));;
  sleep (QArith_base.inject_Z 3600).

(** [main], watched for [n] rounds of its loop. *)
Definition main (n : nat) : M unit :=
  print MsgStarted;;
  while_true n main_round.

End Program.
End Bbbbbaqiap92s.

(* --------------------------------------------------------------------- *)
(** ** [testing22.py]                                                     *)
(* --------------------------------------------------------------------- *)

Module Testing22.
Section Program.
Context (E : env).

(** [CHANNEL_USERNAME = os.environ.get("CHANNEL_USERNAME", ...)] with
    the empty text as default, as an f-string writes it. *)
Definition channel_username : pystr := default [] (CHANNEL_USERNAME (cfg E)).

(** The default of [product.get("name", ...)]: the two Persian words for
    "without title". *)
Definition untitled : pystr :=
  [1576; 1583; 1608; 1606; 32; 1593; 1606; 1608; 1575; 1606]%N.

Definition clean_html (raw_html : json) : result pystr :=
  if negb (truthy raw_html) then Ok []
  else
    match raw_html with
    | JStr s => Ok (py_strip (sub_space_newline (sub_tags false s)))
    | _ => Raise TypeError
    end.

(** The loop of [format_tags] over the elements of [tags_list]. *)
Fixpoint hashtags (ts : list json) : result (list pystr) :=
  match ts with
  | [] => Ok []
  | t :: rest =>
      v <~ py_get t (lit "name") (JStr []);
      let name := py_strip (py_str (repr E) v) in
      match name with
      | [] => hashtags rest
      | _ :: _ =>
          let tag_text := replace_space name in
          if has_dot tag_text then hashtags rest
          else tags <~ hashtags rest; Ok ((HASH :: tag_text) :: tags)
      end
  end.

Definition format_tags (tags_list : json) : result pystr :=
  ts <~ py_iter tags_list;
  tags <~ hashtags ts;
  Ok (py_join [SPACE] tags).

(** Both [except] clauses return the empty set. *)
Definition load_sent_ids : M (gset Z) :=
  try_except
    (content <- open_read; lift (ids_of_lines (readlines [] content)))
    any_exception
    (fun e =>
       match e with
       | FileNotFoundError => print MsgNoIdsFile;; ret ∅
       | _ => print (MsgLoadError e);; ret ∅
       end).

Definition save_sent_id (product_id : Z) : M unit :=
  try_except
    (append (str_of_int product_id ++ [LF]))
    any_exception
    (fun e => print (MsgSaveError e)).

(** The body of [send_to_channel] when Telegram asks [ws] more times to
    retry and the interpreter has room for [depth] more nested calls whose
    send runs; the recursive call of the source is the recursive call
    here.  Without room the send raises [RecursionError] inside the [try],
    which [except Exception] catches like any other error. *)
Fixpoint send_to_channel_rec (depth : nat) (ws : list Z) (fin : delivery)
    (p : payload) : M bool :=
  match depth with
  | O => print (MsgSendError RecursionError);; ret false
  | S room =>
      match ws with
      | n :: rest =>
          emit (Api (api_call E p));;
          print (MsgRetryAfter n);;
          sleep (QArith_base.inject_Z n);;
          send_to_channel_rec room rest fin p
      | [] =>
          match fin with
          | Delivered => emit (Api (api_call E p));; print MsgSent;; ret true
          | Refused e =>
              emit (Api (api_call E p));; print (MsgSendError e);; ret false
          | Unsent e => print (MsgSendError e);; ret false
          end
      end
  end.

Definition send_to_channel (p : payload) : M bool :=
  b <- next_send E;
  send_to_channel_rec (stack E) (waits b) (final b) p.

(** [params] of [fetch_products] *)
Definition params (per_page : Z) : list (pystr * pyarg) :=
  [(lit "per_page", AInt per_page);
   (lit "orderby", AStr (lit "date"));
   (lit "order", AStr (lit "asc"))].

(** [asyncio.to_thread(requests.get, API_URL, {"auth": ..., "params":
    params})] calls [requests.get] with the dictionary as its second
    positional argument, which is [params]; no keyword is given. *)
Definition fetch_request (per_page : Z) : request :=
  requests_get (API_URL (cfg E))
    (Some [(lit "auth",
            ATuple [CONSUMER_KEY (cfg E); CONSUMER_SECRET (cfg E)]);
           (lit "params", ADict (params per_page))])
    None None.

Definition fetch_products (per_page : Z) : M json :=
  try_except
    (http_json E (fetch_request per_page))
    any_exception
    (fun e => print (MsgFetchError e);; ret (JArr [])).

(** [int(p.get("id", 0))] *)
Definition product_id (p : json) : result Z :=
  v <~ py_get p (lit "id") (JNum 0);
  py_int v.

(** [[p for p in products if int(p.get("id", 0)) not in sent_ids]] *)
Fixpoint new_products (products : list json) (sent_ids : gset Z)
    : result (list json) :=
  match products with
  | [] => Ok []
  | p :: rest =>
      pid <~ product_id p;
      news <~ new_products rest sent_ids;
      Ok (if bool_decide (pid ∈ sent_ids) then news else p :: news)
  end.

(** The conditional expression that gives [image]; the source wraps it in
    [try] and [except Exception], with [None] for every error. *)
Definition first_image_expr (product : json) : result json :=
  images <~ py_get product (lit "images") JNull;
  if truthy images
  then
    l <~ py_get product (lit "images") (JArr []);
    first <~ getitem0 l;
    py_get first (lit "src") JNull
  else Ok JNull.

Definition first_image (product : json) : json :=
  match first_image_expr product with
  | Ok v => v
  | Raise _ => JNull
  end.

(** [title] of the loop body. *)
Definition item_title (product : json) : result json :=
  py_get product (lit "name") (JStr untitled).

(** [excerpt], [image], [tags], [link] and [text] of the loop body. *)
Definition item_payload (product title : json) : result payload :=
  sd <~ py_get product (lit "short_description") (JStr []);
  excerpt <~ clean_html (py_or sd (JStr []));
  tl <~ py_get product (lit "tags") (JArr []);
  tags <~ format_tags tl;
  lnk <~ py_get product (lit "permalink") (JStr [HASH]);
  Ok {| text := caption E channel_username title excerpt tags;
        image := first_image product;
        link := lnk |}.

(** The formatting of one product, without the effects around it. *)
Definition format_item (product : json) : result payload :=
  title <~ item_title product;
  item_payload product title.

(** The body of [for product in new_products]. *)
Definition handle (product : json) : M unit :=
  pid <- lift (product_id product);
  title <- lift (item_title product);
  print (MsgPreparingId title pid);;
  p <- lift (item_payload product title);
  ok <- send_to_channel p;
  (if ok : bool then
     save_sent_id pid;;
     print (MsgSaved (JNum pid))
   else print (MsgNotSent pid));;
  sleep (SEND_DELAY_SECONDS (cfg E)).

Definition check_for_new_products_once : M unit :=
  print MsgChecking;;
  sent_ids <- load_sent_ids;
  products <- fetch_products 100;
  match products with
  | JArr l =>
      news <- lift (new_products l sent_ids);
      match news with
      | [] => print MsgNoNew
      | _ :: _ =>
          print (MsgFound (length news));;
          for_each news handle
      end
  | _ => print (MsgUnexpectedResponse products)
  end.

(** One round of [while True] in [background_loop]. *)
Definition background_round : M unit :=
  try_except check_for_new_products_once any_exception
    (fun e => print (MsgLoopError e));;
  print (MsgResting (CHECK_INTERVAL_SECONDS (cfg E)));;
  sleep (QArith_base.inject_Z (CHECK_INTERVAL_SECONDS (cfg E))).

(** [background_loop], watched for [n] rounds of its loop. *)
Definition background_loop (n : nat) : M unit :=
  print MsgStarted;;
  while_true n background_round.

End Program.
End Testing22.

(* --------------------------------------------------------------------- *)
(** ** Notions the properties are stated with                             *)
(* --------------------------------------------------------------------- *)

(** The identifier of a catalog item: the integer under ["id"]. *)
Definition item_id (p : json) : option Z :=
  match getitem p (lit "id") with
  | Ok (JNum z) => Some z
  | _ => None
  end.

(** The item has an identifier and it is not in the published set. *)
Definition unsent (P : gset Z) (p : json) : bool :=
  match item_id p with
  | Some z => bool_decide (z ∉ P)
  | None => false
  end.

(** The text of a dedup file that holds [ids], one per line. *)
Definition store_text (ids : list Z) : pystr :=
  flat_map (fun z => str_of_int z ++ [LF]) ids.

(** The calls of the Telegram client in a trace, in order. *)
Definition calls (l : list event) : list call :=
  omap (fun ev => match ev with Api c => Some c | _ => None end) l.

(** The texts appended to the dedup file in a trace, in order. *)
Definition writes (l : list event) : list pystr :=
  omap (fun ev => match ev with Wrote t => Some t | _ => None end) l.

(** The requests sent to the catalog in a trace, in order. *)
Definition requests (l : list event) : list request :=
  omap (fun ev => match ev with Get r => Some r | _ => None end) l.

(** How many rounds of the main loop have gone to sleep in a trace. *)
Definition rests (l : list event) : nat :=
  length (omap (fun ev => match ev with
                         | Print (MsgResting n) => Some n
                         | _ => None
                         end) l).

Definition delivered (b : behaviour) : bool :=
  match final b with
  | Delivered => true
  | Refused _ | Unsent _ => false
  end.

(** The calls that go out to the channel in one call of
    [send_to_channel] under [b]: one for every request to wait, and the
    one that is delivered or refused. *)
Definition attempts (b : behaviour) : nat :=
  match final b with
  | Delivered | Refused _ => S (length (waits b))
  | Unsent _ => length (waits b)
  end.

(** The trace of one call of [send_to_channel] for [p] under [b]. *)
Definition send_trace (E : env) (b : behaviour) (p : payload) : list event :=
  flat_map (fun n => [Api (api_call E p); Print (MsgRetryAfter n);
                      Sleep (QArith_base.inject_Z n)]) (waits b)
  ++ match final b with
     | Delivered => [Api (api_call E p); Print MsgSent]
     | Refused e => [Api (api_call E p); Print (MsgSendError e)]
     | Unsent e => [Print (MsgSendError e)]
     end.

(** Of the identifiers [ids] of the items handled in turn from the [k]-th
    call of [send_to_channel] on, those whose message is delivered. *)
Fixpoint recorded (E : env) (k : nat) (ids : list Z) : list Z :=
  match ids with
  | [] => []
  | z :: rest =>
      (if delivered (channel E k) then [z] else []) ++ recorded E (S k) rest
  end.

(** The calls made for the payloads [ps] handled in turn from the [k]-th
    call of [send_to_channel] on: for each payload the calls that go out
    to the channel. *)
Fixpoint calls_for (E : env) (k : nat) (ps : list payload) : list call :=
  match ps with
  | [] => []
  | p :: rest =>
      repeat (api_call E p) (attempts (channel E k))
      ++ calls_for E (S k) rest
  end.

(** A match of [<.*?>] starts somewhere in [s]. *)
Fixpoint has_tag (s : pystr) : bool :=
  match s with
  | [] => false
  | c :: r => (c =? LT)%N && closes r || has_tag r
  end.

(** The hashtag string in the words of the specification: every name with
    its spaces replaced, left out when the result has a period (or, with
    [skip_empty], is empty), the rest prefixed with [#] and joined by
    single spaces. *)
Definition hashtags_worded (skip_empty : bool) (names : list pystr) : pystr :=
  py_join [SPACE]
    (List.map (cons HASH)
       (List.filter
          (fun t => negb (has_dot t)
                    && (negb skip_empty || negb (Nat.eqb (length t) 0)))
          (List.map replace_space names))).

(** The waits of a trace, in order. *)
Definition sleeps (l : list event) : list QArith_base.Q :=
  omap (fun ev => match ev with Sleep s => Some s | _ => None end) l.

(** The tag [t] is an object whose name is the text [n]. *)
Definition named (t : json) (n : pystr) : Prop :=
  exists fields,
    t = JObj fields /\ lookup_key (lit "name") fields = Some (JStr n).

(** The computation [m] leaves the observation [f] of the world as it
    is, whether it returns or raises. *)
Definition keeps {A X} (f : world -> X) (m : M A) : Prop :=
  forall w, f (snd (m w)) = f w.

(** What reading the dedup file gives before any [except] clause: the set
    of its identifiers or the exception of [open], of the reading or of
    [int]. *)
Definition stored_ids (f : file) : result (gset Z) :=
  match data f with
  | None => Raise FileNotFoundError
  | Some content =>
      if can_read f then ids_of_lines (readlines [] content) else Raise OSError
  end.

(** What holds of every character of a number's text. *)
Definition plain (c : char) : Prop :=
  is_space c = false /\ (c =? LF)%N = false /\ (c =? CR)%N = false.

(** The payload either program formats for [p], when it formats one. *)
Definition payload_plain (E : env) (p : json) : option payload :=
  match Bbbbbaqiap92s.format_item E p with
  | Ok pl => Some pl
  | Raise _ => None
  end.

Definition payload_hardened (E : env) (p : json) : option payload :=
  match Testing22.format_item E p with
  | Ok pl => Some pl
  | Raise _ => None
  end.

(** The trace of the loop body of [bbbbbaqiap92s.py] for an item with
    title [title], identifier [z] and payload [pl] under the answer [b] of
    the channel. *)
Definition item_trace_plain (E : env) (b : behaviour) (title : json) (z : Z)
    (pl : payload) : list event :=
  [Print (MsgPreparing title)]
  ++ send_trace E b pl
  ++ (if delivered b
      then [Wrote (str_of_int z ++ [LF]); Print (MsgSaved (JNum z))]
      else [])
  ++ [Sleep (QArith_base.inject_Z 3)].

(** The same for [testing22.py]. *)
Definition item_trace_hardened (E : env) (b : behaviour) (title : json)
    (z : Z) (pl : payload) : list event :=
  [Print (MsgPreparingId title z)]
  ++ send_trace E b pl
  ++ (if delivered b
      then [Wrote (str_of_int z ++ [LF]); Print (MsgSaved (JNum z))]
      else [Print (MsgNotSent z)])
  ++ [Sleep (SEND_DELAY_SECONDS (cfg E))].

(** The world after the loop body ran for an item with identifier [z]
    and left the trace [tr]: the file has one more line exactly when the
    message was delivered. *)
Definition after_item (w : world) (b : behaviour) (z : Z) (tr : list event)
    : world :=
  {| disk := if delivered b then disk (written w (str_of_int z ++ [LF]))
             else disk w;
     sends := S (sends w);
     gets := gets w;
     log := log w ++ tr |}.

(** The item can be handled: it has an identifier and a payload. *)
Definition ready_plain (E : env) (p : json) : Prop :=
  is_Some (item_id p) /\ is_Some (payload_plain E p).

Definition ready_hardened (E : env) (p : json) : Prop :=
  is_Some (item_id p) /\ is_Some (payload_hardened E p).

(** The part of [check_for_new_products_once] behind the fetch, as a
    computation of its own. *)
Definition after_fetch_hardened (E : env) (sent_ids : gset Z)
    (products : json) : M unit :=
  match products with
  | JArr l =>
      bindM (lift (Testing22.new_products l sent_ids))
        (fun news =>
           match news with
           | [] => print MsgNoNew
           | _ :: _ =>
               bindM (print (MsgFound (length news)))
                 (fun _ => for_each news (Testing22.handle E))
           end)
  | _ => print (MsgUnexpectedResponse products)
  end.

(** The part of [check_for_new_products] behind the [try] of the fetch;
    [None] stands for the [return] of its [except] clause. *)
Definition after_fetch_plain (E : env) (sent_ids : gset Z)
    (fetched : option json) : M unit :=
  match fetched with
  | None => ret tt
  | Some products =>
      bindM (lift (Bbbbbaqiap92s.new_products products sent_ids))
        (fun news =>
           match news with
           | [] => print MsgNoNew
           | _ :: _ =>
               bindM (print (MsgFound (length news)))
                 (fun _ => for_each (rev news) (Bbbbbaqiap92s.handle E))
           end)
  end.

(** The value of the field [k] of an item, when the item is an object
    that has it. *)
Definition field (p : json) (k : string) : option json :=
  match p with
  | JObj fields => lookup_key (lit k) fields
  | _ => None
  end.

Definition is_object (t : json) : bool :=
  match t with
  | JObj _ => true
  | _ => false
  end.

Definition has_text_name (t : json) : bool :=
  match field t "name" with
  | Some (JStr _) => true
  | _ => false
  end.

(** What [testing22.py] needs of an item to format it: an object whose
    excerpt, when present, is a text or false, and whose tags, when
    present, are a list of objects. *)
Definition formattable_hardened (p : json) : bool :=
  is_object p
  && match field p "short_description" with
     | None | Some (JStr _) => true
     | Some v => negb (truthy v)
     end
  && match field p "tags" with
     | None => true
     | Some (JArr ts) => forallb is_object ts
     | Some _ => false
     end.

(** What [bbbbbaqiap92s.py] needs: a name; images that are false or a
    list whose first element is an object with a source; an excerpt that,
    when present, is a text; tags that, when present, are a list of
    objects with a text as name. *)
Definition formattable_plain (p : json) : bool :=
  match field p "name" with
  | Some _ => true
  | None => false
  end
  && match field p "images" with
     | Some (JArr (JObj f :: _)) =>
         match lookup_key (lit "src") f with
         | Some _ => true
         | None => false
         end
     | Some v => negb (truthy v)
     | None => false
     end
  && match field p "short_description" with
     | None | Some (JStr _) => true
     | Some _ => false
     end
  && match field p "tags" with
     | None => true
     | Some (JArr ts) => forallb has_text_name ts
     | Some _ => false
     end.

(** From [w] to [w'] the trace has only grown, by events [evs], and the
    dedup file has grown by exactly the texts these events wrote, each of
    which satisfies [P]; nothing of the old text or of the permissions
    has changed, and a file that was there still is. *)
Definition grows_by (P : pystr -> Prop) (w w' : world) : Prop :=
  exists evs,
    log w' = log w ++ evs
    /\ file_text (disk w') = file_text (disk w) ++ concat (writes evs)
    /\ Forall P (writes evs)
    /\ can_read (disk w') = can_read (disk w)
    /\ can_write (disk w') = can_write (disk w)
    /\ (is_Some (data (disk w)) -> is_Some (data (disk w'))).

(** Every run of [m] makes the world grow in this way. *)
Definition growing (P : pystr -> Prop) {A} (m : M A) : Prop :=
  forall w, grows_by P w (snd (m w)).

(** The line of an identifier in the dedup file. *)
Definition id_line (t : pystr) : Prop := exists z, t = str_of_int z ++ [LF].

(** A match of [\s+\n] starts somewhere in [s]. *)
Fixpoint has_space_newline (s : pystr) : bool :=
  match s with
  | [] => false
  | c :: r => is_space c && newline_ahead r || has_space_newline r
  end.

(** [t] is one hashtag: a [#] and a body without space and without
    period, which is not empty when [nonempty] is set. *)
Definition is_hashtag (nonempty : bool) (t : pystr) : bool :=
  match t with
  | c :: body =>
      (c =? HASH)%N
      && negb (has_dot body)
      && negb (existsb (fun c => (c =? SPACE)%N) body)
      && (negb nonempty || negb (Nat.eqb (length body) 0))
  | [] => false
  end.

(** The item is an object whose identifier is an integer or is not
    there. *)
Definition id_or_none (p : json) : Prop :=
  is_object p = true /\ (field p "id" = None \/ is_Some (item_id p)).

(** The identifier [testing22.py] works with: [0] for an item that has
    none. *)
Definition id_or_zero (p : json) : Z := default 0 (item_id p).

(** The excerpt either program makes of the description of the item [p]:
    the text with every match of the markup pattern taken out; in
    [testing22.py] also without the white space before a line feed and at
    the ends.  Empty when there is no description or it is no text. *)
Definition excerpt_plain (p : json) : pystr :=
  match field p "short_description" with
  | Some (JStr s) => sub_tags false s
  | _ => []
  end.

Definition excerpt_hardened (p : json) : pystr :=
  match field p "short_description" with
  | Some (JStr s) => py_strip (sub_space_newline (sub_tags false s))
  | _ => []
  end.

(** The default of [sys.int_max_str_digits] in CPython 3.11: [int]
    refuses a text with more digits and [str] an integer with more, which
    [int_of_str] and [str_of_int] do not model.  A line is [short] when,
    trimmed, it is within that limit, so that the limit does not bear on
    it. *)
Definition int_max_str_digits : Z := 4300.

Definition short (line : pystr) : Prop :=
  Z.of_nat (length (py_strip line)) <= int_max_str_digits.

(** ** Concrete settings, answers and items for the examples *)

Definition demo_cfg : config :=
  {| CHANNEL_ID := Some (lit "-1001");
     CHANNEL_USERNAME := Some (lit "@shop");
     CONSUMER_KEY := Some (lit "ck");
     CONSUMER_SECRET := Some (lit "cs");
     API_URL := Some (lit "https://shop.example/wp-json/wc/v3/products");
     CHECK_INTERVAL_SECONDS := 3600;
     SEND_DELAY_SECONDS := QArith_base.inject_Z 3 |}.

(** A product as the catalog returns it. *)
Definition product (id : Z) (name : string) : json :=
  JObj [(lit "id", JNum id);
        (lit "name", JStr (lit name));
        (lit "short_description", JStr (lit "<p>fresh</p>"));
        (lit "images",
         JArr [JObj [(lit "src", JStr (lit "https://shop.example/a.png"))]]);
        (lit "tags", JArr [JObj [(lit "name", JStr (lit "new in"))]]);
        (lit "permalink", JStr (lit "https://shop.example/p"))].

(** A channel that delivers every message at once, a catalog that
    answers every request with [body]. *)
Definition demo_env (body : result json) : env :=
  {| cfg := demo_cfg;
     repr := fun _ => lit "[...]";
     telegram := fun _ => {| waits := []; final := Delivered |};
     network := fun _ => body;
     stack := 900 |}.

(** A channel that refuses the call number [k] and delivers the others. *)
Definition refusing_env (k : nat) (body : result json) : env :=
  {| cfg := demo_cfg;
     repr := fun _ => lit "[...]";
     telegram := fun i => {| waits := [];
                             final := if Nat.eqb i k then Refused TelegramError
                                      else Delivered |};
     network := fun _ => body;
     stack := 900 |}.

Definition disk_of (content : option pystr) (r w : bool) : world :=
  {| disk := {| data := content; can_read := r; can_write := w |};
     sends := 0; gets := 0; log := [] |}.

(* ===================================================================== *)
(** * Part II: verification                                               *)
(* ===================================================================== *)

(** ** The Python operations on small inputs *)

Example sub_tags_paragraph :
  sub_tags false (lit "<p>new <b>in</b></p>") = lit "new in".
Proof. reflexivity. Qed.

(** A [<] with no [>] behind it on its line stays, and so does a [>]
    alone. *)
Example sub_tags_open :
  sub_tags false (lit "1 < 2" ++ [LF] ++ lit "3 > 2")
  = lit "1 < 2" ++ [LF] ++ lit "3 > 2".
Proof. reflexivity. Qed.

Example sub_tags_nested : sub_tags false (lit "a<<b>>c") = lit "a>c".
Proof. reflexivity. Qed.

(** Blanks before a line feed go, a run of line feeds becomes one. *)
Example sub_space_newline_run :
  sub_space_newline (lit "a  " ++ [LF; LF] ++ lit " b" ++ [LF])
  = lit "a" ++ [LF] ++ lit " b" ++ [LF].
Proof. reflexivity. Qed.

Example int_of_str_signed : int_of_str (lit " -1_000 ") = Some (-1000).
Proof. reflexivity. Qed.

Example int_of_str_rejects :
  int_of_str (lit "1__0") = None /\ int_of_str (lit "_1") = None
  /\ int_of_str (lit "- 1") = None /\ int_of_str (lit "12a") = None.
Proof. repeat split; reflexivity. Qed.

Example readlines_universal :
  readlines [] (lit "1" ++ [CR; LF] ++ lit "2" ++ [CR] ++ lit "3" ++ [LF]
                ++ lit "4")
  = [lit "1" ++ [LF]; lit "2" ++ [LF]; lit "3" ++ [LF]; lit "4"].
Proof. reflexivity. Qed.

Example store_text_two :
  store_text [7; -12] = lit "7" ++ [LF] ++ lit "-12" ++ [LF].
Proof. reflexivity. Qed.

(** ** Running the monad *)

Lemma log_set_log w l : log (set_log w l) = l.
Proof. reflexivity. Qed.

Lemma set_log_set_log w l l' : set_log (set_log w l) l' = set_log w l'.
Proof. reflexivity. Qed.

Lemma bindM_ok {A B} (m : M A) (k : A -> M B) w a w' :
  m w = (Ok a, w') -> bindM m k w = k a w'.
Proof. intros H. unfold bindM. now rewrite H. Qed.

Lemma bindM_raise {A B} (m : M A) (k : A -> M B) w e w' :
  m w = (Raise e, w') -> bindM m k w = (Raise e, w').
Proof. intros H. unfold bindM. now rewrite H. Qed.

Lemma calls_app l1 l2 : calls (l1 ++ l2) = calls l1 ++ calls l2.
Proof. apply omap_app. Qed.

Lemma writes_app l1 l2 : writes (l1 ++ l2) = writes l1 ++ writes l2.
Proof. apply omap_app. Qed.

Lemma requests_app l1 l2 : requests (l1 ++ l2) = requests l1 ++ requests l2.
Proof. apply omap_app. Qed.

Lemma rests_app l1 l2 : rests (l1 ++ l2) = (rests l1 + rests l2)%nat.
Proof. unfold rests. now rewrite omap_app, length_app. Qed.

(** ** The publisher *)

Section Publisher.
Context (E : env).

Lemma send_to_channel_rec_run depth : forall ws fin p w,
  let b := if (length ws <? depth)%nat then {| waits := ws; final := fin |}
           else {| waits := firstn depth ws; final := Unsent RecursionError |} in
  Bbbbbaqiap92s.send_to_channel_rec E depth ws fin p w
  = (Ok (delivered b), set_log w (log w ++ send_trace E b p)).
Proof.
  induction depth as [|room IH]; intros ws fin p w.
  - reflexivity.
  - destruct ws as [|n ws].
    + cbn [length Nat.ltb Nat.leb]. cbv zeta.
      unfold send_trace, delivered. cbn [waits final flat_map app].
      cbn [Bbbbbaqiap92s.send_to_channel_rec].
      destruct fin; unfold bindM, emit, print, emit, ret, set_log;
        cbn [disk sends gets log]; now rewrite <- ?app_assoc.
    + cbn [Bbbbbaqiap92s.send_to_channel_rec].
      unfold bindM at 1. unfold emit at 1.
      unfold bindM at 1. unfold print, emit at 1.
      unfold bindM at 1. unfold sleep, emit at 1.
      rewrite IH. cbv zeta.
      change (length (n :: ws) <? S room)%nat with (length ws <? room)%nat.
      destruct (length ws <? room)%nat;
        unfold send_trace, delivered, set_log;
        cbn [waits final firstn flat_map app disk sends gets log];
        now rewrite <- !app_assoc.
Qed.

Lemma send_to_channel_run p w :
  Bbbbbaqiap92s.send_to_channel E p w
  = (Ok (delivered (channel E (sends w))),
     {| disk := disk w; sends := S (sends w); gets := gets w;
        log := log w ++ send_trace E (channel E (sends w)) p |}).
Proof.
  unfold Bbbbbaqiap92s.send_to_channel, bindM, next_send.
  rewrite send_to_channel_rec_run. cbv zeta. unfold channel.
  destruct (telegram E (sends w)) as [ws fin]. cbn [waits final].
  now destruct (length ws <? stack E)%nat.
Qed.

Lemma send_to_channel_same :
  Testing22.send_to_channel E = Bbbbbaqiap92s.send_to_channel E.
Proof. reflexivity. Qed.

Lemma calls_retries p ws :
  calls (flat_map (fun n => [Api (api_call E p); Print (MsgRetryAfter n);
                             Sleep (QArith_base.inject_Z n)]) ws)
  = repeat (api_call E p) (length ws).
Proof.
  induction ws as [|n ws IH]; [reflexivity|].
  simpl. unfold calls in *. simpl. now rewrite IH.
Qed.

Lemma calls_send_trace b p :
  calls (send_trace E b p) = repeat (api_call E p) (attempts b).
Proof.
  unfold send_trace, attempts. rewrite calls_app, calls_retries.
  destruct (final b); cbn [calls omap list_omap];
    rewrite ?app_nil_r; trivial; now rewrite <- repeat_cons.
Qed.

Lemma writes_send_trace b p : writes (send_trace E b p) = [].
Proof.
  unfold send_trace. rewrite writes_app.
  assert (H : forall ws,
    writes (flat_map (fun n => [Api (api_call E p); Print (MsgRetryAfter n);
                                Sleep (QArith_base.inject_Z n)]) ws) = []).
  { induction ws as [|n ws IH]; [reflexivity|exact IH]. }
  rewrite H. now destruct (final b).
Qed.

(** Never more calls go out than the recursion has room for. *)
Lemma attempts_channel k : (attempts (channel E k) <= stack E)%nat.
Proof.
  unfold channel, attempts.
  destruct (length (waits (telegram E k)) <? stack E)%nat eqn:Hlt.
  - apply Nat.ltb_lt in Hlt. destruct (final (telegram E k)); lia.
  - cbn [waits final]. rewrite length_firstn. lia.
Qed.

End Publisher.

Lemma sleeps_app l1 l2 : sleeps (l1 ++ l2) = sleeps l1 ++ sleeps l2.
Proof. apply omap_app. Qed.

Lemma sleeps_send_trace E b p :
  sleeps (send_trace E b p) = List.map QArith_base.inject_Z (waits b).
Proof.
  unfold send_trace. rewrite sleeps_app.
  replace (sleeps match final b with
                  | Delivered => [Api (api_call E p); Print MsgSent]
                  | Refused e => [Api (api_call E p); Print (MsgSendError e)]
                  | Unsent e => [Print (MsgSendError e)]
                  end) with (@nil QArith_base.Q) by now destruct (final b).
  rewrite app_nil_r.
  induction (waits b) as [|n ws IH]; [reflexivity|].
  simpl. unfold sleeps in *. simpl. now rewrite IH.
Qed.

(** C4, as worded, fails: the retries end where the recursion depth of
    the interpreter ends.  Telegram asks three times to wait and would
    deliver then; with room for two nested calls the call sends twice,
    prints the [RecursionError] of the third and returns [False], in both
    programs; with room for four it delivers. *)
Lemma c4_counterexample :
  let room n := {| cfg := demo_cfg;
                   repr := fun _ => lit "[...]";
                   telegram := fun _ => {| waits := [1; 1; 1];
                                           final := Delivered |};
                   network := fun _ => Ok JNull;
                   stack := n |} in
  let E := room 2%nat in
  let p := {| text := lit "a"; image := JNull; link := JStr [HASH] |} in
  let w := disk_of None true true in
  final (telegram E 0) = Delivered
  /\ fst (Bbbbbaqiap92s.send_to_channel E p w) = Ok false
  /\ fst (Testing22.send_to_channel E p w) = Ok false
  /\ log (snd (Testing22.send_to_channel E p w))
     = [Api (api_call E p); Print (MsgRetryAfter 1);
        Sleep (QArith_base.inject_Z 1);
        Api (api_call E p); Print (MsgRetryAfter 1);
        Sleep (QArith_base.inject_Z 1);
        Print (MsgSendError RecursionError)]
  /\ log (snd (Bbbbbaqiap92s.send_to_channel E p w))
     = log (snd (Testing22.send_to_channel E p w))
  /\ fst (Testing22.send_to_channel (room 4%nat) p w) = Ok true.
Proof. repeat split; reflexivity. Qed.

(** C4, amended.  One call of [send_to_channel] returns, whatever
    Telegram has in store: after each answer [RetryAfter n] it prints,
    sleeps exactly [n] seconds and sends the same payload again, with no
    limit of its own, as long as the recursion depth of the interpreter
    has room for the nested call ([channel] is what the call sees of
    Telegram's answers [t] under that limit, so never more than [stack]
    calls go out).  The first answer that is not a rate limit ends the
    call, with [True] after a delivery, with the error printed and
    [False] after any other failure, which is not retried; the
    [RecursionError] of the call that finds no room is such a failure.
    The dedup file is not touched.  Both programs agree. *)
Theorem c4_rate_limit_is_the_only_retry (E : env) (p : payload) (w : world) :
  let t := telegram E (sends w) in
  let b := channel E (sends w) in
  let w' := {| disk := disk w; sends := S (sends w); gets := gets w;
               log := log w ++ send_trace E b p |} in
  Bbbbbaqiap92s.send_to_channel E p w = (Ok (delivered b), w')
  /\ Testing22.send_to_channel E p w = (Ok (delivered b), w')
  /\ calls (send_trace E b p) = repeat (api_call E p) (attempts b)
  /\ sleeps (send_trace E b p) = List.map QArith_base.inject_Z (waits b)
  /\ last (send_trace E b p)
     = Some (Print (match final b with
                    | Delivered => MsgSent
                    | Refused e | Unsent e => MsgSendError e
                    end))
  /\ b = (if (length (waits t) <? stack E)%nat then t
          else {| waits := firstn (stack E) (waits t);
                  final := Unsent RecursionError |})
  /\ (attempts b <= stack E)%nat.
Proof.
  intros t b w'.
  split; [apply send_to_channel_run|].
  split; [rewrite send_to_channel_same; apply send_to_channel_run|].
  split; [apply calls_send_trace|].
  split; [apply sleeps_send_trace|].
  split.
  { unfold send_trace. rewrite last_app. now destruct (final b). }
  split; [reflexivity|apply attempts_channel].
Qed.

(** ** Hashtags *)

Section Hashtags.
Context (E : env).

Lemma hashtags_plain ts names :
  Forall2 named ts names ->
  Bbbbbaqiap92s.hashtags ts
  = Ok (List.map (cons HASH)
          (List.filter (fun t => negb (has_dot t))
             (List.map replace_space names))).
Proof.
  induction 1 as [|t n ts names (fields & -> & Hn) _ IH]; [reflexivity|].
  cbn [Bbbbbaqiap92s.hashtags getitem bind]. rewrite Hn. cbn [bind].
  rewrite IH. cbn [bind List.map List.filter].
  now destruct (has_dot (replace_space n)).
Qed.

Lemma hashtags_hardened ts names :
  Forall2 named ts names ->
  Testing22.hashtags E ts
  = Ok (List.map (cons HASH)
          (List.filter
             (fun t => negb (has_dot t) && negb (Nat.eqb (length t) 0))
             (List.map replace_space (List.map py_strip names)))).
Proof.
  induction 1 as [|t n ts names (fields & -> & Hn) _ IH]; [reflexivity|].
  cbn [Testing22.hashtags py_get bind]. rewrite Hn. cbn [bind py_str].
  cbn [List.map List.filter].
  destruct (py_strip n) as [|c r] eqn:Hs.
  - cbn. exact IH.
  - destruct (has_dot (replace_space (c :: r))) eqn:Hd.
    + cbn [negb andb]. exact IH.
    + rewrite IH. reflexivity.
Qed.

End Hashtags.

(** C10, as worded, fails on both programs: [testing22.py] trims the name
    before it replaces the spaces, [bbbbbaqiap92s.py] keeps an empty
    name. *)
Lemma c10_counterexample :
  Testing22.format_tags (demo_env (Ok JNull))
    (JArr [JObj [(lit "name", JStr (lit " a"))]])
  = Ok (lit "#a")
  /\ hashtags_worded true [lit " a"] = lit "#_a"
  /\ Bbbbbaqiap92s.format_tags (JArr [JObj [(lit "name", JStr [])]])
     = Ok (lit "#")
  /\ hashtags_worded true [[]] = [].
Proof. repeat split; reflexivity. Qed.

(** C10, amended.  For tags whose names are texts, in input order:
    [bbbbbaqiap92s.py] replaces the spaces of every name, leaves the name
    out when the result has a period and keeps every other one, the empty
    one too; [testing22.py] first trims the name and then does what the
    claim says.  Both prefix [#] and join with single spaces. *)
Theorem c10_hashtags (E : env) (ts : list json) (names : list pystr) :
  Forall2 named ts names ->
  Bbbbbaqiap92s.format_tags (JArr ts) = Ok (hashtags_worded false names)
  /\ Testing22.format_tags E (JArr ts)
     = Ok (hashtags_worded true (List.map py_strip names)).
Proof.
  intros H. split.
  - unfold Bbbbbaqiap92s.format_tags. cbn [py_iter bind].
    rewrite (hashtags_plain ts names H). cbn [bind].
    unfold hashtags_worded. do 3 f_equal.
    apply filter_ext. intros t. cbn. now rewrite andb_true_r.
  - unfold Testing22.format_tags. cbn [py_iter bind].
    rewrite (hashtags_hardened E ts names H). reflexivity.
Qed.

Lemma c10_hashtags_witness :
  Bbbbbaqiap92s.format_tags
    (JArr [JObj [(lit "name", JStr (lit "new in"))];
           JObj [(lit "name", JStr (lit "v1.2"))]])
  = Ok (lit "#new_in")
  /\ Testing22.format_tags (demo_env (Ok JNull))
       (JArr [JObj [(lit "name", JStr (lit "new in"))];
              JObj [(lit "name", JStr (lit "v1.2"))]])
     = Ok (lit "#new_in").
Proof.
  apply (c10_hashtags (demo_env (Ok JNull)) _ [lit "new in"; lit "v1.2"]).
  repeat constructor; eexists; (split; [reflexivity|reflexivity]).
Defined.

(** ** What a computation leaves untouched *)

Section Keeps.
Context {X : Type} (f : world -> X).

Lemma keeps_ret {A} (a : A) : keeps f (ret a).
Proof. now intros w. Qed.

Lemma keeps_raise {A} e : keeps f (@raise A e).
Proof. now intros w. Qed.

Lemma keeps_lift {A} (r : result A) : keeps f (lift r).
Proof. now intros w. Qed.

Lemma keeps_bind {A B} (m : M A) (k : A -> M B) :
  keeps f m -> (forall a, keeps f (k a)) -> keeps f (bindM m k).
Proof.
  intros Hm Hk w. unfold bindM. specialize (Hm w).
  destruct (m w) as [[a|e] w1]; simpl in *; [|exact Hm].
  now rewrite Hk.
Qed.

Lemma keeps_try {A} (m : M A) c h :
  keeps f m -> (forall e, keeps f (h e)) -> keeps f (try_except m c h).
Proof.
  intros Hm Hh w. unfold try_except. specialize (Hm w).
  destruct (m w) as [[a|e] w1]; simpl in *; [exact Hm|].
  destruct (c e); [now rewrite Hh|exact Hm].
Qed.

Lemma keeps_for_each {A} (l : list A) body :
  (forall a, keeps f (body a)) -> keeps f (for_each l body).
Proof.
  intros Hb. induction l as [|a l IH]; [apply keeps_ret|].
  simpl. apply keeps_bind; [apply Hb|intros _; exact IH].
Qed.

Lemma keeps_while n body : keeps f body -> keeps f (while_true n body).
Proof.
  intros Hb. induction n as [|n IH]; [apply keeps_ret|].
  simpl. apply keeps_bind; [exact Hb|intros _; exact IH].
Qed.

Lemma keeps_if {A} (b : bool) (m1 m2 : M A) :
  keeps f m1 -> keeps f m2 -> keeps f (if b then m1 else m2).
Proof. now destruct b. Qed.

End Keeps.

Create HintDb keeps discriminated.
#[local] Hint Resolve keeps_ret keeps_raise keeps_lift keeps_bind keeps_try
  keeps_for_each keeps_while keeps_if : keeps.

(** The dedup file changes only in [append]. *)
Lemma keeps_disk_emit ev : keeps disk (emit ev).
Proof. now intros w. Qed.

Lemma keeps_disk_next_send E : keeps disk (next_send E).
Proof. now intros w. Qed.

Lemma keeps_disk_http E r : keeps disk (http_json E r).
Proof. now intros w. Qed.

Lemma keeps_disk_open_read : keeps disk open_read.
Proof.
  intros w. unfold open_read.
  destruct (data (disk w)); [destruct (can_read (disk w))|]; reflexivity.
Qed.

(** The requests of the trace grow only in [http_json]. *)
Lemma keeps_requests_emit ev :
  (forall r, ev <> Get r) -> keeps (fun w => requests (log w)) (emit ev).
Proof.
  intros H w. simpl. rewrite requests_app.
  destruct ev; try (simpl; apply app_nil_r). now destruct (H r).
Qed.

Lemma keeps_requests_print m : keeps (fun w => requests (log w)) (print m).
Proof. apply keeps_requests_emit. discriminate. Qed.

Lemma keeps_requests_sleep s : keeps (fun w => requests (log w)) (sleep s).
Proof. apply keeps_requests_emit. discriminate. Qed.

Lemma keeps_requests_next_send E :
  keeps (fun w => requests (log w)) (next_send E).
Proof. now intros w. Qed.

Lemma keeps_requests_open_read : keeps (fun w => requests (log w)) open_read.
Proof.
  intros w. unfold open_read.
  destruct (data (disk w)); [destruct (can_read (disk w))|]; reflexivity.
Qed.

Lemma keeps_requests_append t : keeps (fun w => requests (log w)) (append t).
Proof.
  intros w. unfold append. destruct (can_write (disk w)); [|reflexivity].
  simpl. rewrite requests_app. apply app_nil_r.
Qed.

Lemma keeps_requests_send E p :
  keeps (fun w => requests (log w)) (Bbbbbaqiap92s.send_to_channel E p).
Proof.
  intros w. rewrite send_to_channel_run. simpl. rewrite requests_app.
  assert (H : requests (send_trace E (channel E (sends w)) p) = []).
  { unfold send_trace. rewrite requests_app.
    replace (requests match final (channel E (sends w)) with
                      | Delivered => [Api (api_call E p); Print MsgSent]
                      | Refused e =>
                          [Api (api_call E p); Print (MsgSendError e)]
                      | Unsent e => [Print (MsgSendError e)]
                      end) with (@nil request)
      by now destruct (final (channel E (sends w))).
    rewrite app_nil_r.
    induction (waits (channel E (sends w))); [reflexivity|assumption]. }
  rewrite H. apply app_nil_r.
Qed.

#[local] Hint Resolve keeps_requests_print keeps_requests_sleep
  keeps_requests_next_send keeps_requests_open_read keeps_requests_append
  keeps_requests_send : keeps.

(** Splits a goal [keeps f m] along the structure of [m]. *)
Ltac keeps_step :=
  lazymatch goal with
  | |- keeps _ (bindM _ _) => apply keeps_bind
  | |- keeps _ (try_except _ _ _) => apply keeps_try
  | |- keeps _ (for_each _ _) => apply keeps_for_each
  | |- keeps _ (while_true _ _) => apply keeps_while
  | |- keeps _ (match ?x with _ => _ end) => destruct x
  | |- keeps _ _ => solve [auto with keeps]
  | |- forall _, _ => intro
  end.

Lemma keeps_requests_handle_plain E p :
  keeps (fun w => requests (log w)) (Bbbbbaqiap92s.handle E p).
Proof.
  unfold Bbbbbaqiap92s.handle, Bbbbbaqiap92s.save_sent_id.
  repeat keeps_step.
Qed.

Lemma keeps_requests_handle_hardened E p :
  keeps (fun w => requests (log w)) (Testing22.handle E p).
Proof.
  unfold Testing22.handle, Testing22.save_sent_id.
  rewrite send_to_channel_same. repeat keeps_step.
Qed.

(** ** Loading the dedup file *)

Lemma read_ids_run w :
  bindM open_read (fun content => lift (ids_of_lines (readlines [] content))) w
  = (stored_ids (disk w), w).
Proof.
  unfold bindM, open_read, stored_ids, lift.
  destruct (data (disk w)); [destruct (can_read (disk w))|]; reflexivity.
Qed.

Lemma load_plain_run w :
  Bbbbbaqiap92s.load_sent_ids w
  = match stored_ids (disk w) with
    | Raise FileNotFoundError =>
        (Ok ∅, set_log w (log w ++ [Print MsgNoIdsFile]))
    | r => (r, w)
    end.
Proof.
  unfold Bbbbbaqiap92s.load_sent_ids, try_except. rewrite read_ids_run.
  destruct (stored_ids (disk w)) as [s|[]]; reflexivity.
Qed.

Lemma load_hardened_run w :
  Testing22.load_sent_ids w
  = match stored_ids (disk w) with
    | Ok s => (Ok s, w)
    | Raise FileNotFoundError =>
        (Ok ∅, set_log w (log w ++ [Print MsgNoIdsFile]))
    | Raise e => (Ok ∅, set_log w (log w ++ [Print (MsgLoadError e)]))
    end.
Proof.
  unfold Testing22.load_sent_ids, try_except. rewrite read_ids_run.
  destruct (stored_ids (disk w)) as [s|[]]; reflexivity.
Qed.

Lemma keeps_requests_load_plain :
  keeps (fun w => requests (log w)) Bbbbbaqiap92s.load_sent_ids.
Proof. unfold Bbbbbaqiap92s.load_sent_ids. repeat keeps_step. Qed.

Lemma keeps_requests_load_hardened :
  keeps (fun w => requests (log w)) Testing22.load_sent_ids.
Proof. unfold Testing22.load_sent_ids. repeat keeps_step. Qed.

Lemma keeps_disk_load_plain : keeps disk Bbbbbaqiap92s.load_sent_ids.
Proof.
  intros w. rewrite load_plain_run.
  destruct (stored_ids (disk w)) as [s|[]]; reflexivity.
Qed.

Lemma keeps_disk_load_hardened : keeps disk Testing22.load_sent_ids.
Proof.
  intros w. rewrite load_hardened_run.
  destruct (stored_ids (disk w)) as [s|[]]; reflexivity.
Qed.

(** ** The request for the catalog *)

Lemma requests_plain_pass E w :
  requests (log (snd (Bbbbbaqiap92s.check_for_new_products E w)))
  = requests (log w)
    ++ match stored_ids (disk w) with
       | Ok _ | Raise FileNotFoundError => [Bbbbbaqiap92s.fetch_request E]
       | Raise _ => []
       end.
Proof.
  unfold Bbbbbaqiap92s.check_for_new_products.
  unfold bindM at 1. unfold print, emit at 1.
  unfold bindM at 1. rewrite load_plain_run. cbn [disk set_log].
  assert (Hrest : forall (w1 : world) (s : gset Z),
    requests (log (snd (bindM
      (try_except
         (bindM (http_json E (Bbbbbaqiap92s.fetch_request E))
            (fun products => ret (Some products)))
         (exn_eqb RequestException)
         (fun e => bindM (print (MsgFetchError e)) (fun _ => ret None)))
      (fun fetched =>
         match fetched with
         | None => ret tt
         | Some products =>
             bindM (lift (Bbbbbaqiap92s.new_products products s))
               (fun news =>
                  match news with
                  | [] => print MsgNoNew
                  | _ :: _ =>
                      bindM (print (MsgFound (length news)))
                        (fun _ => for_each (rev news) (Bbbbbaqiap92s.handle E))
                  end)
         end) w1)))
    = requests (log w1) ++ [Bbbbbaqiap92s.fetch_request E]).
  { intros w1 s. unfold bindM at 1. unfold try_except.
    unfold bindM at 1. unfold http_json at 1.
    destruct (network E (gets w1)) as [body|e].
    - cbn [ret]. 
      set (w2 := {| disk := disk w1; sends := sends w1; gets := S (gets w1);
                    log := log w1 ++ [Get (Bbbbbaqiap92s.fetch_request E)] |}).
      assert (K : keeps (fun w => requests (log w))
        (bindM (lift (Bbbbbaqiap92s.new_products body s))
           (fun news =>
              match news with
              | [] => print MsgNoNew
              | _ :: _ =>
                  bindM (print (MsgFound (length news)))
                    (fun _ => for_each (rev news) (Bbbbbaqiap92s.handle E))
              end))).
      { pose proof (keeps_requests_handle_plain E). repeat keeps_step. }
      rewrite (K w2). unfold w2. cbn [log]. now rewrite requests_app.
    - destruct (exn_eqb RequestException e); cbn.
      + rewrite !requests_app. cbn. now rewrite app_nil_r.
      + now rewrite requests_app. }
  destruct (stored_ids (disk w)) as [s|e].
  - rewrite Hrest. cbn [log set_log]. rewrite requests_app. cbn.
    now rewrite app_nil_r.
  - destruct e; try (cbn; rewrite requests_app; cbn; reflexivity).
    rewrite Hrest. cbn [log set_log]. rewrite !requests_app. cbn.
    now rewrite !app_nil_r.
Qed.

(** C6, as worded, fails on [bbbbbaqiap92s.py]: its request asks for the
    newest products first. *)
Lemma c6_counterexample :
  query (Bbbbbaqiap92s.fetch_request (demo_env (Ok JNull)))
  = [(lit "per_page", lit "100"); (lit "orderby", lit "date");
     (lit "order", lit "desc")]
  /\ ~ In (lit "order", lit "asc")
         (query (Bbbbbaqiap92s.fetch_request (demo_env (Ok JNull)))).
Proof.
  split; [reflexivity|].
  cbn. intros [H|[H|[H|[]]]]; discriminate H.
Qed.

(** C6, amended.  In [bbbbbaqiap92s.py] a pass sends one request to the
    catalog, and none when the dedup file cannot be loaded: a GET of the
    configured address with [per_page=100], [orderby=date] and
    [order=desc] (newest first) in the query, the credential pair as
    authentication and a timeout of 20 seconds. *)
Theorem c6_catalog_request (E : env) (w : world) :
  let r := Bbbbbaqiap92s.fetch_request E in
  url r = API_URL (cfg E)
  /\ query r = [(lit "per_page", lit "100"); (lit "orderby", lit "date");
                (lit "order", lit "desc")]
  /\ auth r = Some (CONSUMER_KEY (cfg E), CONSUMER_SECRET (cfg E))
  /\ timeout r = Some 20
  /\ requests (log (snd (Bbbbbaqiap92s.check_for_new_products E w)))
     = requests (log w)
       ++ match stored_ids (disk w) with
          | Ok _ | Raise FileNotFoundError => [r]
          | Raise _ => []
          end.
Proof.
  intros r. repeat split. apply requests_plain_pass.
Qed.

(** The request of [testing22.py]: the dictionary meant as keywords is
    the query, so the credentials and the names of the three parameters
    travel in the query string, and the request has no authentication, no
    page size and no order. *)
Lemma testing22_request_is_misbound (E : env) (per_page : Z) :
  let r := Testing22.fetch_request E per_page in
  query r
  = List.map (pair (lit "auth"))
      (omap id [CONSUMER_KEY (cfg E); CONSUMER_SECRET (cfg E)])
    ++ [(lit "params", lit "per_page"); (lit "params", lit "orderby");
        (lit "params", lit "order")]
  /\ auth r = None
  /\ timeout r = None.
Proof.
  intros r. repeat split.
Qed.

(** ** The selection of the new products *)

Lemma item_id_inv p z :
  item_id p = Some z ->
  exists fields,
    p = JObj fields /\ lookup_key (lit "id") fields = Some (JNum z).
Proof.
  unfold item_id, getitem. destruct p as [| | | | |fields]; try discriminate.
  destruct (lookup_key (lit "id") fields) as [[]|] eqn:Hk; try discriminate.
  intros [= ->]. now exists fields.
Qed.

Lemma product_id_of_item p z :
  item_id p = Some z -> Testing22.product_id p = Ok z.
Proof.
  intros (fields & -> & Hk)%item_id_inv.
  unfold Testing22.product_id, py_get. now rewrite Hk.
Qed.

Lemma unsent_of_item P p z :
  item_id p = Some z -> unsent P p = negb (bool_decide (z ∈ P)).
Proof. intros H. unfold unsent. rewrite H. apply bool_decide_not. Qed.

Lemma select_plain F P :
  Forall (fun p => is_Some (item_id p)) F ->
  Bbbbbaqiap92s.select F P = Ok (List.filter (unsent P) F).
Proof.
  induction 1 as [|p F [z Hz] _ IH]; [reflexivity|].
  cbn [Bbbbbaqiap92s.select List.filter].
  rewrite (unsent_of_item P p z Hz).
  destruct (item_id_inv p z Hz) as (fields & -> & Hk).
  cbn [getitem]. rewrite Hk. cbn [bind py_in]. rewrite IH. cbn [bind].
  now destruct (bool_decide (z ∈ P)).
Qed.

Lemma select_hardened F P :
  Forall (fun p => is_Some (item_id p)) F ->
  Testing22.new_products F P = Ok (List.filter (unsent P) F).
Proof.
  induction 1 as [|p F [z Hz] _ IH]; [reflexivity|].
  cbn [Testing22.new_products List.filter].
  rewrite (unsent_of_item P p z Hz), (product_id_of_item p z Hz).
  cbn [bind]. rewrite IH. cbn [bind].
  now destruct (bool_decide (z ∈ P)).
Qed.

Lemma filter_sublist {A} (f : A -> bool) (l : list A) :
  sublist (List.filter f l) l.
Proof.
  induction l as [|a l IH]; [constructor|].
  simpl. destruct (f a); now constructor.
Qed.

(** C2.  For a fetched list [F] of catalog items (objects with an integer
    identifier) and a published set [P], the selection of either program
    returns the items of [F] whose identifier is not in [P], each as often
    as it occurs and in the order of [F].  The selection is a value
    computed from [F] and [P] alone: it has no effect, and the same
    arguments give the same list. *)
Theorem c2_selection (F : list json) (P : gset Z) :
  Forall (fun p => is_Some (item_id p)) F ->
  let out := List.filter (unsent P) F in
  Bbbbbaqiap92s.new_products (JArr F) P = Ok out
  /\ Testing22.new_products F P = Ok out
  /\ (forall p, In p out <-> In p F /\ exists z, item_id p = Some z /\ z ∉ P)
  /\ sublist out F.
Proof.
  intros HF out. split; [|split; [|split]].
  - unfold Bbbbbaqiap92s.new_products. cbn [py_iter bind].
    now apply select_plain.
  - now apply select_hardened.
  - intros p. unfold out. rewrite filter_In. unfold unsent.
    split.
    + intros [Hin Hu]. split; [exact Hin|].
      destruct (item_id p) as [z|]; [|discriminate].
      exists z. split; [reflexivity|]. now apply bool_decide_eq_true in Hu.
    + intros (Hin & z & Hz & Hn). split; [exact Hin|].
      rewrite Hz. now apply bool_decide_eq_true.
  - apply filter_sublist.
Qed.

Lemma c2_selection_witness :
  Bbbbbaqiap92s.new_products (JArr [product 1 "a"; product 2 "b"]) {[1]}
  = Ok [product 2 "b"]
  /\ Testing22.new_products [product 1 "a"; product 2 "b"] {[1]}
     = Ok [product 2 "b"].
Proof.
  assert (H : Forall (fun p => is_Some (item_id p))
                [product 1 "a"; product 2 "b"]).
  { repeat (constructor; [eexists; reflexivity|]). constructor. }
  destruct (c2_selection [product 1 "a"; product 2 "b"] {[1]} H)
    as (H1 & H2 & _).
  split; [exact H1|exact H2].
Defined.

(** ** Numbers as text and back *)

Lemma chars_of_uint_plain u : Forall plain (chars_of_uint u).
Proof.
  induction u; constructor; try assumption; repeat split.
Qed.

Lemma str_of_int_plain z : Forall plain (str_of_int z).
Proof.
  unfold str_of_int. destruct (Z.to_int z).
  - apply chars_of_uint_plain.
  - constructor; [repeat split|apply chars_of_uint_plain].
Qed.

Lemma uint_of_chars_of_uint u : uint_of_chars false (chars_of_uint u) = Some u.
Proof.
  induction u; [reflexivity|..]; cbn [chars_of_uint uint_of_chars];
    match goal with
    | |- context [digit ?c] =>
        let d := eval vm_compute in (digit c) in
        change (digit c) with d
    end; cbv beta iota; now rewrite IHu.
Qed.

Lemma nat_of_chars_of_uint u :
  u <> Decimal.Nil ->
  nat_of_chars (chars_of_uint u) = Some (Z.of_uint u).
Proof.
  intros Hu. unfold nat_of_chars. rewrite uint_of_chars_of_uint.
  destruct u; [contradiction|..]; reflexivity.
Qed.

Lemma to_int_nonnil z :
  match Z.to_int z with
  | Decimal.Pos u | Decimal.Neg u => u <> Decimal.Nil
  end.
Proof.
  destruct z; simpl; [discriminate|..]; apply Unsigned.to_uint_nonnil.
Qed.

Lemma str_of_int_nonempty z : str_of_int z <> [].
Proof.
  unfold str_of_int. pose proof (to_int_nonnil z) as H.
  destruct (Z.to_int z) as [u|u]; [|discriminate].
  destruct u; [contradiction|..]; discriminate.
Qed.

Lemma lstrip_plain s : Forall plain s -> lstrip s = s.
Proof.
  destruct 1 as [|c s (Hc & _) _]; [reflexivity|]. simpl. now rewrite Hc.
Qed.

Lemma py_strip_plain s : Forall plain s -> py_strip s = s.
Proof.
  intros H. unfold py_strip, rstrip. rewrite (lstrip_plain s H).
  rewrite lstrip_plain; [apply rev_involutive|].
  now apply Forall_rev.
Qed.

Lemma int_lstrip_plain s : Forall plain s -> int_lstrip s = s.
Proof.
  destruct 1 as [|c s (Hc & _) _]; [reflexivity|].
  cbn [int_lstrip]. unfold is_int_space. now rewrite Hc.
Qed.

Lemma int_strip_plain s : Forall plain s -> int_strip s = s.
Proof.
  intros H. unfold int_strip. rewrite (int_lstrip_plain s H).
  rewrite int_lstrip_plain; [apply rev_involutive|].
  now apply Forall_rev.
Qed.

Lemma py_strip_line s : Forall plain s -> py_strip (s ++ [LF]) = s.
Proof.
  intros H. unfold py_strip, rstrip.
  destruct H as [|c s Hc Hs]; [reflexivity|].
  assert (Hl : lstrip ((c :: s) ++ [LF]) = (c :: s) ++ [LF]).
  { simpl. now rewrite (proj1 Hc). }
  rewrite Hl, rev_app_distr. simpl.
  rewrite lstrip_plain.
  - rewrite rev_app_distr. simpl. now rewrite rev_involutive.
  - apply Forall_app. split; [now apply Forall_rev|now constructor].
Qed.

Lemma int_of_str_of_int z : int_of_str (str_of_int z) = Some z.
Proof.
  unfold int_of_str. rewrite (int_strip_plain _ (str_of_int_plain z)).
  unfold str_of_int. pose proof (to_int_nonnil z) as Hn.
  pose proof (DecimalZ.of_to z) as Hz.
  destruct (Z.to_int z) as [u|u].
  - pose proof (nat_of_chars_of_uint u Hn) as Hu.
    destruct u; [contradiction|..]; cbn [chars_of_uint] in *;
      change ((_ =? MINUS)%N) with false; change ((_ =? PLUS)%N) with false;
      cbn match; rewrite Hu; f_equal; exact Hz.
  - cbn. rewrite (nat_of_chars_of_uint u Hn). cbn. f_equal. exact Hz.
Qed.

(** ** The text of the dedup file *)

Lemma readlines_line s : forall cur rest,
  Forall plain s ->
  readlines cur (s ++ LF :: rest) = (cur ++ s ++ [LF]) :: readlines [] rest.
Proof.
  induction s as [|c s IH]; intros cur rest H.
  - reflexivity.
  - inversion H as [|c' s' (_ & Hlf & Hcr) Hs]; subst.
    cbn [app readlines]. rewrite Hlf, Hcr. rewrite IH by assumption.
    now rewrite <- app_assoc.
Qed.

Lemma ids_of_store_text ids :
  ids_of_lines (readlines [] (store_text ids)) = Ok (list_to_set ids).
Proof.
  induction ids as [|z ids IH]; [reflexivity|].
  cbn [store_text flat_map]. rewrite <- app_assoc. cbn [app].
  rewrite readlines_line by apply str_of_int_plain.
  cbn [ids_of_lines app].
  rewrite (py_strip_line _ (str_of_int_plain z)).
  pose proof (str_of_int_nonempty z) as Hne.
  pose proof (int_of_str_of_int z) as Hi.
  destruct (str_of_int z) as [|c r]; [contradiction|].
  rewrite Hi. fold (store_text ids). rewrite IH. reflexivity.
Qed.

Lemma store_text_app a b : store_text (a ++ b) = store_text a ++ store_text b.
Proof. apply flat_map_app. Qed.

Lemma store_text_nil_inv ids : store_text ids = [] -> ids = [].
Proof.
  destruct ids as [|z ids]; [reflexivity|].
  cbn. intros H. apply app_eq_nil in H as [H _].
  apply app_eq_nil in H as [_ H]. discriminate H.
Qed.

Lemma stored_ids_of_text f ids :
  can_read f = true ->
  file_text f = store_text ids ->
  stored_ids f = Ok (list_to_set ids) \/
  (stored_ids f = Raise FileNotFoundError /\ ids = []).
Proof.
  intros Hr Ht. unfold stored_ids, file_text in *.
  destruct (data f) as [content|]; cbn in Ht.
  - left. rewrite Hr, Ht. apply ids_of_store_text.
  - right. split; [reflexivity|]. now apply store_text_nil_inv.
Qed.

(** ** Recording identifiers *)

Lemma save_hardened_run pid w :
  Testing22.save_sent_id pid w
  = if can_write (disk w) then (Ok tt, written w (str_of_int pid ++ [LF]))
    else (Ok tt, set_log w (log w ++ [Print (MsgSaveError OSError)])).
Proof.
  unfold Testing22.save_sent_id, try_except, append.
  now destruct (can_write (disk w)).
Qed.

Lemma save_plain_run E id w :
  Bbbbbaqiap92s.save_sent_id E id w
  = if can_write (disk w)
    then (Ok tt, written w (py_str (repr E) id ++ [LF]))
    else (Raise OSError, w).
Proof. reflexivity. Qed.

Lemma saves_hardened_run ids : forall w,
  can_write (disk w) = true ->
  exists w',
    for_each ids Testing22.save_sent_id w = (Ok tt, w')
    /\ file_text (disk w') = file_text (disk w) ++ store_text ids
    /\ can_read (disk w') = can_read (disk w)
    /\ can_write (disk w') = true
    /\ writes (log w')
       = writes (log w) ++ List.map (fun z => str_of_int z ++ [LF]) ids.
Proof.
  induction ids as [|z ids IH]; intros w Hw.
  - exists w. cbn. now rewrite !app_nil_r.
  - destruct (IH (written w (str_of_int z ++ [LF])) Hw)
      as (w' & Hrun & Ht & Hr & Hw' & Hl).
    exists w'. cbn [for_each]. unfold bindM at 1.
    rewrite save_hardened_run, Hw. repeat split; try assumption.
    + rewrite Ht. cbn. now rewrite <- app_assoc.
    + rewrite Hl. cbn [written log]. rewrite writes_app. cbn.
      now rewrite <- app_assoc.
Qed.

Lemma saves_plain_run E ids : forall w,
  can_write (disk w) = true ->
  for_each (List.map JNum ids) (Bbbbbaqiap92s.save_sent_id E) w
  = for_each ids Testing22.save_sent_id w.
Proof.
  induction ids as [|z ids IH]; intros w Hw; [reflexivity|].
  cbn [for_each List.map]. unfold bindM.
  rewrite save_hardened_run, save_plain_run, Hw. cbn [py_str].
  now apply IH.
Qed.

(** C5.  From a dedup file that holds the identifiers [ids0], one per
    line (the empty or missing file holds none), recording [ids] leaves
    the old text in place and puts one line, the decimal identifier and a
    line feed, behind it for every element of [ids]; loading then gives
    the set of [ids0] and [ids], repeats collapsed.  A missing file loads
    as the empty set.  The file must allow reading and appending. *)
Theorem c5_store_round_trip (E : env) (ids0 ids : list Z) (w : world) :
  file_text (disk w) = store_text ids0 ->
  can_read (disk w) = true ->
  can_write (disk w) = true ->
  exists w',
    for_each ids Testing22.save_sent_id w = (Ok tt, w')
    /\ for_each (List.map JNum ids) (Bbbbbaqiap92s.save_sent_id E) w
       = (Ok tt, w')
    /\ file_text (disk w') = file_text (disk w) ++ store_text ids
    /\ writes (log w')
       = writes (log w) ++ List.map (fun z => str_of_int z ++ [LF]) ids
    /\ fst (Testing22.load_sent_ids w') = Ok (list_to_set (ids0 ++ ids))
    /\ fst (Bbbbbaqiap92s.load_sent_ids w') = Ok (list_to_set (ids0 ++ ids))
    /\ (forall z, z ∈ (list_to_set (ids0 ++ ids) : gset Z)
                  <-> In z ids0 \/ In z ids)
    /\ (forall w0, data (disk w0) = None ->
          fst (Testing22.load_sent_ids w0) = Ok ∅
          /\ fst (Bbbbbaqiap92s.load_sent_ids w0) = Ok ∅).
Proof.
  intros Ht Hr Hw.
  destruct (saves_hardened_run ids w Hw) as (w' & Hrun & Ht' & Hr' & Hw' & Hl).
  exists w'. split; [exact Hrun|].
  split; [now rewrite saves_plain_run|].
  split; [exact Ht'|]. split; [exact Hl|].
  assert (Hs : file_text (disk w') = store_text (ids0 ++ ids)).
  { now rewrite Ht', Ht, store_text_app. }
  assert (Hr'' : can_read (disk w') = true) by congruence.
  split; [|split; [|split]].
  - rewrite load_hardened_run.
    destruct (stored_ids_of_text _ _ Hr'' Hs) as [->|[-> ->]]; reflexivity.
  - rewrite load_plain_run.
    destruct (stored_ids_of_text _ _ Hr'' Hs) as [->|[-> ->]]; reflexivity.
  - intros z. rewrite elem_of_list_to_set, list_elem_of_In. apply in_app_iff.
  - intros w0 H0. rewrite load_hardened_run, load_plain_run.
    unfold stored_ids. now rewrite H0.
Qed.

Lemma c5_store_round_trip_witness :
  exists w',
    for_each [7; 12; 7] Testing22.save_sent_id (disk_of None true true)
    = (Ok tt, w')
    /\ for_each (List.map JNum [7; 12; 7])
         (Bbbbbaqiap92s.save_sent_id (demo_env (Ok JNull)))
         (disk_of None true true)
       = (Ok tt, w')
    /\ file_text (disk w') = store_text [7; 12; 7]
    /\ fst (Testing22.load_sent_ids w') = Ok (list_to_set ([] ++ [7; 12; 7])).
Proof.
  destruct (c5_store_round_trip (demo_env (Ok JNull)) [] [7; 12; 7]
              (disk_of None true true) eq_refl eq_refl eq_refl)
    as (w' & H1 & H2 & H3 & _ & H5 & _).
  exists w'. repeat split; assumption.
Defined.

(** C8, as worded, fails on [bbbbbaqiap92s.py]: a dedup file that cannot
    be read, a line that is no number and a failed append all raise out of
    its store operations. *)
Lemma c8_counterexample :
  fst (Bbbbbaqiap92s.load_sent_ids (disk_of (Some (lit "12")) false true))
  = Raise OSError
  /\ fst (Bbbbbaqiap92s.load_sent_ids (disk_of (Some (lit "abc")) true true))
     = Raise ValueError
  /\ fst (Bbbbbaqiap92s.save_sent_id (demo_env (Ok JNull)) (JNum 5)
            (disk_of (Some (lit "12")) true false))
     = Raise OSError.
Proof. repeat split; reflexivity. Qed.

(** C8, amended.  In [testing22.py] no store operation raises: when the
    dedup file exists and cannot be read or has a line that is no number,
    [load_sent_ids] prints the error and returns the empty set; when the
    append fails, [save_sent_id] prints the error and returns, the file
    unchanged.  In [bbbbbaqiap92s.py] only the missing file is caught:
    the same read errors and the failed append raise out of
    [load_sent_ids] and [save_sent_id], the world unchanged. *)
Theorem c8_persistence_errors (E : env) (w : world) (pid : Z) :
  raises (fst (Testing22.load_sent_ids w)) = false
  /\ raises (fst (Testing22.save_sent_id pid w)) = false
  /\ (forall content,
        data (disk w) = Some content ->
        can_read (disk w) = false
        \/ raises (ids_of_lines (readlines [] content)) = true ->
        exists e,
          Testing22.load_sent_ids w
          = (Ok ∅, set_log w (log w ++ [Print (MsgLoadError e)]))
          /\ Bbbbbaqiap92s.load_sent_ids w = (Raise e, w))
  /\ (can_write (disk w) = false ->
        Testing22.save_sent_id pid w
        = (Ok tt, set_log w (log w ++ [Print (MsgSaveError OSError)]))
        /\ Bbbbbaqiap92s.save_sent_id E (JNum pid) w = (Raise OSError, w)).
Proof.
  split; [|split; [|split]].
  - rewrite load_hardened_run.
    destruct (stored_ids (disk w)) as [s|[]]; reflexivity.
  - rewrite save_hardened_run. now destruct (can_write (disk w)).
  - intros content Hd Hbad.
    rewrite load_hardened_run, load_plain_run. unfold stored_ids. rewrite Hd.
    destruct (can_read (disk w)).
    + destruct Hbad as [Hbad|Hbad]; [discriminate|].
      assert (Hv : forall ls e, ids_of_lines ls = Raise e -> e = ValueError).
      { induction ls as [|l ls IH]; intros e; cbn; [discriminate|].
        destruct (py_strip l); [apply IH|].
        destruct (int_of_str _); [|now intros [= <-]].
        destruct (ids_of_lines ls); cbn; [discriminate|].
        intros [= <-]. now apply IH. }
      destruct (ids_of_lines (readlines [] content)) as [s|e] eqn:Hi;
        [discriminate|].
      rewrite (Hv _ _ Hi). now exists ValueError.
    + now exists OSError.
  - intros Hw. rewrite save_hardened_run, save_plain_run, Hw. now split.
Qed.

Lemma c8_persistence_errors_witness :
  Testing22.save_sent_id 5 (disk_of (Some (lit "12")) true false)
  = (Ok tt,
     set_log (disk_of (Some (lit "12")) true false)
       [Print (MsgSaveError OSError)])
  /\ exists e,
       Testing22.load_sent_ids (disk_of (Some (lit "abc")) true true)
       = (Ok ∅, set_log (disk_of (Some (lit "abc")) true true)
                  [Print (MsgLoadError e)]).
Proof.
  split.
  - destruct (c8_persistence_errors (demo_env (Ok JNull))
                (disk_of (Some (lit "12")) true false) 5)
      as (_ & _ & _ & H).
    exact (proj1 (H eq_refl)).
  - destruct (c8_persistence_errors (demo_env (Ok JNull))
                (disk_of (Some (lit "abc")) true true) 5)
      as (_ & _ & H & _).
    destruct (H (lit "abc") eq_refl (or_intror eq_refl)) as (e & He & _).
    now exists e.
Defined.

(** ** One item of a pass *)

Section Item.
Context (E : env).

Lemma handle_hardened_run p z pl w :
  item_id p = Some z ->
  payload_hardened E p = Some pl ->
  can_write (disk w) = true ->
  exists title,
    Testing22.item_title p = Ok title
    /\ Testing22.handle E p w
       = (Ok tt,
          after_item w (channel E (sends w)) z
            (item_trace_hardened E (channel E (sends w)) title z pl)).
Proof.
  intros Hz Hpl Hw. unfold payload_hardened, Testing22.format_item in Hpl.
  destruct (Testing22.item_title p) as [title|] eqn:Ht; [|discriminate].
  cbn [bind] in Hpl.
  destruct (Testing22.item_payload E p title) as [pl'|] eqn:Hp;
    [|discriminate].
  injection Hpl as ->. exists title. split; [reflexivity|].
  unfold Testing22.handle. rewrite send_to_channel_same.
  unfold bindM at 1. unfold lift at 1.
  rewrite (product_id_of_item p z Hz). cbv beta iota.
  unfold bindM at 1. unfold lift at 1. rewrite Ht. cbv beta iota.
  unfold bindM at 1. unfold print at 1, emit at 1. cbv beta iota.
  unfold bindM at 1. unfold lift at 1. rewrite Hp. cbv beta iota.
  unfold bindM at 1. rewrite send_to_channel_run.
  cbn [disk sends gets log set_log].
  unfold after_item, item_trace_hardened.
  destruct (delivered (channel E (sends w))).
  - unfold bindM at 1. unfold bindM at 1. rewrite save_hardened_run.
    cbn [disk]. rewrite Hw. unfold print, emit, sleep, emit, written, set_log.
    cbn [disk sends gets log]. rewrite <- !app_assoc. reflexivity.
  - unfold bindM at 1. unfold print, emit, sleep, emit, set_log.
    cbn [disk sends gets log]. rewrite <- !app_assoc. reflexivity.
Qed.

Lemma handle_plain_run p z pl w :
  item_id p = Some z ->
  payload_plain E p = Some pl ->
  can_write (disk w) = true ->
  exists title,
    Bbbbbaqiap92s.item_title p = Ok title
    /\ Bbbbbaqiap92s.handle E p w
       = (Ok tt,
          after_item w (channel E (sends w)) z
            (item_trace_plain E (channel E (sends w)) title z pl)).
Proof.
  intros Hz Hpl Hw. unfold payload_plain, Bbbbbaqiap92s.format_item in Hpl.
  destruct (Bbbbbaqiap92s.item_title p) as [title|] eqn:Ht; [|discriminate].
  cbn [bind] in Hpl.
  destruct (Bbbbbaqiap92s.item_payload E p title) as [pl'|] eqn:Hp;
    [|discriminate].
  injection Hpl as ->. exists title. split; [reflexivity|].
  assert (Hid : getitem p (lit "id") = Ok (JNum z)).
  { destruct (item_id_inv p z Hz) as (fields & -> & Hk).
    cbn [getitem]. now rewrite Hk. }
  unfold Bbbbbaqiap92s.handle. rewrite Hid.
  unfold bindM at 1. unfold lift at 1. rewrite Ht. cbv beta iota.
  unfold bindM at 1. unfold print at 1, emit at 1. cbv beta iota.
  unfold bindM at 1. unfold lift at 1. rewrite Hp. cbv beta iota.
  unfold bindM at 1. rewrite send_to_channel_run.
  cbn [disk sends gets log set_log].
  unfold after_item, item_trace_plain.
  destruct (delivered (channel E (sends w))).
  - unfold bindM at 1. unfold bindM at 1. unfold lift at 1.
    unfold bindM at 1. rewrite save_plain_run.
    cbn [disk]. rewrite Hw. unfold print, emit, sleep, emit, written, set_log.
    cbn [disk sends gets log py_str]. rewrite <- !app_assoc. reflexivity.
  - unfold bindM at 1. unfold ret, sleep, emit, set_log.
    cbn [disk sends gets log]. rewrite <- !app_assoc. reflexivity.
Qed.

End Item.

(** ** The items of a pass, in turn *)

Section Items.
Context (E : env).

Lemma calls_item_trace_plain b title z pl :
  calls (item_trace_plain E b title z pl)
  = repeat (api_call E pl) (attempts b).
Proof.
  unfold item_trace_plain. rewrite !calls_app, calls_send_trace.
  destruct (delivered b); cbn; now rewrite app_nil_r.
Qed.

Lemma calls_item_trace_hardened b title z pl :
  calls (item_trace_hardened E b title z pl)
  = repeat (api_call E pl) (attempts b).
Proof.
  unfold item_trace_hardened. rewrite !calls_app, calls_send_trace.
  destruct (delivered b); cbn; now rewrite app_nil_r.
Qed.

Lemma writes_item_trace_plain b title z pl :
  writes (item_trace_plain E b title z pl)
  = if delivered b then [str_of_int z ++ [LF]] else [].
Proof.
  unfold item_trace_plain. rewrite !writes_app, writes_send_trace.
  now destruct (delivered b).
Qed.

Lemma writes_item_trace_hardened b title z pl :
  writes (item_trace_hardened E b title z pl)
  = if delivered b then [str_of_int z ++ [LF]] else [].
Proof.
  unfold item_trace_hardened. rewrite !writes_app, writes_send_trace.
  now destruct (delivered b).
Qed.

(** What the loop over the items does, for a loop body that handles one
    item as [after_item] says. *)
Lemma for_each_items (handle : json -> M unit)
    (payload_of : json -> option payload) :
  (forall p z pl w,
     item_id p = Some z -> payload_of p = Some pl ->
     can_write (disk w) = true ->
     exists tr,
       handle p w = (Ok tt, after_item w (channel E (sends w)) z tr)
       /\ calls tr
          = repeat (api_call E pl) (attempts (channel E (sends w)))
       /\ writes tr = if delivered (channel E (sends w))
                      then [str_of_int z ++ [LF]] else []) ->
  forall items w,
    Forall (fun p => is_Some (item_id p) /\ is_Some (payload_of p)) items ->
    can_write (disk w) = true ->
    exists w',
      for_each items handle w = (Ok tt, w')
      /\ file_text (disk w')
         = file_text (disk w)
           ++ store_text (recorded E (sends w) (omap item_id items))
      /\ can_read (disk w') = can_read (disk w)
      /\ can_write (disk w') = true
      /\ sends w' = (sends w + length items)%nat
      /\ gets w' = gets w
      /\ calls (log w')
         = calls (log w) ++ calls_for E (sends w) (omap payload_of items)
      /\ writes (log w')
         = writes (log w)
           ++ List.map (fun z => str_of_int z ++ [LF])
                (recorded E (sends w) (omap item_id items)).
Proof.
  intros Hstep items. induction items as [|p items IH]; intros w Hall Hw.
  - exists w. cbn. rewrite !app_nil_r. repeat split; try assumption. lia.
  - inversion Hall as [|p' items' [[z Hz] [pl Hpl]] Hrest]; subst.
    destruct (Hstep p z pl w Hz Hpl Hw) as (tr & Hrun & Hc & Hwr).
    set (b := channel E (sends w)) in *.
    set (w1 := after_item w b z tr) in *.
    assert (Hw1 : can_write (disk w1) = true).
    { unfold w1, after_item. cbn. now destruct (delivered b). }
    destruct (IH w1 Hrest Hw1)
      as (w' & Hrun' & Ht & Hr & Hw' & Hs & Hg & Hcalls & Hwrites).
    exists w'. cbn [for_each]. unfold bindM at 1. rewrite Hrun.
    cbn [omap list_omap]. rewrite Hz, Hpl. cbn [recorded calls_for]. fold b.
    split; [exact Hrun'|].
    split.
    { rewrite Ht. unfold w1, after_item. cbn [disk sends].
      rewrite store_text_app, app_assoc. f_equal.
      destruct (delivered b); cbn; now rewrite ?app_nil_r. }
    split.
    { rewrite Hr. unfold w1, after_item. cbn. now destruct (delivered b). }
    split; [exact Hw'|].
    split; [rewrite Hs; unfold w1; cbn; lia|].
    split; [rewrite Hg; reflexivity|].
    split.
    { rewrite Hcalls. unfold w1, after_item. cbn [log sends].
      rewrite calls_app, Hc. now rewrite <- app_assoc. }
    { rewrite Hwrites. unfold w1, after_item. cbn [log sends].
      rewrite writes_app, Hwr, map_app, <- app_assoc. f_equal.
      now destruct (delivered b). }
Qed.

Lemma for_each_hardened items w :
  Forall (ready_hardened E) items ->
  can_write (disk w) = true ->
  exists w',
    for_each items (Testing22.handle E) w = (Ok tt, w')
    /\ file_text (disk w')
       = file_text (disk w)
         ++ store_text (recorded E (sends w) (omap item_id items))
    /\ can_read (disk w') = can_read (disk w)
    /\ can_write (disk w') = true
    /\ sends w' = (sends w + length items)%nat
    /\ gets w' = gets w
    /\ calls (log w')
       = calls (log w)
         ++ calls_for E (sends w) (omap (payload_hardened E) items)
    /\ writes (log w')
       = writes (log w)
         ++ List.map (fun z => str_of_int z ++ [LF])
              (recorded E (sends w) (omap item_id items)).
Proof.
  apply for_each_items. intros p z pl w0 Hz Hpl Hw.
  destruct (handle_hardened_run E p z pl w0 Hz Hpl Hw) as (title & _ & Hrun).
  eexists. split; [exact Hrun|]. split.
  - apply calls_item_trace_hardened.
  - apply writes_item_trace_hardened.
Qed.

Lemma for_each_plain items w :
  Forall (ready_plain E) items ->
  can_write (disk w) = true ->
  exists w',
    for_each items (Bbbbbaqiap92s.handle E) w = (Ok tt, w')
    /\ file_text (disk w')
       = file_text (disk w)
         ++ store_text (recorded E (sends w) (omap item_id items))
    /\ can_read (disk w') = can_read (disk w)
    /\ can_write (disk w') = true
    /\ sends w' = (sends w + length items)%nat
    /\ gets w' = gets w
    /\ calls (log w')
       = calls (log w)
         ++ calls_for E (sends w) (omap (payload_plain E) items)
    /\ writes (log w')
       = writes (log w)
         ++ List.map (fun z => str_of_int z ++ [LF])
              (recorded E (sends w) (omap item_id items)).
Proof.
  apply for_each_items. intros p z pl w0 Hz Hpl Hw.
  destruct (handle_plain_run E p z pl w0 Hz Hpl Hw) as (title & _ & Hrun).
  eexists. split; [exact Hrun|]. split.
  - apply calls_item_trace_plain.
  - apply writes_item_trace_plain.
Qed.

End Items.

(** ** A whole pass *)

Section Pass.
Context (E : env).

Lemma pass_hardened_run (ids0 : list Z) (F : list json) (w : world) :
  file_text (disk w) = store_text ids0 ->
  can_read (disk w) = true ->
  can_write (disk w) = true ->
  network E (gets w) = Ok (JArr F) ->
  Forall (fun p => is_Some (item_id p)) F ->
  Forall (ready_hardened E) (List.filter (unsent (list_to_set ids0)) F) ->
  let sel := List.filter (unsent (list_to_set ids0)) F in
  exists w',
    Testing22.check_for_new_products_once E w = (Ok tt, w')
    /\ file_text (disk w')
       = file_text (disk w)
         ++ store_text (recorded E (sends w) (omap item_id sel))
    /\ can_read (disk w') = true
    /\ can_write (disk w') = true
    /\ sends w' = (sends w + length sel)%nat
    /\ gets w' = S (gets w)
    /\ calls (log w')
       = calls (log w)
         ++ calls_for E (sends w) (omap (payload_hardened E) sel)
    /\ writes (log w')
       = writes (log w)
         ++ List.map (fun z => str_of_int z ++ [LF])
              (recorded E (sends w) (omap item_id sel)).
Proof.
  intros Ht Hr Hw Hnet HF Hready sel.
  unfold Testing22.check_for_new_products_once.
  unfold bindM at 1. unfold print at 1, emit at 1. cbv beta iota.
  unfold bindM at 1. rewrite load_hardened_run. cbn [disk set_log].
  assert (Hload : exists pre,
    match stored_ids (disk w) with
    | Ok s => (Ok s, set_log w (log w ++ [Print MsgChecking]))
    | Raise FileNotFoundError =>
        (Ok ∅, set_log (set_log w (log w ++ [Print MsgChecking]))
                 (log (set_log w (log w ++ [Print MsgChecking]))
                  ++ [Print MsgNoIdsFile]))
    | Raise e =>
        (Ok ∅, set_log (set_log w (log w ++ [Print MsgChecking]))
                 (log (set_log w (log w ++ [Print MsgChecking]))
                  ++ [Print (MsgLoadError e)]))
    end = (Ok (list_to_set ids0 : gset Z), set_log w (log w ++ pre))
    /\ calls pre = [] /\ writes pre = []).
  { destruct (stored_ids_of_text _ _ Hr Ht) as [->|[-> ->]].
    - exists [Print MsgChecking]. now repeat split.
    - exists [Print MsgChecking; Print MsgNoIdsFile]. cbn.
      rewrite <- app_assoc. now repeat split. }
  destruct Hload as (pre & Hload & Hcpre & Hwpre).
  rewrite Hload. cbv beta iota. clear Hload.
  set (w2 := set_log w (log w ++ pre)).
  unfold bindM at 1. unfold Testing22.fetch_products, try_except, http_json.
  change (gets w2) with (gets w). rewrite Hnet. cbv beta iota.
  unfold bindM at 1. unfold lift at 1.
  rewrite (select_hardened F _ HF). fold sel. cbv beta iota.
  fold sel in Hready. clearbody sel.
  set (w3 := {| disk := disk w2; sends := sends w2; gets := S (gets w);
                log := log w2 ++ [Get (Testing22.fetch_request E 100)] |}).
  assert (Hc3 : calls (log w3) = calls (log w)).
  { unfold w3, w2. cbn [log set_log]. rewrite !calls_app, Hcpre. cbn.
    now rewrite !app_nil_r. }
  assert (Hw3 : writes (log w3) = writes (log w)).
  { unfold w3, w2. cbn [log set_log]. rewrite !writes_app, Hwpre. cbn.
    now rewrite !app_nil_r. }
  destruct sel as [|p l].
  - exists (set_log w3 (log w3 ++ [Print MsgNoNew])).
    split; [reflexivity|].
    cbn [omap list_omap recorded calls_for store_text flat_map List.map length].
    rewrite !app_nil_r. cbn [log set_log].
    rewrite calls_app, writes_app, Hc3, Hw3. cbn.
    rewrite !app_nil_r. repeat split; try assumption; lia.
  - unfold bindM at 1. unfold print at 1, emit at 1. cbv beta iota.
    set (w4 := set_log w3 (log w3 ++ [Print (MsgFound (length (p :: l)))])).
    destruct (for_each_hardened E (p :: l) w4 Hready Hw)
      as (w' & Hrun & Ht' & Hr' & Hw' & Hs' & Hg' & Hc' & Hwr').
    exists w'. split; [exact Hrun|].
    repeat split; try assumption.
    + now rewrite Hr'.
    + rewrite Hc'. unfold w4. cbn [log set_log sends]. rewrite calls_app, Hc3.
      cbn. now rewrite app_nil_r.
    + rewrite Hwr'. unfold w4. cbn [log set_log sends].
      rewrite writes_app, Hw3. cbn. now rewrite app_nil_r.
Qed.

Lemma pass_plain_run (ids0 : list Z) (F : list json) (w : world) :
  file_text (disk w) = store_text ids0 ->
  can_read (disk w) = true ->
  can_write (disk w) = true ->
  network E (gets w) = Ok (JArr F) ->
  Forall (fun p => is_Some (item_id p)) F ->
  Forall (ready_plain E) (List.filter (unsent (list_to_set ids0)) F) ->
  let order := rev (List.filter (unsent (list_to_set ids0)) F) in
  exists w',
    Bbbbbaqiap92s.check_for_new_products E w = (Ok tt, w')
    /\ file_text (disk w')
       = file_text (disk w)
         ++ store_text (recorded E (sends w) (omap item_id order))
    /\ can_read (disk w') = true
    /\ can_write (disk w') = true
    /\ sends w' = (sends w + length order)%nat
    /\ gets w' = S (gets w)
    /\ calls (log w')
       = calls (log w)
         ++ calls_for E (sends w) (omap (payload_plain E) order)
    /\ writes (log w')
       = writes (log w)
         ++ List.map (fun z => str_of_int z ++ [LF])
              (recorded E (sends w) (omap item_id order)).
Proof.
  intros Ht Hr Hw Hnet HF Hready order.
  unfold Bbbbbaqiap92s.check_for_new_products.
  unfold bindM at 1. unfold print at 1, emit at 1. cbv beta iota.
  unfold bindM at 1. rewrite load_plain_run. cbn [disk set_log].
  assert (Hload : exists pre,
    match stored_ids (disk w) with
    | Raise FileNotFoundError =>
        (Ok ∅, set_log (set_log w (log w ++ [Print MsgChecking]))
                 (log (set_log w (log w ++ [Print MsgChecking]))
                  ++ [Print MsgNoIdsFile]))
    | r => (r, set_log w (log w ++ [Print MsgChecking]))
    end = (Ok (list_to_set ids0 : gset Z), set_log w (log w ++ pre))
    /\ calls pre = [] /\ writes pre = []).
  { destruct (stored_ids_of_text _ _ Hr Ht) as [->|[-> ->]].
    - exists [Print MsgChecking]. now repeat split.
    - exists [Print MsgChecking; Print MsgNoIdsFile]. cbn.
      rewrite <- app_assoc. now repeat split. }
  destruct Hload as (pre & Hload & Hcpre & Hwpre).
  rewrite Hload. cbv beta iota. clear Hload.
  set (w2 := set_log w (log w ++ pre)).
  unfold bindM at 1. unfold try_except. unfold bindM at 1. unfold http_json.
  change (gets w2) with (gets w). rewrite Hnet. cbv beta iota.
  unfold ret at 1. cbv beta iota.
  unfold bindM at 1. unfold lift at 1.
  unfold Bbbbbaqiap92s.new_products. cbn [py_iter bind].
  rewrite (select_plain F _ HF). cbv beta iota.
  apply Forall_rev in Hready. fold order in Hready.
  assert (Hord : List.filter (unsent (list_to_set ids0)) F = rev order).
  { unfold order. now rewrite rev_involutive. }
  rewrite Hord. clearbody order. clear Hord.
  set (w3 := {| disk := disk w2; sends := sends w2; gets := S (gets w);
                log := log w2 ++ [Get (Bbbbbaqiap92s.fetch_request E)] |}).
  assert (Hc3 : calls (log w3) = calls (log w)).
  { unfold w3, w2. cbn [log set_log]. rewrite !calls_app, Hcpre. cbn.
    now rewrite !app_nil_r. }
  assert (Hw3 : writes (log w3) = writes (log w)).
  { unfold w3, w2. cbn [log set_log]. rewrite !writes_app, Hwpre. cbn.
    now rewrite !app_nil_r. }
  destruct (rev order) as [|p l] eqn:Hrev.
  - assert (order = []) as ->.
    { apply (f_equal (@rev json)) in Hrev. now rewrite rev_involutive in Hrev. }
    exists (set_log w3 (log w3 ++ [Print MsgNoNew])).
    split; [reflexivity|].
    cbn [omap list_omap recorded calls_for store_text flat_map List.map length].
    rewrite !app_nil_r. cbn [log set_log].
    rewrite calls_app, writes_app, Hc3, Hw3. cbn.
    rewrite !app_nil_r. repeat split; try assumption; lia.
  - unfold bindM at 1. unfold print at 1, emit at 1. cbv beta iota.
    set (w4 := set_log w3 (log w3 ++ [Print (MsgFound (length (p :: l)))])).
    rewrite <- Hrev, rev_involutive.
    destruct (for_each_plain E order w4 Hready Hw)
      as (w' & Hrun & Ht' & Hr' & Hw' & Hs' & Hg' & Hc' & Hwr').
    exists w'. split; [exact Hrun|].
    repeat split; try assumption.
    + now rewrite Hr'.
    + rewrite Hc'. unfold w4. cbn [log set_log sends]. rewrite calls_app, Hc3.
      cbn. now rewrite app_nil_r.
    + rewrite Hwr'. unfold w4. cbn [log set_log sends].
      rewrite writes_app, Hw3. cbn. now rewrite app_nil_r.
Qed.

End Pass.

(** ** Recording follows publishing *)

Lemma in_recorded E ids : forall k z,
  In z (recorded E k ids)
  <-> exists i, ids !! i = Some z /\ delivered (channel E (k + i)) = true.
Proof.
  induction ids as [|a ids IH]; intros k z.
  - cbn. split; [contradiction|]. now intros (i & H & _).
  - cbn [recorded]. rewrite in_app_iff, IH. split.
    + intros [H|(i & Hi & Hd)].
      * destruct (delivered (channel E k)) eqn:Hd; [|contradiction].
        destruct H as [->|[]]. exists 0%nat. now rewrite Nat.add_0_r.
      * exists (S i). split; [exact Hi|]. now rewrite Nat.add_succ_r.
    + intros ([|i] & Hi & Hd).
      * left. cbn in Hi. injection Hi as ->. rewrite Nat.add_0_r in Hd.
        rewrite Hd. now left.
      * right. exists i. split; [exact Hi|]. now rewrite Nat.add_succ_r in Hd.
Qed.

Lemma unsent_after P p z :
  item_id p = Some z -> (unsent P p = true <-> z ∉ P).
Proof.
  intros H. unfold unsent. rewrite H. apply bool_decide_eq_true.
Qed.

Lemma load_of_text (f : world -> result (gset Z) * world) w ids :
  (f = Testing22.load_sent_ids \/ f = Bbbbbaqiap92s.load_sent_ids) ->
  can_read (disk w) = true ->
  file_text (disk w) = store_text ids ->
  fst (f w) = Ok (list_to_set ids).
Proof.
  intros [-> | ->] Hr Ht.
  - rewrite load_hardened_run.
    destruct (stored_ids_of_text _ _ Hr Ht) as [->|[-> ->]]; reflexivity.
  - rewrite load_plain_run.
    destruct (stored_ids_of_text _ _ Hr Ht) as [->|[-> ->]]; reflexivity.
Qed.

(** C1.  Take a pass of either program over a dedup file that holds
    [ids0], can be read and appended to, and a fetched list [F] of catalog
    items whose selected ones can be formatted.  The loop body, for an
    item with identifier [z], leaves exactly the trace [item_trace_...]:
    after the call that delivers the message and the line that reports it
    comes the append of the line of [z], and no append comes when the
    message is refused.  So the pass appends [recorded ...], the
    identifiers of the handled items whose message was delivered and no
    other; a later load gives [ids0] and these, and a later selection
    takes an item exactly when its identifier is in neither. *)
Theorem c1_recorded_iff_published (E : env) (ids0 : list Z) (F : list json)
    (w : world) :
  file_text (disk w) = store_text ids0 ->
  can_read (disk w) = true ->
  can_write (disk w) = true ->
  network E (gets w) = Ok (JArr F) ->
  Forall (fun p => is_Some (item_id p)) F ->
  Forall (ready_hardened E) (List.filter (unsent (list_to_set ids0)) F) ->
  Forall (ready_plain E) (List.filter (unsent (list_to_set ids0)) F) ->
  let sel := List.filter (unsent (list_to_set ids0)) F in
  (* one item *)
  (forall p z pl w0,
     item_id p = Some z -> can_write (disk w0) = true ->
     let b := channel E (sends w0) in
     (payload_hardened E p = Some pl ->
      exists title,
        Testing22.handle E p w0
        = (Ok tt, after_item w0 b z (item_trace_hardened E b title z pl)))
     /\ (payload_plain E p = Some pl ->
         exists title,
           Bbbbbaqiap92s.handle E p w0
           = (Ok tt, after_item w0 b z (item_trace_plain E b title z pl))))
  (* the pass of testing22.py *)
  /\ (let new := recorded E (sends w) (omap item_id sel) in
      exists w',
        Testing22.check_for_new_products_once E w = (Ok tt, w')
        /\ file_text (disk w') = store_text (ids0 ++ new)
        /\ writes (log w')
           = writes (log w) ++ List.map (fun z => str_of_int z ++ [LF]) new
        /\ fst (Testing22.load_sent_ids w') = Ok (list_to_set (ids0 ++ new))
        /\ (forall z, In z new
              <-> exists i, omap item_id sel !! i = Some z
                            /\ delivered (channel E (sends w + i)) = true)
        /\ (forall p z, item_id p = Some z ->
              (unsent (list_to_set (ids0 ++ new)) p = true
               <-> ~ In z ids0 /\ ~ In z new)))
  (* the pass of bbbbbaqiap92s.py *)
  /\ (let new := recorded E (sends w) (omap item_id (rev sel)) in
      exists w',
        Bbbbbaqiap92s.check_for_new_products E w = (Ok tt, w')
        /\ file_text (disk w') = store_text (ids0 ++ new)
        /\ writes (log w')
           = writes (log w) ++ List.map (fun z => str_of_int z ++ [LF]) new
        /\ fst (Bbbbbaqiap92s.load_sent_ids w')
           = Ok (list_to_set (ids0 ++ new))
        /\ (forall z, In z new
              <-> exists i, omap item_id (rev sel) !! i = Some z
                            /\ delivered (channel E (sends w + i)) = true)
        /\ (forall p z, item_id p = Some z ->
              (unsent (list_to_set (ids0 ++ new)) p = true
               <-> ~ In z ids0 /\ ~ In z new))).
Proof.
  intros Ht Hr Hw Hnet HF Hrh Hrp sel.
  assert (Hlater : forall new p z, item_id p = Some z ->
            (unsent (list_to_set (ids0 ++ new)) p = true
             <-> ~ In z ids0 /\ ~ In z new)).
  { intros new p z Hz. rewrite (unsent_after _ p z Hz).
    rewrite elem_of_list_to_set, list_elem_of_In, in_app_iff. tauto. }
  split; [|split].
  - intros p z pl w0 Hz Hw0 b. split; intros Hpl.
    + destruct (handle_hardened_run E p z pl w0 Hz Hpl Hw0) as (t & _ & H).
      now exists t.
    + destruct (handle_plain_run E p z pl w0 Hz Hpl Hw0) as (t & _ & H).
      now exists t.
  - intros new.
    destruct (pass_hardened_run E ids0 F w Ht Hr Hw Hnet HF Hrh)
      as (w' & Hrun & Ht' & Hr' & _ & _ & _ & _ & Hwr).
    assert (Hs : file_text (disk w') = store_text (ids0 ++ new)).
    { now rewrite Ht', Ht, store_text_app. }
    exists w'. split; [exact Hrun|]. split; [exact Hs|].
    split; [exact Hwr|].
    split; [apply load_of_text; auto|].
    split; [intros z; apply in_recorded|apply Hlater].
  - intros new.
    destruct (pass_plain_run E ids0 F w Ht Hr Hw Hnet HF Hrp)
      as (w' & Hrun & Ht' & Hr' & _ & _ & _ & _ & Hwr).
    assert (Hs : file_text (disk w') = store_text (ids0 ++ new)).
    { now rewrite Ht', Ht, store_text_app. }
    exists w'. split; [exact Hrun|]. split; [exact Hs|].
    split; [exact Hwr|].
    split; [apply load_of_text; auto|].
    split; [intros z; apply in_recorded|apply Hlater].
Qed.

Lemma c1_recorded_iff_published_witness :
  let F := [product 1 "a"; product 2 "b"; product 3 "c"] in
  let E := refusing_env 1 (Ok (JArr F)) in
  let w := disk_of (Some (store_text [1])) true true in
  (exists w',
     Testing22.check_for_new_products_once E w = (Ok tt, w')
     /\ file_text (disk w') = store_text [1; 2])
  /\ (exists w',
        Bbbbbaqiap92s.check_for_new_products E w = (Ok tt, w')
        /\ file_text (disk w') = store_text [1; 3]).
Proof.
  intros F E w.
  assert (HF : Forall (fun p => is_Some (item_id p)) F).
  { repeat (constructor; [eexists; reflexivity|]). constructor. }
  assert (Hsel : List.filter (unsent (list_to_set [1])) F
                 = [product 2 "b"; product 3 "c"]) by reflexivity.
  assert (Hrh : Forall (ready_hardened E)
                  (List.filter (unsent (list_to_set [1])) F)).
  { rewrite Hsel.
    repeat (constructor; [split; eexists; reflexivity|]). constructor. }
  assert (Hrp : Forall (ready_plain E)
                  (List.filter (unsent (list_to_set [1])) F)).
  { rewrite Hsel.
    repeat (constructor; [split; eexists; reflexivity|]). constructor. }
  destruct (c1_recorded_iff_published E [1] F w
              eq_refl eq_refl eq_refl eq_refl HF Hrh Hrp)
    as (_ & (w1 & Hrun1 & Ht1 & _) & (w2 & Hrun2 & Ht2 & _)).
  split; [exists w1|exists w2]; (split; [assumption|]).
  - exact Ht1.
  - exact Ht2.
Defined.

(** ** The order of publishing *)

Lemma StronglySorted_filter {A} (R : A -> A -> Prop) (f : A -> bool) l :
  StronglySorted R l -> StronglySorted R (List.filter f l).
Proof.
  induction 1 as [|a l Hs IH Ha]; [constructor|].
  cbn. destruct (f a); [|exact IH].
  constructor; [exact IH|].
  apply List.Forall_forall. intros x [Hx _]%filter_In.
  now apply (proj1 (List.Forall_forall _ _) Ha).
Qed.

Lemma StronglySorted_snoc {A} (R : A -> A -> Prop) l a :
  StronglySorted R l -> Forall (fun x => R x a) l ->
  StronglySorted R (l ++ [a]).
Proof.
  induction 1 as [|b l Hs IH Hb]; intros Hall.
  - repeat constructor.
  - inversion Hall as [|b' l' Hba Hl]; subst. cbn.
    constructor; [now apply IH|].
    apply Forall_app. split; [exact Hb|now constructor].
Qed.

Lemma StronglySorted_rev_flip {A} (R : A -> A -> Prop) l :
  StronglySorted (fun a b => R b a) l -> StronglySorted R (rev l).
Proof.
  induction 1 as [|a l Hs IH Ha]; [constructor|].
  cbn. apply StronglySorted_snoc; [exact IH|].
  now apply Forall_rev.
Qed.

(** C3, as worded, fails: neither program sorts.  When the catalog
    answers newest first, [testing22.py] publishes the product 2 before
    the older product 1; when it answers oldest first,
    [bbbbbaqiap92s.py] does. *)
Lemma c3_counterexample :
  let newest_first := [product 2 "b"; product 1 "a"] in
  let oldest_first := [product 1 "a"; product 2 "b"] in
  calls (log (snd (Testing22.check_for_new_products_once
                     (demo_env (Ok (JArr newest_first)))
                     (disk_of None true true))))
  = omap (fun p => api_call (demo_env (Ok JNull))
                     <$> payload_hardened (demo_env (Ok JNull)) p)
      [product 2 "b"; product 1 "a"]
  /\ calls (log (snd (Bbbbbaqiap92s.check_for_new_products
                        (demo_env (Ok (JArr oldest_first)))
                        (disk_of None true true))))
     = omap (fun p => api_call (demo_env (Ok JNull))
                        <$> payload_plain (demo_env (Ok JNull)) p)
         [product 2 "b"; product 1 "a"].
Proof. split; vm_compute; reflexivity. Qed.

(** C3, amended.  Within a pass the selected items are handled one at a
    time, every call for one item before the first call for the next:
    [testing22.py] in the order in which the fetch returned them,
    [bbbbbaqiap92s.py] in the reverse of that order.  For any measure
    [created] of the age of an item, this is oldest first when the fetch
    returned the items oldest first ([testing22.py]) or newest first
    ([bbbbbaqiap92s.py]). *)
Theorem c3_publish_order (E : env) (ids0 : list Z) (F : list json)
    (w : world) (created : json -> Z) :
  file_text (disk w) = store_text ids0 ->
  can_read (disk w) = true ->
  can_write (disk w) = true ->
  network E (gets w) = Ok (JArr F) ->
  Forall (fun p => is_Some (item_id p)) F ->
  Forall (ready_hardened E) (List.filter (unsent (list_to_set ids0)) F) ->
  Forall (ready_plain E) (List.filter (unsent (list_to_set ids0)) F) ->
  let sel := List.filter (unsent (list_to_set ids0)) F in
  (exists w',
     Testing22.check_for_new_products_once E w = (Ok tt, w')
     /\ calls (log w')
        = calls (log w)
          ++ calls_for E (sends w) (omap (payload_hardened E) sel)
     /\ length (omap (payload_hardened E) sel) = length sel)
  /\ (exists w',
        Bbbbbaqiap92s.check_for_new_products E w = (Ok tt, w')
        /\ calls (log w')
           = calls (log w)
             ++ calls_for E (sends w) (omap (payload_plain E) (rev sel))
        /\ length (omap (payload_plain E) (rev sel)) = length sel)
  /\ (StronglySorted (fun a b => created a <= created b) F ->
      StronglySorted (fun a b => created a <= created b) sel)
  /\ (StronglySorted (fun a b => created b <= created a) F ->
      StronglySorted (fun a b => created a <= created b) (rev sel)).
Proof.
  intros Ht Hr Hw Hnet HF Hrh Hrp sel.
  assert (Hlen : forall (f : json -> option payload) l,
            Forall (fun p => is_Some (f p)) l -> length (omap f l) = length l).
  { intros f l. induction 1 as [|p l [pl Hp] _ IH]; [reflexivity|].
    cbn [omap list_omap]. rewrite Hp. cbn. now rewrite IH. }
  split; [|split; [|split]].
  - destruct (pass_hardened_run E ids0 F w Ht Hr Hw Hnet HF Hrh)
      as (w' & Hrun & _ & _ & _ & _ & _ & Hc & _).
    exists w'. split; [exact Hrun|]. split; [exact Hc|].
    apply Hlen. eapply Forall_impl; [exact Hrh|]. now intros p [_ H].
  - destruct (pass_plain_run E ids0 F w Ht Hr Hw Hnet HF Hrp)
      as (w' & Hrun & _ & _ & _ & _ & _ & Hc & _).
    exists w'. split; [exact Hrun|]. split; [exact Hc|].
    rewrite <- (length_rev sel). apply Hlen. apply Forall_rev.
    eapply Forall_impl; [exact Hrp|]. now intros p [_ H].
  - apply StronglySorted_filter.
  - intros H. apply StronglySorted_rev_flip. now apply StronglySorted_filter.
Qed.

Lemma c3_publish_order_witness :
  let F := [product 1 "a"; product 2 "b"; product 3 "c"] in
  let E := demo_env (Ok (JArr F)) in
  let w := disk_of (Some (store_text [1])) true true in
  (exists w',
     Testing22.check_for_new_products_once E w = (Ok tt, w')
     /\ calls (log w')
        = calls_for E 0
            (omap (payload_hardened E) [product 2 "b"; product 3 "c"]))
  /\ StronglySorted (fun a b => default 0 (item_id a) <= default 0 (item_id b))
       [product 2 "b"; product 3 "c"].
Proof.
  intros F E w.
  assert (HF : Forall (fun p => is_Some (item_id p)) F).
  { repeat (constructor; [eexists; reflexivity|]). constructor. }
  assert (Hsel : List.filter (unsent (list_to_set [1])) F
                 = [product 2 "b"; product 3 "c"]) by reflexivity.
  assert (Hrh : Forall (ready_hardened E)
                  (List.filter (unsent (list_to_set [1])) F)).
  { rewrite Hsel.
    repeat (constructor; [split; eexists; reflexivity|]). constructor. }
  assert (Hrp : Forall (ready_plain E)
                  (List.filter (unsent (list_to_set [1])) F)).
  { rewrite Hsel.
    repeat (constructor; [split; eexists; reflexivity|]). constructor. }
  destruct (c3_publish_order E [1] F w (fun p => default 0 (item_id p))
              eq_refl eq_refl eq_refl eq_refl HF Hrh Hrp)
    as ((w1 & Hrun & Hc & _) & _ & Hs & _).
  split.
  - exists w1. split; [exact Hrun|exact Hc].
  - apply Hs. unfold F.
    repeat first [apply SSorted_nil | apply SSorted_cons
                 | apply List.Forall_nil | apply List.Forall_cons];
      (vm_compute; discriminate).
Defined.

(** ** The main loop *)

Lemma check_hardened_unfold E :
  Testing22.check_for_new_products_once E
  = bindM (print MsgChecking)
      (fun _ => bindM Testing22.load_sent_ids
         (fun s => bindM (Testing22.fetch_products E 100)
                     (after_fetch_hardened E s))).
Proof. reflexivity. Qed.

Lemma check_plain_unfold E :
  Bbbbbaqiap92s.check_for_new_products E
  = bindM (print MsgChecking)
      (fun _ => bindM Bbbbbaqiap92s.load_sent_ids
         (fun s =>
            bindM (try_except
                     (bindM (http_json E (Bbbbbaqiap92s.fetch_request E))
                        (fun products => ret (Some products)))
                     (exn_eqb RequestException)
                     (fun e => bindM (print (MsgFetchError e))
                                 (fun _ => ret None)))
              (after_fetch_plain E s))).
Proof. reflexivity. Qed.

(** The rounds that have gone to sleep are counted by the loop alone. *)
Lemma keeps_rests_emit ev :
  rests [ev] = 0%nat -> keeps (fun w => rests (log w)) (emit ev).
Proof.
  intros H w. unfold emit. cbn [snd log set_log].
  rewrite rests_app, H. lia.
Qed.

Lemma keeps_rests_next_send E : keeps (fun w => rests (log w)) (next_send E).
Proof. now intros w. Qed.

Lemma keeps_rests_open_read : keeps (fun w => rests (log w)) open_read.
Proof.
  intros w. unfold open_read.
  destruct (data (disk w)); [destruct (can_read (disk w))|]; reflexivity.
Qed.

Lemma keeps_rests_append t : keeps (fun w => rests (log w)) (append t).
Proof.
  intros w. unfold append. destruct (can_write (disk w)); [|reflexivity].
  cbn [snd log written]. rewrite rests_app. cbn. lia.
Qed.

Lemma keeps_rests_http E r : keeps (fun w => rests (log w)) (http_json E r).
Proof.
  intros w. unfold http_json. cbn [snd log]. rewrite rests_app. cbn. lia.
Qed.

Lemma keeps_rests_send E p :
  keeps (fun w => rests (log w)) (Bbbbbaqiap92s.send_to_channel E p).
Proof.
  intros w. rewrite send_to_channel_run. cbn [snd log]. rewrite rests_app.
  assert (H : rests (send_trace E (channel E (sends w)) p) = 0%nat).
  { unfold send_trace. rewrite rests_app.
    replace (rests match final (channel E (sends w)) with
                   | Delivered => [Api (api_call E p); Print MsgSent]
                   | Refused e => [Api (api_call E p); Print (MsgSendError e)]
                   | Unsent e => [Print (MsgSendError e)]
                   end) with 0%nat
      by now destruct (final (channel E (sends w))).
    rewrite Nat.add_0_r.
    induction (waits (channel E (sends w))) as [|n ws IH]; [reflexivity|].
    exact IH. }
  rewrite H. lia.
Qed.

#[local] Hint Resolve keeps_rests_next_send keeps_rests_open_read
  keeps_rests_append keeps_rests_http keeps_rests_send : keeps.
#[local] Hint Extern 1 (keeps (fun w => rests (log w)) (print _)) =>
  apply keeps_rests_emit; reflexivity : keeps.
#[local] Hint Extern 1 (keeps (fun w => rests (log w)) (sleep _)) =>
  apply keeps_rests_emit; reflexivity : keeps.

Lemma keeps_rests_pass_hardened E :
  keeps (fun w => rests (log w)) (Testing22.check_for_new_products_once E).
Proof.
  unfold Testing22.check_for_new_products_once, Testing22.load_sent_ids,
    Testing22.fetch_products.
  assert (H : forall p, keeps (fun w => rests (log w)) (Testing22.handle E p)).
  { intros p. unfold Testing22.handle, Testing22.save_sent_id.
    rewrite send_to_channel_same. repeat keeps_step. }
  repeat keeps_step.
Qed.

Lemma keeps_rests_pass_plain E :
  keeps (fun w => rests (log w)) (Bbbbbaqiap92s.check_for_new_products E).
Proof.
  unfold Bbbbbaqiap92s.check_for_new_products, Bbbbbaqiap92s.load_sent_ids.
  assert (H : forall p,
            keeps (fun w => rests (log w)) (Bbbbbaqiap92s.handle E p)).
  { intros p. unfold Bbbbbaqiap92s.handle, Bbbbbaqiap92s.save_sent_id.
    repeat keeps_step. }
  repeat keeps_step.
Qed.

(** A round returns whatever its pass did. *)
Lemma round_hardened_run E w :
  let w1 := snd (Testing22.check_for_new_products_once E w) in
  let period := CHECK_INTERVAL_SECONDS (cfg E) in
  exists mid,
    Testing22.background_round E w
    = (Ok tt,
       set_log w1 (log w1 ++ mid ++ [Print (MsgResting period);
                                     Sleep (QArith_base.inject_Z period)]))
    /\ rests mid = 0%nat /\ calls mid = [] /\ writes mid = [].
Proof.
  intros w1 period. unfold Testing22.background_round, bindM, try_except.
  subst w1. destruct (Testing22.check_for_new_products_once E w) as [[[]|e] w1].
  - exists []. split; [|now repeat split].
    unfold print, sleep, emit, set_log. cbn. now rewrite <- app_assoc.
  - exists [Print (MsgLoopError e)]. split; [|now repeat split].
    unfold bindM, print, sleep, emit, set_log. cbn. now rewrite <- !app_assoc.
Qed.

Lemma round_plain_run E w :
  let w1 := snd (Bbbbbaqiap92s.check_for_new_products E w) in
  exists mid,
    Bbbbbaqiap92s.main_round E w
    = (Ok tt,
       set_log w1 (log w1 ++ mid ++ [Print (MsgResting 60);
                                     Sleep (QArith_base.inject_Z 3600)]))
    /\ rests mid = 0%nat /\ calls mid = [] /\ writes mid = [].
Proof.
  intros w1. unfold Bbbbbaqiap92s.main_round, bindM, try_except.
  subst w1. destruct (Bbbbbaqiap92s.check_for_new_products E w) as [[[]|e] w1].
  - exists []. split; [|now repeat split].
    unfold print, sleep, emit, set_log. cbn. now rewrite <- app_assoc.
  - exists [Print (MsgLoopError e)]. split; [|now repeat split].
    unfold bindM, print, sleep, emit, set_log. cbn. now rewrite <- !app_assoc.
Qed.

Lemma while_true_rounds (body : M unit) :
  (forall w, exists w', body w = (Ok tt, w')
                        /\ rests (log w') = S (rests (log w))) ->
  forall n w, exists w',
    while_true n body w = (Ok tt, w')
    /\ rests (log w') = (rests (log w) + n)%nat.
Proof.
  intros Hb. induction n as [|n IH]; intros w.
  - exists w. split; [reflexivity|lia].
  - destruct (Hb w) as (w1 & H1 & R1). destruct (IH w1) as (w' & H' & R').
    exists w'. cbn. unfold bindM. rewrite H1. split; [exact H'|lia].
Qed.

Lemma round_hardened_rests E w :
  exists w', Testing22.background_round E w = (Ok tt, w')
             /\ rests (log w') = S (rests (log w)).
Proof.
  destruct (round_hardened_run E w) as (mid & H & Hm & _). eexists.
  split; [exact H|]. cbn [log set_log].
  rewrite !rests_app, Hm, (keeps_rests_pass_hardened E w). cbn. lia.
Qed.

Lemma round_plain_rests E w :
  exists w', Bbbbbaqiap92s.main_round E w = (Ok tt, w')
             /\ rests (log w') = S (rests (log w)).
Proof.
  destruct (round_plain_run E w) as (mid & H & Hm & _). eexists.
  split; [exact H|]. cbn [log set_log].
  rewrite !rests_app, Hm, (keeps_rests_pass_plain E w). cbn. lia.
Qed.

(** The requests are counted by [http_json] alone. *)
Lemma keeps_gets_emit ev : keeps gets (emit ev).
Proof. now intros w. Qed.

Lemma keeps_gets_next_send E : keeps gets (next_send E).
Proof. now intros w. Qed.

Lemma keeps_gets_open_read : keeps gets open_read.
Proof.
  intros w. unfold open_read.
  destruct (data (disk w)); [destruct (can_read (disk w))|]; reflexivity.
Qed.

Lemma keeps_gets_append t : keeps gets (append t).
Proof. intros w. unfold append. now destruct (can_write (disk w)). Qed.

Lemma keeps_gets_send E p : keeps gets (Bbbbbaqiap92s.send_to_channel E p).
Proof. intros w. now rewrite send_to_channel_run. Qed.

#[local] Hint Resolve keeps_gets_next_send keeps_gets_open_read
  keeps_gets_append keeps_gets_send : keeps.
#[local] Hint Extern 1 (keeps gets (print _)) => apply keeps_gets_emit : keeps.
#[local] Hint Extern 1 (keeps gets (sleep _)) => apply keeps_gets_emit : keeps.

Lemma keeps_gets_after_fetch_hardened E s products :
  keeps gets (after_fetch_hardened E s products).
Proof.
  assert (H : forall p, keeps gets (Testing22.handle E p)).
  { intros p. unfold Testing22.handle, Testing22.save_sent_id.
    rewrite send_to_channel_same. repeat keeps_step. }
  unfold after_fetch_hardened. repeat keeps_step.
Qed.

Lemma keeps_gets_after_fetch_plain E s fetched :
  keeps gets (after_fetch_plain E s fetched).
Proof.
  assert (H : forall p, keeps gets (Bbbbbaqiap92s.handle E p)).
  { intros p. unfold Bbbbbaqiap92s.handle, Bbbbbaqiap92s.save_sent_id.
    repeat keeps_step. }
  unfold after_fetch_plain. repeat keeps_step.
Qed.

(** Every pass of [testing22.py] sends one request. *)
Lemma gets_pass_hardened E w :
  gets (snd (Testing22.check_for_new_products_once E w)) = S (gets w).
Proof.
  rewrite check_hardened_unfold.
  unfold bindM at 1. unfold print at 1, emit at 1. cbv beta iota.
  unfold bindM at 1. rewrite load_hardened_run. cbn [disk set_log].
  assert (H : forall s w2,
    gets (snd (bindM (Testing22.fetch_products E 100)
                 (after_fetch_hardened E s) w2)) = S (gets w2)).
  { intros s w2. unfold bindM, Testing22.fetch_products, try_except, http_json.
    destruct (network E (gets w2)) as [body|e].
    - cbv beta iota. apply (keeps_gets_after_fetch_hardened E s body).
    - unfold any_exception, bindM, print, emit, ret. cbv beta iota.
      apply (keeps_gets_after_fetch_hardened E s (JArr [])). }
  destruct (stored_ids (disk w)) as [s|[]]; now rewrite H.
Qed.

(** So does a pass of [bbbbbaqiap92s.py] that can load the dedup file. *)
Lemma gets_pass_plain E w :
  raises (fst (Bbbbbaqiap92s.load_sent_ids w)) = false ->
  gets (snd (Bbbbbaqiap92s.check_for_new_products E w)) = S (gets w).
Proof.
  rewrite check_plain_unfold, load_plain_run. intros Hload.
  unfold bindM at 1. unfold print at 1, emit at 1. cbv beta iota.
  unfold bindM at 1. rewrite load_plain_run. cbn [disk set_log].
  assert (H : forall s w2,
    gets (snd (bindM
      (try_except
         (bindM (http_json E (Bbbbbaqiap92s.fetch_request E))
            (fun products => ret (Some products)))
         (exn_eqb RequestException)
         (fun e => bindM (print (MsgFetchError e)) (fun _ => ret None)))
      (after_fetch_plain E s) w2)) = S (gets w2)).
  { intros s w2. unfold bindM at 1. unfold try_except.
    unfold bindM at 1. unfold http_json.
    destruct (network E (gets w2)) as [body|e].
    - unfold ret. cbv beta iota.
      apply (keeps_gets_after_fetch_plain E s (Some body)).
    - destruct (exn_eqb RequestException e); [|reflexivity].
      unfold bindM, print, emit, ret. cbv beta iota.
      apply (keeps_gets_after_fetch_plain E s None). }
  destruct (stored_ids (disk w)) as [s|[]]; try discriminate Hload;
    now rewrite H.
Qed.

(** A failed fetch ends the pass with nothing published or recorded. *)
Lemma fetch_failure_hardened E w e :
  network E (gets w) = Raise e ->
  exists w',
    Testing22.check_for_new_products_once E w = (Ok tt, w')
    /\ disk w' = disk w
    /\ calls (log w') = calls (log w)
    /\ writes (log w') = writes (log w).
Proof.
  intros Hnet. rewrite check_hardened_unfold.
  unfold bindM at 1. unfold print at 1, emit at 1. cbv beta iota.
  unfold bindM at 1. rewrite load_hardened_run. cbn [disk set_log].
  destruct (stored_ids (disk w)) as [s|[]];
    unfold bindM at 1;
    unfold Testing22.fetch_products, try_except, http_json;
    cbn [gets set_log]; rewrite Hnet;
    (eexists; split; [reflexivity|]);
    cbn [disk log set_log];
    rewrite !calls_app, !writes_app; cbn; rewrite !app_nil_r; auto.
Qed.

Lemma fetch_failure_plain E w e :
  network E (gets w) = Raise e ->
  raises (fst (Bbbbbaqiap92s.load_sent_ids w)) = false ->
  exists r w',
    Bbbbbaqiap92s.check_for_new_products E w = (r, w')
    /\ disk w' = disk w
    /\ calls (log w') = calls (log w)
    /\ writes (log w') = writes (log w).
Proof.
  intros Hnet. rewrite check_plain_unfold, load_plain_run. intros Hload.
  unfold bindM at 1. unfold print at 1, emit at 1. cbv beta iota.
  unfold bindM at 1. rewrite load_plain_run. cbn [disk set_log].
  destruct (stored_ids (disk w)) as [s|[]]; try discriminate Hload;
    unfold bindM at 1; unfold try_except; unfold bindM at 1;
    unfold http_json; cbn [gets set_log]; rewrite Hnet;
    (destruct (exn_eqb RequestException e);
     (do 2 eexists; split; [reflexivity|]);
     cbn [disk log set_log];
     rewrite ?calls_app, ?writes_app; cbn; rewrite ?app_nil_r; auto).
Qed.

Lemma last_two {A} (l : list A) a b : last (l ++ [a; b]) = Some b.
Proof. change [a; b] with ([a] ++ [b]). rewrite app_assoc. apply last_snoc. Qed.

(** C9.  No round of the main loop raises, whatever happens in its pass:
    an exception that leaves the pass is printed at the loop, and the
    round ends with the sleep of the poll interval.  So the loop of
    either program goes through any number [n] of rounds.  When the fetch
    of a round fails, nothing is sent to the channel and the dedup file is
    as before, the round still ends asleep, and the next round sends a
    request again. *)
Theorem c9_loop_survives (E : env) (n : nat) (w : world) (e : exn) :
  let period := CHECK_INTERVAL_SECONDS (cfg E) in
  (exists w',
     Testing22.background_round E w = (Ok tt, w')
     /\ rests (log w') = S (rests (log w))
     /\ last (log w') = Some (Sleep (QArith_base.inject_Z period)))
  /\ (exists w',
        Bbbbbaqiap92s.main_round E w = (Ok tt, w')
        /\ rests (log w') = S (rests (log w))
        /\ last (log w') = Some (Sleep (QArith_base.inject_Z 3600)))
  /\ (forall w1,
        Testing22.check_for_new_products_once E w = (Raise e, w1) ->
        Testing22.background_round E w
        = (Ok tt,
           set_log w1
             (log w1 ++ [Print (MsgLoopError e); Print (MsgResting period);
                         Sleep (QArith_base.inject_Z period)])))
  /\ (forall w1,
        Bbbbbaqiap92s.check_for_new_products E w = (Raise e, w1) ->
        Bbbbbaqiap92s.main_round E w
        = (Ok tt,
           set_log w1
             (log w1 ++ [Print (MsgLoopError e); Print (MsgResting 60);
                         Sleep (QArith_base.inject_Z 3600)])))
  /\ (exists w',
        Testing22.background_loop E n w = (Ok tt, w')
        /\ rests (log w') = (rests (log w) + n)%nat)
  /\ (exists w',
        Bbbbbaqiap92s.main E n w = (Ok tt, w')
        /\ rests (log w') = (rests (log w) + n)%nat)
  /\ (network E (gets w) = Raise e ->
      exists w',
        Testing22.background_round E w = (Ok tt, w')
        /\ disk w' = disk w
        /\ calls (log w') = calls (log w)
        /\ writes (log w') = writes (log w)
        /\ last (log w') = Some (Sleep (QArith_base.inject_Z period))
        /\ gets (snd (Testing22.background_round E w')) = S (gets w'))
  /\ (network E (gets w) = Raise e ->
      raises (fst (Bbbbbaqiap92s.load_sent_ids w)) = false ->
      exists w',
        Bbbbbaqiap92s.main_round E w = (Ok tt, w')
        /\ disk w' = disk w
        /\ calls (log w') = calls (log w)
        /\ writes (log w') = writes (log w)
        /\ last (log w') = Some (Sleep (QArith_base.inject_Z 3600))
        /\ gets (snd (Bbbbbaqiap92s.main_round E w')) = S (gets w')).
Proof.
  intros period.
  assert (Hgh : forall w0,
            gets (snd (Testing22.background_round E w0)) = S (gets w0)).
  { intros w0. destruct (round_hardened_run E w0) as (mid & -> & _).
    cbn [snd gets set_log]. apply gets_pass_hardened. }
  assert (Hgp : forall w0,
            raises (fst (Bbbbbaqiap92s.load_sent_ids w0)) = false ->
            gets (snd (Bbbbbaqiap92s.main_round E w0)) = S (gets w0)).
  { intros w0 H0. destruct (round_plain_run E w0) as (mid & -> & _).
    cbn [snd gets set_log]. now apply gets_pass_plain. }
  split; [|split; [|split; [|split; [|split; [|split; [|split]]]]]].
  - destruct (round_hardened_run E w) as (mid & H & Hm & _). eexists.
    split; [exact H|]. cbn [log set_log]. split.
    + rewrite !rests_app, Hm, (keeps_rests_pass_hardened E w). cbn. lia.
    + rewrite app_assoc. apply last_two.
  - destruct (round_plain_run E w) as (mid & H & Hm & _). eexists.
    split; [exact H|]. cbn [log set_log]. split.
    + rewrite !rests_app, Hm, (keeps_rests_pass_plain E w). cbn. lia.
    + rewrite app_assoc. apply last_two.
  - intros w1 Hp. unfold Testing22.background_round, bindM, try_except.
    rewrite Hp. unfold any_exception, print, sleep, emit, set_log. cbn.
    now rewrite <- !app_assoc.
  - intros w1 Hp. unfold Bbbbbaqiap92s.main_round, bindM, try_except.
    rewrite Hp. unfold any_exception, print, sleep, emit, set_log. cbn.
    now rewrite <- !app_assoc.
  - unfold Testing22.background_loop, bindM at 1, print, emit.
    destruct (while_true_rounds _ (round_hardened_rests E) n
                (set_log w (log w ++ [Print MsgStarted])))
      as (w' & H & R).
    exists w'. split; [exact H|]. rewrite R. cbn [log set_log].
    rewrite rests_app. cbn. lia.
  - unfold Bbbbbaqiap92s.main, bindM at 1, print, emit.
    destruct (while_true_rounds _ (round_plain_rests E) n
                (set_log w (log w ++ [Print MsgStarted])))
      as (w' & H & R).
    exists w'. split; [exact H|]. rewrite R. cbn [log set_log].
    rewrite rests_app. cbn. lia.
  - intros Hnet.
    destruct (fetch_failure_hardened E w e Hnet) as (w1 & Hp & Hd & Hc & Hw).
    destruct (round_hardened_run E w) as (mid & H & Hm & Hcm & Hwm).
    rewrite Hp in H. cbn [snd] in H. eexists. split; [exact H|].
    cbn [disk log set_log]. split; [exact Hd|].
    rewrite !calls_app, !writes_app, Hcm, Hwm, Hc, Hw. cbn.
    rewrite !app_nil_r. repeat split.
    + rewrite app_assoc. apply last_two.
    + now rewrite Hgh.
  - intros Hnet Hload.
    destruct (fetch_failure_plain E w e Hnet Hload)
      as (r & w1 & Hp & Hd & Hc & Hw).
    destruct (round_plain_run E w) as (mid & H & Hm & Hcm & Hwm).
    rewrite Hp in H. cbn [snd] in H. eexists. split; [exact H|].
    cbn [disk log set_log]. split; [exact Hd|].
    rewrite !calls_app, !writes_app, Hcm, Hwm, Hc, Hw. cbn.
    rewrite !app_nil_r. repeat split.
    + rewrite app_assoc. apply last_two.
    + rewrite Hgp; [reflexivity|].
      rewrite load_plain_run in *. cbn [disk set_log]. rewrite Hd.
      now destruct (stored_ids (disk w)) as [s|[]].
Qed.

Lemma c9_loop_survives_witness :
  let E := demo_env (Raise RequestException) in
  let w := disk_of (Some (store_text [1])) true true in
  (exists w',
     Testing22.background_round E w = (Ok tt, w')
     /\ disk w' = disk w /\ calls (log w') = [])
  /\ (exists w',
        Bbbbbaqiap92s.main_round E w = (Ok tt, w')
        /\ disk w' = disk w /\ calls (log w') = []).
Proof.
  intros E w.
  destruct (c9_loop_survives E 1 w RequestException)
    as (_ & _ & _ & _ & _ & _ & H5 & H6).
  destruct (H5 eq_refl) as (w1 & R1 & D1 & C1 & _).
  destruct (H6 eq_refl eq_refl) as (w2 & R2 & D2 & C2 & _).
  split; [exists w1|exists w2]; repeat split; assumption.
Defined.

(** ** Stripping the markup *)

Lemma closes_sub_tags r : closes r = false -> closes (sub_tags false r) = false.
Proof.
  induction r as [|c r IH]; [reflexivity|].
  cbn [closes sub_tags].
  destruct (c =? GT)%N eqn:Hgt; [discriminate|].
  destruct (c =? LF)%N eqn:Hlf.
  - intros _. apply N.eqb_eq in Hlf. subst c. cbn. reflexivity.
  - intros Hr. rewrite Hr, andb_false_r. cbn [closes].
    rewrite Hgt, Hlf. now apply IH.
Qed.

Lemma has_tag_sub_tags s : forall b, has_tag (sub_tags b s) = false.
Proof.
  induction s as [|c r IH]; intros b; [now destruct b|].
  cbn [sub_tags]. destruct b; [apply IH|].
  destruct ((c =? LT)%N && closes r) eqn:Hc; [apply IH|].
  cbn [has_tag]. rewrite IH, orb_false_r.
  apply andb_false_iff in Hc as [Hc|Hc]; [now rewrite Hc|].
  now rewrite (closes_sub_tags r Hc), andb_false_r.
Qed.

Lemma newline_ahead_head r :
  newline_ahead r = true -> exists x, sub_space_newline r = LF :: x.
Proof.
  induction r as [|c r IH]; [discriminate|].
  cbn [newline_ahead sub_space_newline].
  destruct (is_space c && newline_ahead r) eqn:Hd.
  - intros _. apply andb_true_iff in Hd as [_ Hn]. now apply IH.
  - destruct (c =? LF)%N eqn:Hlf; [|discriminate].
    intros _. apply N.eqb_eq in Hlf. subst c. now eexists.
Qed.

Lemma closes_sub_space_newline r :
  closes r = false -> closes (sub_space_newline r) = false.
Proof.
  induction r as [|c r IH]; [reflexivity|].
  cbn [closes sub_space_newline].
  destruct (c =? GT)%N eqn:Hgt; [discriminate|].
  destruct (is_space c && newline_ahead r) eqn:Hd.
  - intros _. apply andb_true_iff in Hd as [_ Hn].
    destruct (newline_ahead_head r Hn) as (x & ->). reflexivity.
  - cbn [closes]. rewrite Hgt. destruct (c =? LF)%N; [reflexivity|exact IH].
Qed.

Lemma has_tag_sub_space_newline t :
  has_tag t = false -> has_tag (sub_space_newline t) = false.
Proof.
  induction t as [|c r IH]; [reflexivity|].
  cbn [has_tag sub_space_newline]. intros H.
  apply orb_false_iff in H as [Hc Hr].
  destruct (is_space c && newline_ahead r); [now apply IH|].
  cbn [has_tag]. rewrite (IH Hr), orb_false_r.
  apply andb_false_iff in Hc as [Hc|Hc]; [now rewrite Hc|].
  now rewrite (closes_sub_space_newline r Hc), andb_false_r.
Qed.

Lemma has_tag_suffix a b : has_tag (a ++ b) = false -> has_tag b = false.
Proof.
  induction a as [|c a IH]; [trivial|].
  cbn [app has_tag]. intros H. apply orb_false_iff in H as [_ H]. now apply IH.
Qed.

Lemma closes_prefix a b : closes a = true -> closes (a ++ b) = true.
Proof.
  induction a as [|c a IH]; [discriminate|].
  cbn [app closes]. destruct (c =? GT)%N; [reflexivity|].
  destruct (c =? LF)%N; [discriminate|exact IH].
Qed.

Lemma has_tag_prefix a b : has_tag (a ++ b) = false -> has_tag a = false.
Proof.
  induction a as [|c a IH]; [reflexivity|].
  cbn [app has_tag]. intros H. apply orb_false_iff in H as [Hc H].
  rewrite (IH H), orb_false_r.
  apply andb_false_iff in Hc as [Hc|Hc]; [now rewrite Hc|].
  destruct (closes a) eqn:Ha; [|apply andb_false_r].
  now rewrite (closes_prefix a b Ha) in Hc.
Qed.

Lemma lstrip_suffix s : exists a, s = a ++ lstrip s.
Proof.
  induction s as [|c s (a & Ha)]; [now exists []|].
  cbn [lstrip]. destruct (is_space c); [|now exists []].
  exists (c :: a). cbn. now f_equal.
Qed.

Lemma rstrip_prefix s : exists b, s = rstrip s ++ b.
Proof.
  unfold rstrip. destruct (lstrip_suffix (rev s)) as (a & Ha).
  exists (rev a). rewrite <- rev_app_distr, <- Ha. now rewrite rev_involutive.
Qed.

Lemma has_tag_strip s : has_tag s = false -> has_tag (py_strip s) = false.
Proof.
  intros H. unfold py_strip.
  destruct (lstrip_suffix s) as (a & Ha).
  destruct (rstrip_prefix (lstrip s)) as (b & Hb).
  rewrite Ha in H. apply has_tag_suffix in H. rewrite Hb in H.
  now apply has_tag_prefix in H.
Qed.

Lemma sublist_sub_tags s : forall b, sublist (sub_tags b s) s.
Proof.
  induction s as [|c r IH]; intros b; [now destruct b|].
  cbn [sub_tags]. destruct b; [apply sublist_cons, IH|].
  destruct ((c =? LT)%N && closes r).
  - apply sublist_cons, IH.
  - apply sublist_skip, IH.
Qed.

Lemma sublist_sub_space_newline s : sublist (sub_space_newline s) s.
Proof.
  induction s as [|c r IH]; [constructor|].
  cbn [sub_space_newline]. destruct (is_space c && newline_ahead r).
  - now apply sublist_cons.
  - now apply sublist_skip.
Qed.

Lemma sublist_py_strip s : sublist (py_strip s) s.
Proof.
  unfold py_strip.
  destruct (lstrip_suffix s) as (a & Ha).
  destruct (rstrip_prefix (lstrip s)) as (b & Hb).
  rewrite Ha at 2. rewrite Hb at 2.
  apply sublist_inserts_l, sublist_inserts_r. reflexivity.
Qed.

Lemma sub_tags_fixed s : has_tag s = false -> sub_tags false s = s.
Proof.
  induction s as [|c r IH]; [reflexivity|].
  cbn [has_tag sub_tags]. intros [Hc Hr]%orb_false_iff.
  rewrite Hc. f_equal. now apply IH.
Qed.

(** ** Formatting an item *)

Section Formatting.
Context (E : env).

Lemma hashtags_hardened_total ts :
  forallb is_object ts = true -> exists l, Testing22.hashtags E ts = Ok l.
Proof.
  induction ts as [|t ts IH]; [now exists []|].
  cbn [forallb]. intros [Ht Hts]%andb_true_iff.
  destruct (IH Hts) as (l & Hl).
  destruct t; try discriminate. cbn [Testing22.hashtags py_get].
  destruct (lookup_key (lit "name") fields); cbn [bind];
    (destruct (py_strip _); [now exists l|]);
    (destruct (has_dot _); [now exists l|]);
    rewrite Hl; cbn [bind]; now eexists.
Qed.

Lemma hashtags_plain_total ts :
  forallb has_text_name ts = true ->
  exists l, Bbbbbaqiap92s.hashtags ts = Ok l.
Proof.
  induction ts as [|t ts IH]; [now exists []|].
  cbn [forallb]. intros [Ht Hts]%andb_true_iff.
  destruct (IH Hts) as (l & Hl).
  unfold has_text_name, field in Ht.
  destruct t; try discriminate. cbn [Bbbbbaqiap92s.hashtags getitem].
  destruct (lookup_key (lit "name") fields) as [[]|]; try discriminate.
  cbn [bind]. rewrite Hl. cbn [bind]. now eexists.
Qed.

Lemma clean_html_hardened_ok fields :
  match lookup_key (lit "short_description") fields with
  | None | Some (JStr _) => true
  | Some v => negb (truthy v)
  end = true ->
  Testing22.clean_html
    (py_or (default (JStr []) (lookup_key (lit "short_description") fields))
       (JStr []))
  = Ok (excerpt_hardened (JObj fields)).
Proof.
  unfold excerpt_hardened, field. change (lit "short_description")
    with (lit "short_description").
  destruct (lookup_key (lit "short_description") fields) as [v|];
    [|reflexivity].
  cbn [from_option id]. intros Hv. unfold py_or.
  destruct v as [|[]|z|[|c r]|l|l]; try reflexivity;
    cbn [truthy negb] in Hv |- *; try discriminate Hv.
  - destruct (z =? 0); [reflexivity|discriminate Hv].
  - destruct l; [reflexivity|discriminate Hv].
  - destruct l; [reflexivity|discriminate Hv].
Qed.

Lemma format_hardened_ok p :
  formattable_hardened p = true ->
  exists tags,
    Testing22.format_item E p
    = Ok {| text := caption E (Testing22.channel_username E)
                      (default (JStr Testing22.untitled) (field p "name"))
                      (excerpt_hardened p) tags;
            image := Testing22.first_image p;
            link := default (JStr [HASH]) (field p "permalink") |}
    /\ Testing22.format_tags E (default (JArr []) (field p "tags")) = Ok tags
    /\ (field p "tags" = None -> tags = []).
Proof.
  unfold formattable_hardened.
  intros [[Hobj Hsd]%andb_true_iff Htags]%andb_true_iff.
  destruct p as [| | | | |fields]; try discriminate. clear Hobj.
  pose proof (clean_html_hardened_ok fields Hsd) as Hex.
  unfold field in *.
  unfold Testing22.format_item, Testing22.item_title, Testing22.item_payload.
  cbn [py_get].
  assert (Htg : exists tg,
    Testing22.format_tags E
      (default (JArr []) (lookup_key (lit "tags") fields)) = Ok tg
    /\ (lookup_key (lit "tags") fields = None -> tg = [])).
  { destruct (lookup_key (lit "tags") fields) as [v|].
    - destruct v; try discriminate.
      destruct (hashtags_hardened_total items Htags) as (l & Hl).
      unfold Testing22.format_tags. cbn [from_option id py_iter bind].
      rewrite Hl. cbn [bind]. eexists. split; [reflexivity|discriminate].
    - exists []. now split. }
  destruct Htg as (tg & Htg & Htnone).
  exists tg.
  split; [|now split].
  destruct (lookup_key (lit "name") fields);
    destruct (lookup_key (lit "short_description") fields);
    destruct (lookup_key (lit "tags") fields);
    destruct (lookup_key (lit "permalink") fields);
    cbn [bind from_option id] in *; rewrite Hex; cbn [bind]; rewrite Htg;
    reflexivity.
Qed.

Lemma first_image_hardened_none p :
  field p "images" = None -> Testing22.first_image p = JNull.
Proof.
  unfold field, Testing22.first_image, Testing22.first_image_expr.
  destruct p; try reflexivity. cbn [py_get]. now intros ->.
Qed.

Lemma first_image_hardened_first p f rest :
  field p "images" = Some (JArr (JObj f :: rest)) ->
  Testing22.first_image p = default JNull (lookup_key (lit "src") f).
Proof.
  unfold field, Testing22.first_image, Testing22.first_image_expr.
  destruct p; try discriminate. cbn [py_get]. intros ->.
  cbn [bind truthy length Nat.eqb negb getitem0 py_get].
  now destruct (lookup_key (lit "src") f).
Qed.

Lemma format_plain_ok p :
  formattable_plain p = true ->
  exists title tags img,
    field p "name" = Some title
    /\ Bbbbbaqiap92s.format_item E p
       = Ok {| text := caption E (Bbbbbaqiap92s.channel_username E) title
                         (excerpt_plain p) tags;
               image := img;
               link := default (JStr [HASH]) (field p "permalink") |}
    /\ Bbbbbaqiap92s.format_tags (default (JArr []) (field p "tags")) = Ok tags
    /\ (field p "tags" = None -> tags = [])
    /\ (forall v, field p "images" = Some v -> truthy v = false ->
          img = JNull)
    /\ (forall f rest, field p "images" = Some (JArr (JObj f :: rest)) ->
          lookup_key (lit "src") f = Some img).
Proof.
  unfold formattable_plain.
  intros [[[Hname Himg]%andb_true_iff Hsd]%andb_true_iff Htags]%andb_true_iff.
  destruct p as [| | | | |fields]; try discriminate.
  unfold excerpt_plain. unfold field in *.
  destruct (lookup_key (lit "name") fields) as [title|] eqn:Hn;
    [|discriminate].
  assert (Hex :
    Bbbbbaqiap92s.clean_html
      (default (JStr []) (lookup_key (lit "short_description") fields))
    = Ok match lookup_key (lit "short_description") fields with
         | Some (JStr s) => sub_tags false s
         | _ => []
         end).
  { destruct (lookup_key (lit "short_description") fields) as [v|];
      [|reflexivity].
    destruct v; try discriminate. reflexivity. }
  assert (Htg : exists tg,
    Bbbbbaqiap92s.format_tags
      (default (JArr []) (lookup_key (lit "tags") fields)) = Ok tg
    /\ (lookup_key (lit "tags") fields = None -> tg = [])).
  { destruct (lookup_key (lit "tags") fields) as [v|].
    - destruct v; try discriminate.
      destruct (hashtags_plain_total items Htags) as (l & Hl).
      unfold Bbbbbaqiap92s.format_tags. cbn [from_option id py_iter bind].
      rewrite Hl. cbn [bind]. eexists. split; [reflexivity|discriminate].
    - exists []. now split. }
  destruct Htg as (tg & Htg & Htnone).
  assert (Him : exists img,
    Bbbbbaqiap92s.first_image (JObj fields) = Ok img
    /\ (forall v, lookup_key (lit "images") fields = Some v ->
          truthy v = false -> img = JNull)
    /\ (forall f rest,
          lookup_key (lit "images") fields = Some (JArr (JObj f :: rest)) ->
          lookup_key (lit "src") f = Some img)).
  { unfold Bbbbbaqiap92s.first_image. cbn [getitem].
    destruct (lookup_key (lit "images") fields) as [v|]; [|discriminate].
    cbn [bind]. destruct (truthy v) eqn:Hv.
    - destruct v as [| | | |[|[| | | | |f] rest]|]; try discriminate.
      cbn [getitem0 bind getitem].
      destruct (lookup_key (lit "src") f) as [img|] eqn:Hs; [|discriminate].
      exists img. split; [reflexivity|]. split.
      + intros v [= <-]. discriminate.
      + intros f' rest' [= <- _]. exact Hs.
    - exists JNull. split; [reflexivity|]. split; [reflexivity|].
      intros f rest [= ->]. discriminate Hv. }
  destruct Him as (img & Him & Hfalsy & Hfirst).
  exists title, tg, img.
  split; [reflexivity|]. split; [|now repeat split].
  unfold Bbbbbaqiap92s.format_item, Bbbbbaqiap92s.item_title,
    Bbbbbaqiap92s.item_payload.
  rewrite Him. cbn [getitem py_get]. rewrite Hn. cbn [bind].
  destruct (lookup_key (lit "short_description") fields);
    destruct (lookup_key (lit "tags") fields);
    destruct (lookup_key (lit "permalink") fields);
    cbn [bind from_option id] in *; rewrite Hex; cbn [bind]; rewrite Htg;
    reflexivity.
Qed.

End Formatting.

(** What the excerpts are, apart from the programs: free of markup, made
    of characters of the description in their order, and the description
    itself (trimmed, in [testing22.py]) when it has no markup. *)
Lemma excerpt_plain_facts p :
  has_tag (excerpt_plain p) = false
  /\ (forall s, field p "short_description" = Some (JStr s) ->
        sublist (excerpt_plain p) s
        /\ (has_tag s = false -> excerpt_plain p = s))
  /\ (field p "short_description" = None -> excerpt_plain p = []).
Proof.
  unfold excerpt_plain. split; [|split].
  - destruct (field p "short_description") as [[]|]; try reflexivity.
    apply has_tag_sub_tags.
  - intros s ->. split; [apply sublist_sub_tags|apply sub_tags_fixed].
  - now intros ->.
Qed.

Lemma excerpt_hardened_facts p :
  has_tag (excerpt_hardened p) = false
  /\ (forall s, field p "short_description" = Some (JStr s) ->
        sublist (excerpt_hardened p) s
        /\ (has_tag s = false ->
            excerpt_hardened p = py_strip (sub_space_newline s)))
  /\ (field p "short_description" = None -> excerpt_hardened p = []).
Proof.
  unfold excerpt_hardened. split; [|split].
  - destruct (field p "short_description") as [[]|]; try reflexivity.
    apply has_tag_strip, has_tag_sub_space_newline, has_tag_sub_tags.
  - intros s ->. split.
    + etransitivity; [apply sublist_py_strip|].
      etransitivity; [apply sublist_sub_space_newline|].
      apply sublist_sub_tags.
    + intros H. now rewrite (sub_tags_fixed s H).
  - now intros ->.
Qed.

(** C7, as worded, fails.  [bbbbbaqiap92s.py] raises [KeyError] for an
    item without name or without images; [testing22.py] raises
    [TypeError] for tags that are [null] and for an excerpt that is a
    number, and gives an item without name the title "without title", not
    the empty text. *)
Lemma c7_counterexample :
  let E := demo_env (Ok JNull) in
  Bbbbbaqiap92s.format_item E
    (JObj [(lit "id", JNum 1); (lit "images", JArr [])])
  = Raise KeyError
  /\ Bbbbbaqiap92s.format_item E
       (JObj [(lit "id", JNum 1); (lit "name", JStr (lit "a"))])
     = Raise KeyError
  /\ Testing22.format_item E
       (JObj [(lit "name", JStr (lit "a")); (lit "tags", JNull)])
     = Raise TypeError
  /\ Testing22.format_item E
       (JObj [(lit "name", JStr (lit "a"));
              (lit "short_description", JNum 5)])
     = Raise TypeError
  /\ Testing22.item_title (JObj [(lit "id", JNum 1)])
     = Ok (JStr Testing22.untitled).
Proof. repeat split; reflexivity. Qed.

(** C7, amended.  [testing22.py] formats, without raising, every item
    that is an object whose excerpt, when present, is a text or false and
    whose tags, when present, are a list of objects;
    [bbbbbaqiap92s.py] every item that moreover has a name, has images
    that are false or begin with an object with a source, has no excerpt
    that is not a text and no tag whose name is not a text.  The text of
    the message is the caption of the title, the excerpt, the hashtags and
    the channel name of the program.  The title is the name, or "without
    title" in [testing22.py] when there is none.  The excerpt is the
    description with every match of the markup pattern taken out (and
    trimmed, in [testing22.py]): it holds no match of the pattern, is made
    of characters of the description in their order, is the description
    itself (trimmed) when that has no markup, and is empty when the item
    has none.  The hashtags are what [format_tags] makes of the tags, and
    empty when the item has no tags; the image is the source of the first
    image, and none when there are no images; the link is the permalink,
    or [#] when there is none. *)
Theorem c7_formatting (E : env) (p : json) :
  (formattable_hardened p = true ->
   exists tags,
     Testing22.format_item E p
     = Ok {| text := caption E (Testing22.channel_username E)
                       (default (JStr Testing22.untitled) (field p "name"))
                       (excerpt_hardened p) tags;
             image := Testing22.first_image p;
             link := default (JStr [HASH]) (field p "permalink") |}
     /\ Testing22.format_tags E (default (JArr []) (field p "tags")) = Ok tags
     /\ has_tag (excerpt_hardened p) = false
     /\ (forall s, field p "short_description" = Some (JStr s) ->
           sublist (excerpt_hardened p) s
           /\ (has_tag s = false ->
               excerpt_hardened p = py_strip (sub_space_newline s)))
     /\ (field p "short_description" = None -> excerpt_hardened p = [])
     /\ (field p "tags" = None -> tags = [])
     /\ (field p "images" = None -> Testing22.first_image p = JNull)
     /\ (forall f rest,
           field p "images" = Some (JArr (JObj f :: rest)) ->
           Testing22.first_image p
           = default JNull (lookup_key (lit "src") f)))
  /\ (formattable_plain p = true ->
      exists title tags img,
        field p "name" = Some title
        /\ Bbbbbaqiap92s.format_item E p
           = Ok {| text := caption E (Bbbbbaqiap92s.channel_username E) title
                             (excerpt_plain p) tags;
                   image := img;
                   link := default (JStr [HASH]) (field p "permalink") |}
        /\ Bbbbbaqiap92s.format_tags (default (JArr []) (field p "tags"))
           = Ok tags
        /\ has_tag (excerpt_plain p) = false
        /\ (forall s, field p "short_description" = Some (JStr s) ->
              sublist (excerpt_plain p) s
              /\ (has_tag s = false -> excerpt_plain p = s))
        /\ (field p "short_description" = None -> excerpt_plain p = [])
        /\ (field p "tags" = None -> tags = [])
        /\ (forall v, field p "images" = Some v -> truthy v = false ->
              img = JNull)
        /\ (forall f rest,
              field p "images" = Some (JArr (JObj f :: rest)) ->
              lookup_key (lit "src") f = Some img)).
Proof.
  split.
  - intros H.
    destruct (format_hardened_ok E p H) as (tg & H1 & H2 & H3).
    destruct (excerpt_hardened_facts p) as (F1 & F2 & F3).
    exists tg.
    split; [exact H1|]. split; [exact H2|]. split; [exact F1|].
    split; [exact F2|]. split; [exact F3|]. split; [exact H3|].
    split; [apply first_image_hardened_none|apply first_image_hardened_first].
  - intros H.
    destruct (format_plain_ok E p H) as (t & tg & img & H0 & H1 & H2 & H3 & H4).
    destruct (excerpt_plain_facts p) as (F1 & F2 & F3).
    exists t, tg, img.
    split; [exact H0|]. split; [exact H1|]. split; [exact H2|].
    split; [exact F1|]. split; [exact F2|]. split; [exact F3|].
    split; [exact H3|exact H4].
Qed.

Lemma c7_formatting_witness :
  let E := demo_env (Ok JNull) in
  (exists pl, Testing22.format_item E (product 1 "a") = Ok pl
              /\ image pl = JStr (lit "https://shop.example/a.png")
              /\ text pl
                 = [128722%N; SPACE] ++ lit "<b>a</b>" ++ [LF; LF]
                   ++ lit "fresh" ++ [LF; LF] ++ lit "#new_in" ++ [LF; LF]
                   ++ lit "@shop")
  /\ (exists pl, Bbbbbaqiap92s.format_item E (product 1 "a") = Ok pl
                 /\ image pl = JStr (lit "https://shop.example/a.png")
                 /\ text pl
                    = [128722%N; SPACE] ++ lit "<b>a</b>" ++ [LF; LF]
                      ++ lit "fresh" ++ [LF; LF] ++ lit "#new_in" ++ [LF; LF]
                      ++ lit "@shop").
Proof.
  intros E. destruct (c7_formatting E (product 1 "a")) as [H1 H2].
  destruct (H1 eq_refl) as (tg & Hf & Ht & _ & _ & _ & _ & _ & Hi).
  destruct (H2 eq_refl)
    as (t & tg' & img & Hn & Hf' & Ht' & _ & _ & _ & _ & _ & Hi').
  split.
  - eexists. split; [exact Hf|]. cbn [image text].
    split; [now rewrite (Hi _ _ eq_refl)|].
    injection Ht as <-. reflexivity.
  - eexists. split; [exact Hf'|]. cbn [image text].
    specialize (Hi' _ _ eq_refl). injection Hi' as <-.
    injection Hn as <-. injection Ht' as <-.
    split; reflexivity.
Defined.

(** The last part of the text when [CHANNEL_USERNAME] is not set: the
    word [None] in [bbbbbaqiap92s.py], nothing in [testing22.py]. *)
Example unset_channel_username :
  let E := {| cfg := {| CHANNEL_ID := None; CHANNEL_USERNAME := None;
                        CONSUMER_KEY := None; CONSUMER_SECRET := None;
                        API_URL := None; CHECK_INTERVAL_SECONDS := 3600;
                        SEND_DELAY_SECONDS := QArith_base.inject_Z 3 |};
              repr := fun _ => [];
              telegram := fun _ => {| waits := []; final := Delivered |};
              network := fun _ => Ok JNull;
              stack := 900 |} in
  Bbbbbaqiap92s.channel_username E = lit "None"
  /\ Testing22.channel_username E = []
  /\ option_map text (payload_hardened E (JObj []))
     = Some ([128722%N; SPACE] ++ lit "<b>" ++ Testing22.untitled
             ++ lit "</b>" ++ [LF; LF; LF; LF; LF; LF]).
Proof. repeat split; reflexivity. Qed.

(** ** Outside the hypotheses *)

(** When the dedup file cannot be appended to, [testing22.py] publishes
    the new product, prints the error of the append and leaves the file as
    it was; [bbbbbaqiap92s.py] publishes it and the error of the append
    ends the pass. *)
Example unwritable_file_is_not_recorded :
  let E := demo_env (Ok (JArr [product 2 "b"])) in
  let w := disk_of (Some (store_text [1])) true false in
  let hardened := Testing22.check_for_new_products_once E w in
  let plain := Bbbbbaqiap92s.check_for_new_products E w in
  fst hardened = Ok tt
  /\ length (calls (log (snd hardened))) = 1%nat
  /\ disk (snd hardened) = disk w
  /\ In (Print (MsgSaveError OSError)) (log (snd hardened))
  /\ fst plain = Raise OSError
  /\ length (calls (log (snd plain))) = 1%nat
  /\ disk (snd plain) = disk w.
Proof.
  cbv zeta. repeat split; try reflexivity.
  vm_compute. do 6 right. now left.
Qed.

(** An item that cannot be formatted ends the pass of
    [bbbbbaqiap92s.py] where it stands: the products handled before it
    stay published and recorded, the error goes to the main loop. *)
Example pass_ends_at_a_malformed_item :
  let nameless := JObj [(lit "id", JNum 2)] in
  let E := demo_env (Ok (JArr [nameless; product 1 "a"])) in
  let w := disk_of None true true in
  fst (Bbbbbaqiap92s.check_for_new_products E w) = Raise KeyError
  /\ file_text (disk (snd (Bbbbbaqiap92s.check_for_new_products E w)))
     = store_text [1]
  /\ fst (Bbbbbaqiap92s.main_round E w) = Ok tt.
Proof. repeat split; reflexivity. Qed.

(* ===================================================================== *)
(** * Part III: further properties of the two programs                    *)
(* ===================================================================== *)

(** ** The dedup file only grows *)

Section Grows.
Context (P : pystr -> Prop).

Lemma grows_same w w' evs :
  log w' = log w ++ evs -> writes evs = [] -> disk w' = disk w ->
  grows_by P w w'.
Proof.
  intros HL HW HD. exists evs. rewrite HW, HD. cbn. rewrite app_nil_r.
  split; [exact HL|]. split; [reflexivity|]. split; [constructor|].
  split; [reflexivity|]. split; [reflexivity|trivial].
Qed.

Lemma grows_refl w : grows_by P w w.
Proof. apply (grows_same w w []); [now rewrite app_nil_r|reflexivity..]. Qed.

Lemma grows_trans w1 w2 w3 :
  grows_by P w1 w2 -> grows_by P w2 w3 -> grows_by P w1 w3.
Proof.
  intros (e1 & L1 & T1 & F1 & R1 & W1 & D1) (e2 & L2 & T2 & F2 & R2 & W2 & D2).
  exists (e1 ++ e2). rewrite writes_app, concat_app.
  split; [now rewrite L2, L1, app_assoc|].
  split; [now rewrite T2, T1, app_assoc|].
  split; [apply Forall_app; now split|].
  split; [congruence|]. split; [congruence|auto].
Qed.

Lemma growing_ret {A} (a : A) : growing P (ret a).
Proof. intros w. apply grows_refl. Qed.

Lemma growing_raise {A} e : growing P (@raise A e).
Proof. intros w. apply grows_refl. Qed.

Lemma growing_lift {A} (r : result A) : growing P (lift r).
Proof. intros w. apply grows_refl. Qed.

Lemma growing_bind {A B} (m : M A) (k : A -> M B) :
  growing P m -> (forall a, growing P (k a)) -> growing P (bindM m k).
Proof.
  intros Hm Hk w. unfold bindM. specialize (Hm w).
  destruct (m w) as [[a|e] w1]; cbn [snd] in *; [|exact Hm].
  eapply grows_trans; [exact Hm|apply Hk].
Qed.

Lemma growing_try {A} (m : M A) c h :
  growing P m -> (forall e, growing P (h e)) -> growing P (try_except m c h).
Proof.
  intros Hm Hh w. unfold try_except. specialize (Hm w).
  destruct (m w) as [[a|e] w1]; cbn [snd] in *; [exact Hm|].
  destruct (c e); [|exact Hm].
  eapply grows_trans; [exact Hm|apply Hh].
Qed.

Lemma growing_for_each {A} (l : list A) body :
  (forall a, growing P (body a)) -> growing P (for_each l body).
Proof.
  intros Hb. induction l as [|a l IH]; [apply growing_ret|].
  cbn [for_each]. apply growing_bind; [apply Hb|intros _; exact IH].
Qed.

Lemma growing_while n body : growing P body -> growing P (while_true n body).
Proof.
  intros Hb. induction n as [|n IH]; [apply growing_ret|].
  cbn [while_true]. apply growing_bind; [exact Hb|intros _; exact IH].
Qed.

Lemma growing_emit ev : writes [ev] = [] -> growing P (emit ev).
Proof. intros H w. now apply (grows_same _ _ [ev]). Qed.

Lemma growing_print m : growing P (print m).
Proof. now apply growing_emit. Qed.

Lemma growing_sleep s : growing P (sleep s).
Proof. now apply growing_emit. Qed.

Lemma growing_next_send E : growing P (next_send E).
Proof.
  intros w. apply (grows_same _ _ []); [|reflexivity..].
  cbn. now rewrite app_nil_r.
Qed.

Lemma growing_http E r : growing P (http_json E r).
Proof. intros w. now apply (grows_same _ _ [Get r]). Qed.

Lemma growing_open_read : growing P open_read.
Proof.
  intros w. unfold open_read.
  destruct (data (disk w)); [destruct (can_read (disk w))|]; apply grows_refl.
Qed.

Lemma growing_append t : P t -> growing P (append t).
Proof.
  intros Ht w. unfold append.
  destruct (can_write (disk w)); [|apply grows_refl].
  exists [Wrote t]. cbn. rewrite app_nil_r.
  split; [reflexivity|]. split; [reflexivity|]. split; [now constructor|].
  split; [reflexivity|]. split; [reflexivity|]. intros _. now eexists.
Qed.

Lemma growing_send E p : growing P (Bbbbbaqiap92s.send_to_channel E p).
Proof.
  intros w. rewrite send_to_channel_run. cbn [snd].
  apply (grows_same _ _ (send_trace E (channel E (sends w)) p));
    [reflexivity|apply writes_send_trace|reflexivity].
Qed.

End Grows.

(** Splits a goal [growing P m] along the structure of [m]. *)
Ltac growing_step :=
  lazymatch goal with
  | |- growing _ (bindM _ _) => apply growing_bind
  | |- growing _ (try_except _ _ _) => apply growing_try
  | |- growing _ (for_each _ _) => apply growing_for_each
  | |- growing _ (while_true _ _) => apply growing_while
  | |- growing _ (ret _) => apply growing_ret
  | |- growing _ (lift _) => apply growing_lift
  | |- growing _ (print _) => apply growing_print
  | |- growing _ (sleep _) => apply growing_sleep
  | |- growing _ (next_send _) => apply growing_next_send
  | |- growing _ (http_json _ _) => apply growing_http
  | |- growing _ open_read => apply growing_open_read
  | |- growing _ (Bbbbbaqiap92s.send_to_channel _ _) => apply growing_send
  | |- growing _ (match ?x with _ => _ end) => destruct x
  | |- forall _, _ => intro
  end.

Lemma growing_main_plain E n :
  growing (fun _ => True) (Bbbbbaqiap92s.main E n).
Proof.
  unfold Bbbbbaqiap92s.main, Bbbbbaqiap92s.main_round,
    Bbbbbaqiap92s.check_for_new_products, Bbbbbaqiap92s.load_sent_ids,
    Bbbbbaqiap92s.handle, Bbbbbaqiap92s.save_sent_id.
  repeat growing_step. now apply growing_append.
Qed.

Lemma growing_loop_hardened E n :
  growing id_line (Testing22.background_loop E n).
Proof.
  unfold Testing22.background_loop, Testing22.background_round,
    Testing22.check_for_new_products_once, Testing22.load_sent_ids,
    Testing22.fetch_products, Testing22.handle, Testing22.save_sent_id.
  rewrite send_to_channel_same.
  repeat growing_step. apply growing_append. now eexists.
Qed.

Lemma growing_pass_plain E :
  growing (fun _ => True) (Bbbbbaqiap92s.check_for_new_products E).
Proof.
  unfold Bbbbbaqiap92s.check_for_new_products, Bbbbbaqiap92s.load_sent_ids,
    Bbbbbaqiap92s.handle, Bbbbbaqiap92s.save_sent_id.
  repeat growing_step. now apply growing_append.
Qed.

Lemma growing_pass_hardened E :
  growing id_line (Testing22.check_for_new_products_once E).
Proof.
  unfold Testing22.check_for_new_products_once, Testing22.load_sent_ids,
    Testing22.fetch_products, Testing22.handle, Testing22.save_sent_id.
  rewrite send_to_channel_same.
  repeat growing_step. apply growing_append. now eexists.
Qed.

Lemma grows_by_weaken (P Q : pystr -> Prop) w w' :
  (forall t, P t -> Q t) -> grows_by P w w' -> grows_by Q w w'.
Proof.
  intros H (evs & L & T & F & R & W & D). exists evs.
  split; [exact L|]. split; [exact T|].
  split; [eapply Forall_impl; [exact F|exact H]|].
  split; [exact R|]. split; [exact W|exact D].
Qed.

(** X1.  Whatever the catalog and the channel answer and whatever
    fails, a pass and any number [n] of rounds of either program leave
    the text of the dedup file in place: the file afterwards is the file
    before, followed by exactly the texts of the appends of the trace, in
    their order; its permissions are unchanged, and the trace itself has
    only grown. *)
Theorem x_dedup_file_only_grows (E : env) (n : nat) (w : world) :
  grows_by (fun _ => True) w (snd (Bbbbbaqiap92s.check_for_new_products E w))
  /\ grows_by (fun _ => True) w
       (snd (Testing22.check_for_new_products_once E w))
  /\ grows_by (fun _ => True) w (snd (Bbbbbaqiap92s.main E n w))
  /\ grows_by (fun _ => True) w (snd (Testing22.background_loop E n w)).
Proof.
  split; [apply growing_pass_plain|].
  split; [eapply grows_by_weaken; [|apply growing_pass_hardened]; trivial|].
  split; [apply growing_main_plain|].
  eapply grows_by_weaken; [|apply growing_loop_hardened]; trivial.
Qed.

Lemma id_lines_store_text ts :
  Forall id_line ts -> exists new, concat ts = store_text new.
Proof.
  induction 1 as [|t ts (z & ->) _ (new & IH)]; [now exists []|].
  exists (z :: new). cbn [concat store_text flat_map]. now rewrite IH.
Qed.

(** X2.  [testing22.py] keeps a well-formed dedup file well-formed: when
    the file holds the identifiers [ids0], one per line, then after any
    number of rounds, whatever happened in them, it holds [ids0] followed
    by further identifiers, one per line.  So a readable file still loads
    without error, and every identifier that was published before still
    is. *)
Theorem x_hardened_file_stays_well_formed (E : env) (n : nat) (w : world)
    (ids0 : list Z) :
  file_text (disk w) = store_text ids0 ->
  let w' := snd (Testing22.background_loop E n w) in
  exists new,
    file_text (disk w') = store_text (ids0 ++ new)
    /\ (can_read (disk w) = true ->
        fst (Testing22.load_sent_ids w') = Ok (list_to_set (ids0 ++ new)))
    /\ (forall z, In z ids0 -> z ∈ (list_to_set (ids0 ++ new) : gset Z)).
Proof.
  intros Ht w'.
  destruct (growing_loop_hardened E n w) as (evs & _ & T & F & R & _ & _).
  destruct (id_lines_store_text _ F) as (new & Hnew).
  exists new. fold w' in T, R.
  assert (Hs : file_text (disk w') = store_text (ids0 ++ new)).
  { now rewrite T, Ht, Hnew, store_text_app. }
  split; [exact Hs|]. split.
  - intros Hr. apply load_of_text; [now left|congruence|exact Hs].
  - intros z Hz. rewrite elem_of_list_to_set, list_elem_of_In.
    apply in_app_iff. now left.
Qed.

Lemma x_hardened_file_stays_well_formed_witness :
  let E := refusing_env 1
             (Ok (JArr [product 1 "a"; product 2 "b"; product 3 "c"])) in
  let w := disk_of (Some (store_text [1])) true true in
  exists new,
    file_text (disk (snd (Testing22.background_loop E 2 w)))
    = store_text ([1] ++ new).
Proof.
  intros E w.
  destruct (x_hardened_file_stays_well_formed E 2 w [1] eq_refl)
    as (new & H & _).
  now exists new.
Defined.

(** ** Two passes over one snapshot *)

Lemma filter_none {A} (f : A -> bool) (l : list A) :
  (forall x, In x l -> f x = false) -> List.filter f l = [].
Proof.
  induction l as [|a l IH]; [reflexivity|]. intros H. cbn.
  rewrite (H a) by now left. apply IH. intros x Hx. apply H. now right.
Qed.

Lemma Forall_filter_narrow {A} (Q : A -> Prop) (f g : A -> bool) l :
  (forall x, g x = true -> f x = true) ->
  Forall Q (List.filter f l) -> Forall Q (List.filter g l).
Proof.
  intros Hfg H. apply List.Forall_forall. intros x [Hx Hg]%filter_In.
  apply (proj1 (List.Forall_forall _ _) H). apply filter_In.
  split; [exact Hx|now apply Hfg].
Qed.

Lemma unsent_narrow ids0 new p :
  unsent (list_to_set (ids0 ++ new)) p = true ->
  unsent (list_to_set ids0) p = true.
Proof.
  unfold unsent. destruct (item_id p) as [z|]; [|trivial].
  rewrite !bool_decide_eq_true, !elem_of_list_to_set, !list_elem_of_In.
  rewrite in_app_iff. tauto.
Qed.

Lemma recorded_all E ids : forall k,
  (forall i, delivered (channel E i) = true) -> recorded E k ids = ids.
Proof.
  induction ids as [|z ids IH]; intros k H; [reflexivity|].
  cbn [recorded]. rewrite H, IH by exact H. reflexivity.
Qed.

Lemma in_omap_item_id l z :
  In z (omap item_id l) <-> exists p, In p l /\ item_id p = Some z.
Proof.
  rewrite <- list_elem_of_In, list_elem_of_omap.
  split; intros (p & Hp & Hz); exists p; (split; [|exact Hz]).
  - now apply list_elem_of_In.
  - now apply list_elem_of_In.
Qed.

Lemma selected_again ids0 new F p z :
  In p (List.filter (unsent (list_to_set (ids0 ++ new))) F) ->
  item_id p = Some z ->
  ~ In z ids0 /\ ~ In z new.
Proof.
  intros [_ Hu]%filter_In Hz. unfold unsent in Hu. rewrite Hz in Hu.
  apply bool_decide_eq_true in Hu.
  rewrite elem_of_list_to_set, list_elem_of_In, in_app_iff in Hu. tauto.
Qed.

Lemma nothing_left ids0 order F :
  Forall (fun p => is_Some (item_id p)) F ->
  (forall p, In p (List.filter (unsent (list_to_set ids0)) F) -> In p order) ->
  List.filter (unsent (list_to_set (ids0 ++ omap item_id order))) F = [].
Proof.
  intros HF Hord. apply filter_none. intros p Hp.
  destruct (proj1 (List.Forall_forall _ _) HF p Hp) as [z Hz].
  unfold unsent. rewrite Hz. apply bool_decide_eq_false. intros Hn. apply Hn.
  rewrite elem_of_list_to_set, list_elem_of_In, in_app_iff.
  destruct (unsent (list_to_set ids0) p) eqn:Hu.
  - right. apply in_omap_item_id. exists p. split; [|exact Hz].
    apply Hord. apply filter_In. now split.
  - left. unfold unsent in Hu. rewrite Hz in Hu.
    apply bool_decide_eq_false in Hu.
    rewrite elem_of_list_to_set, list_elem_of_In in Hu.
    destruct (in_dec Z.eq_dec z ids0) as [Hin|Hin]; [exact Hin|].
    exfalso. apply Hu. exact Hin.
Qed.

(** X3.  Two passes of either program in a row over the same snapshot
    [F] of the catalog, with a dedup file that can be read and appended
    to: the second pass calls the channel only for items whose identifier
    was neither in the file before the first pass nor delivered in it.
    When the channel delivered every message of the first pass, the second
    pass calls the channel for nothing and appends nothing. *)
Theorem x_delivered_items_are_not_sent_again (E : env) (ids0 : list Z)
    (F : list json) (w : world) :
  file_text (disk w) = store_text ids0 ->
  can_read (disk w) = true ->
  can_write (disk w) = true ->
  network E (gets w) = Ok (JArr F) ->
  network E (S (gets w)) = Ok (JArr F) ->
  Forall (fun p => is_Some (item_id p)) F ->
  Forall (ready_hardened E) (List.filter (unsent (list_to_set ids0)) F) ->
  Forall (ready_plain E) (List.filter (unsent (list_to_set ids0)) F) ->
  let sel := List.filter (unsent (list_to_set ids0)) F in
  (let new := recorded E (sends w) (omap item_id sel) in
   let again := List.filter (unsent (list_to_set (ids0 ++ new))) F in
   exists w1 w2,
     Testing22.check_for_new_products_once E w = (Ok tt, w1)
     /\ Testing22.check_for_new_products_once E w1 = (Ok tt, w2)
     /\ calls (log w2)
        = calls (log w1)
          ++ calls_for E (sends w1) (omap (payload_hardened E) again)
     /\ (forall p z, In p again -> item_id p = Some z ->
           ~ In z ids0 /\ ~ In z new)
     /\ ((forall k, delivered (channel E k) = true) ->
         calls (log w2) = calls (log w1)
         /\ writes (log w2) = writes (log w1)
         /\ file_text (disk w2) = file_text (disk w1)))
  /\ (let new := recorded E (sends w) (omap item_id (rev sel)) in
      let again := List.filter (unsent (list_to_set (ids0 ++ new))) F in
      exists w1 w2,
        Bbbbbaqiap92s.check_for_new_products E w = (Ok tt, w1)
        /\ Bbbbbaqiap92s.check_for_new_products E w1 = (Ok tt, w2)
        /\ calls (log w2)
           = calls (log w1)
             ++ calls_for E (sends w1) (omap (payload_plain E) (rev again))
        /\ (forall p z, In p again -> item_id p = Some z ->
              ~ In z ids0 /\ ~ In z new)
        /\ ((forall k, delivered (channel E k) = true) ->
            calls (log w2) = calls (log w1)
            /\ writes (log w2) = writes (log w1)
            /\ file_text (disk w2) = file_text (disk w1))).
Proof.
  intros Ht Hr Hw Hnet Hnet2 HF Hrh Hrp sel. split.
  - intros new again.
    destruct (pass_hardened_run E ids0 F w Ht Hr Hw Hnet HF Hrh)
      as (w1 & Hrun1 & Ht1 & Hr1 & Hw1 & _ & Hg1 & _ & _).
    fold sel in Ht1. fold new in Ht1.
    assert (Hs1 : file_text (disk w1) = store_text (ids0 ++ new)).
    { now rewrite Ht1, Ht, store_text_app. }
    assert (Hnet1 : network E (gets w1) = Ok (JArr F)) by now rewrite Hg1.
    assert (Hrh2 : Forall (ready_hardened E)
                     (List.filter (unsent (list_to_set (ids0 ++ new))) F)).
    { eapply Forall_filter_narrow; [|exact Hrh]. apply unsent_narrow. }
    destruct (pass_hardened_run E (ids0 ++ new) F w1 Hs1 Hr1 Hw1 Hnet1 HF Hrh2)
      as (w2 & Hrun2 & Ht2 & _ & _ & _ & _ & Hc2 & Hwr2).
    fold again in Ht2, Hc2, Hwr2.
    exists w1, w2. split; [exact Hrun1|]. split; [exact Hrun2|].
    split; [exact Hc2|]. split; [intros p z; apply selected_again|].
    intros Hall.
    assert (Hnone : again = []).
    { unfold again, new. rewrite recorded_all by exact Hall.
      apply nothing_left; [exact HF|trivial]. }
    rewrite Hc2, Hwr2, Ht2, Hnone. cbn. now rewrite !app_nil_r.
  - intros new again.
    destruct (pass_plain_run E ids0 F w Ht Hr Hw Hnet HF Hrp)
      as (w1 & Hrun1 & Ht1 & Hr1 & Hw1 & _ & Hg1 & _ & _).
    fold sel in Ht1. fold new in Ht1.
    assert (Hs1 : file_text (disk w1) = store_text (ids0 ++ new)).
    { now rewrite Ht1, Ht, store_text_app. }
    assert (Hnet1 : network E (gets w1) = Ok (JArr F)) by now rewrite Hg1.
    assert (Hrp2 : Forall (ready_plain E)
                     (List.filter (unsent (list_to_set (ids0 ++ new))) F)).
    { eapply Forall_filter_narrow; [|exact Hrp]. apply unsent_narrow. }
    destruct (pass_plain_run E (ids0 ++ new) F w1 Hs1 Hr1 Hw1 Hnet1 HF Hrp2)
      as (w2 & Hrun2 & Ht2 & _ & _ & _ & _ & Hc2 & Hwr2).
    fold again in Ht2, Hc2, Hwr2.
    exists w1, w2. split; [exact Hrun1|]. split; [exact Hrun2|].
    split; [exact Hc2|]. split; [intros p z; apply selected_again|].
    intros Hall.
    assert (Hnone : again = []).
    { unfold again, new. rewrite recorded_all by exact Hall.
      apply nothing_left; [exact HF|].
      intros p Hp. now apply in_rev in Hp. }
    rewrite Hc2, Hwr2, Ht2, Hnone. cbn. now rewrite !app_nil_r.
Qed.

Lemma x_delivered_items_are_not_sent_again_witness :
  let F := [product 1 "a"; product 2 "b"; product 3 "c"] in
  let E := refusing_env 1 (Ok (JArr F)) in
  let w := disk_of (Some (store_text [1])) true true in
  exists w1 w2,
    Testing22.check_for_new_products_once E w = (Ok tt, w1)
    /\ Testing22.check_for_new_products_once E w1 = (Ok tt, w2)
    /\ calls (log w2)
       = calls (log w1)
         ++ calls_for E (sends w1) (omap (payload_hardened E) [product 3 "c"]).
Proof.
  intros F E w.
  assert (HF : Forall (fun p => is_Some (item_id p)) F).
  { repeat (constructor; [eexists; reflexivity|]). constructor. }
  assert (Hsel : List.filter (unsent (list_to_set [1])) F
                 = [product 2 "b"; product 3 "c"]) by reflexivity.
  assert (Hrh : Forall (ready_hardened E)
                  (List.filter (unsent (list_to_set [1])) F)).
  { rewrite Hsel.
    repeat (constructor; [split; eexists; reflexivity|]). constructor. }
  assert (Hrp : Forall (ready_plain E)
                  (List.filter (unsent (list_to_set [1])) F)).
  { rewrite Hsel.
    repeat (constructor; [split; eexists; reflexivity|]). constructor. }
  destruct (x_delivered_items_are_not_sent_again E [1] F w
              eq_refl eq_refl eq_refl eq_refl eq_refl HF Hrh Hrp)
    as ((w1 & w2 & H1 & H2 & Hc & _) & _).
  exists w1, w2. split; [exact H1|]. split; [exact H2|exact Hc].
Defined.

(** ** A dedup file that cannot be loaded *)

Lemma ids_of_lines_app_raise l1 l2 e :
  ids_of_lines l1 = Raise e -> ids_of_lines (l1 ++ l2) = Raise e.
Proof.
  induction l1 as [|line rest IH]; [discriminate|].
  cbn [app ids_of_lines]. destruct (py_strip line) as [|c r]; [exact IH|].
  destruct (int_of_str (c :: r)); [|trivial].
  destruct (ids_of_lines rest) as [s|e'] eqn:Hrest; [discriminate|].
  cbn [bind]. intros [= ->]. now rewrite IH.
Qed.

Lemma readlines_terminated_upto n : forall c,
  (length c <= n)%nat ->
  forall cur rest,
    readlines cur (c ++ LF :: rest)
    = readlines cur (c ++ [LF]) ++ readlines [] rest.
Proof.
  induction n as [|n IH]; intros c Hlen cur rest.
  - destruct c; [reflexivity|cbn in Hlen; lia].
  - destruct c as [|x c]; [reflexivity|]. cbn [length] in Hlen.
    cbn [app readlines]. destruct (x =? LF)%N.
    + cbn [app]. f_equal. apply IH. lia.
    + destruct (x =? CR)%N; [|apply IH; lia].
      destruct c as [|d c']; [reflexivity|].
      cbn [app length] in *. destruct (d =? LF)%N.
      * cbn [app]. f_equal. apply IH. lia.
      * cbn [app]. f_equal. apply (IH (d :: c')). cbn. lia.
Qed.

Lemma readlines_terminated c cur rest :
  readlines cur (c ++ LF :: rest)
  = readlines cur (c ++ [LF]) ++ readlines [] rest.
Proof. now apply (readlines_terminated_upto (length c)). Qed.

Section Unloadable.
Context (E : env).

(** The loop body of [testing22.py] when the file cannot be appended
    to: the error of the append is printed and the loop goes on. *)
Lemma handle_hardened_unwritable p z pl w :
  item_id p = Some z ->
  payload_hardened E p = Some pl ->
  can_write (disk w) = false ->
  exists w',
    Testing22.handle E p w = (Ok tt, w')
    /\ disk w' = disk w
    /\ sends w' = S (sends w)
    /\ calls (log w')
       = calls (log w) ++ repeat (api_call E pl) (attempts (channel E (sends w))).
Proof.
  intros Hz Hpl Hw. unfold payload_hardened, Testing22.format_item in Hpl.
  destruct (Testing22.item_title p) as [title|] eqn:Ht; [|discriminate].
  cbn [bind] in Hpl.
  destruct (Testing22.item_payload E p title) as [pl'|] eqn:Hp;
    [|discriminate].
  injection Hpl as ->.
  unfold Testing22.handle. rewrite send_to_channel_same.
  unfold bindM at 1. unfold lift at 1.
  rewrite (product_id_of_item p z Hz). cbv beta iota.
  unfold bindM at 1. unfold lift at 1. rewrite Ht. cbv beta iota.
  unfold bindM at 1. unfold print at 1, emit at 1. cbv beta iota.
  unfold bindM at 1. unfold lift at 1. rewrite Hp. cbv beta iota.
  unfold bindM at 1. rewrite send_to_channel_run.
  cbn [disk sends gets log set_log].
  destruct (delivered (channel E (sends w))).
  - unfold bindM at 1. unfold bindM at 1. rewrite save_hardened_run.
    cbn [disk]. rewrite Hw. unfold bindM, print, emit, sleep, emit, set_log.
    cbn [disk sends gets log]. eexists. split; [reflexivity|].
    cbn [disk sends log]. rewrite !calls_app, calls_send_trace. cbn.
    now rewrite !app_nil_r.
  - unfold bindM at 1. unfold bindM, print, emit, sleep, emit, set_log.
    cbn [disk sends gets log]. eexists. split; [reflexivity|].
    cbn [disk sends log]. rewrite !calls_app, calls_send_trace. cbn.
    now rewrite !app_nil_r.
Qed.

(** The calls of the loop over the items, whether the file can be
    appended to or not. *)
Lemma for_each_hardened_calls items w :
  Forall (ready_hardened E) items ->
  exists w',
    for_each items (Testing22.handle E) w = (Ok tt, w')
    /\ calls (log w')
       = calls (log w)
         ++ calls_for E (sends w) (omap (payload_hardened E) items).
Proof.
  intros Hready. destruct (can_write (disk w)) eqn:Hw.
  - destruct (for_each_hardened E items w Hready Hw)
      as (w' & Hrun & _ & _ & _ & _ & _ & Hc & _).
    now exists w'.
  - revert w Hw. induction Hready as [|p items [[z Hz] [pl Hpl]] _ IH];
      intros w Hw.
    + exists w. cbn. now rewrite app_nil_r.
    + destruct (handle_hardened_unwritable p z pl w Hz Hpl Hw)
        as (w1 & Hrun & Hd & Hs & Hc).
      assert (Hw1 : can_write (disk w1) = false) by now rewrite Hd.
      destruct (IH w1 Hw1) as (w' & Hrun' & Hc').
      exists w'. cbn [for_each]. unfold bindM at 1. rewrite Hrun.
      split; [exact Hrun'|].
      cbn [omap list_omap]. rewrite Hpl. cbn [calls_for].
      now rewrite Hc', Hc, Hs, <- app_assoc.
Qed.

(** The pass of [testing22.py] for any state of the dedup file: the
    published set is what the file gives, or empty. *)
Lemma pass_hardened_any_file (F : list json) (w : world) :
  network E (gets w) = Ok (JArr F) ->
  Forall (fun p => is_Some (item_id p)) F ->
  let P := match stored_ids (disk w) with Ok s => s | Raise _ => ∅ end in
  Forall (ready_hardened E) (List.filter (unsent P) F) ->
  let sel := List.filter (unsent P) F in
  exists w',
    Testing22.check_for_new_products_once E w = (Ok tt, w')
    /\ calls (log w')
       = calls (log w)
         ++ calls_for E (sends w) (omap (payload_hardened E) sel).
Proof.
  intros Hnet HF P Hready sel.
  unfold Testing22.check_for_new_products_once.
  unfold bindM at 1. unfold print at 1, emit at 1. cbv beta iota.
  unfold bindM at 1. rewrite load_hardened_run. cbn [disk set_log].
  assert (Hload : exists pre,
    match stored_ids (disk w) with
    | Ok s => (Ok s, set_log w (log w ++ [Print MsgChecking]))
    | Raise FileNotFoundError =>
        (Ok ∅, set_log (set_log w (log w ++ [Print MsgChecking]))
                 (log (set_log w (log w ++ [Print MsgChecking]))
                  ++ [Print MsgNoIdsFile]))
    | Raise e =>
        (Ok ∅, set_log (set_log w (log w ++ [Print MsgChecking]))
                 (log (set_log w (log w ++ [Print MsgChecking]))
                  ++ [Print (MsgLoadError e)]))
    end = (Ok P, set_log w (log w ++ pre))
    /\ calls pre = []).
  { subst P. destruct (stored_ids (disk w)) as [s|[]];
      try (exists [Print MsgChecking]; now split);
      (eexists [Print MsgChecking; _]; cbn; rewrite <- app_assoc;
       now split). }
  destruct Hload as (pre & Hload & Hcpre).
  rewrite Hload. cbv beta iota. clear Hload.
  set (w2 := set_log w (log w ++ pre)).
  unfold bindM at 1. unfold Testing22.fetch_products, try_except, http_json.
  change (gets w2) with (gets w). rewrite Hnet. cbv beta iota.
  unfold bindM at 1. unfold lift at 1.
  rewrite (select_hardened F _ HF). fold sel. cbv beta iota.
  fold sel in Hready. clearbody sel.
  set (w3 := {| disk := disk w2; sends := sends w2; gets := S (gets w);
                log := log w2 ++ [Get (Testing22.fetch_request E 100)] |}).
  assert (Hc3 : calls (log w3) = calls (log w)).
  { unfold w3, w2. cbn [log set_log]. rewrite !calls_app, Hcpre. cbn.
    now rewrite !app_nil_r. }
  destruct sel as [|p l].
  - exists (set_log w3 (log w3 ++ [Print MsgNoNew])).
    split; [reflexivity|].
    cbn [omap list_omap calls_for]. rewrite !app_nil_r. cbn [log set_log].
    rewrite calls_app, Hc3. cbn. now rewrite app_nil_r.
  - unfold bindM at 1. unfold print at 1, emit at 1. cbv beta iota.
    set (w4 := set_log w3 (log w3 ++ [Print (MsgFound (length (p :: l)))])).
    destruct (for_each_hardened_calls (p :: l) w4 Hready) as (w' & Hrun & Hc').
    exists w'. split; [exact Hrun|].
    rewrite Hc'. unfold w4. cbn [log set_log sends]. rewrite calls_app, Hc3.
    cbn. now rewrite app_nil_r.
Qed.

End Unloadable.

Lemma filter_unsent_empty F :
  Forall (fun p => is_Some (item_id p)) F -> List.filter (unsent ∅) F = F.
Proof.
  induction 1 as [|p F [z Hz] _ IH]; [reflexivity|].
  cbn [List.filter]. rewrite IH. unfold unsent. rewrite Hz.
  rewrite bool_decide_eq_true_2; [reflexivity|]. set_solver.
Qed.

Lemma omap_total_length {A B} (f : A -> option B) l :
  Forall (fun p => is_Some (f p)) l -> length (omap f l) = length l.
Proof.
  induction 1 as [|p l [pl Hp] _ IH]; [reflexivity|].
  cbn [omap list_omap]. rewrite Hp. cbn. now rewrite IH.
Qed.

(** Appending identifiers does not repair a file that cannot be
    loaded. *)
Lemma stored_ids_stays_bad f f' e new :
  stored_ids f = Raise e ->
  e <> FileNotFoundError ->
  can_read f = false \/ (exists c, data f = Some (c ++ [LF])) ->
  file_text f' = file_text f ++ store_text new ->
  can_read f' = can_read f ->
  (is_Some (data f) -> is_Some (data f')) ->
  stored_ids f' = Raise e.
Proof.
  unfold stored_ids, file_text. intros He Hne Hbad Ht Hr Hd.
  destruct (data f) as [c|] eqn:Hc; [|now injection He as <-].
  destruct (Hd (ltac:(now eexists))) as [c' Hc']. rewrite Hc' in *.
  cbn in Ht. rewrite Hr. destruct (can_read f); [|exact He].
  destruct Hbad as [Hbad|(c0 & [= ->])]; [discriminate|].
  rewrite Ht, <- app_assoc. cbn [app].
  rewrite readlines_terminated. now apply ids_of_lines_app_raise.
Qed.

(** X4.  When the dedup file of [testing22.py] exists but cannot be
    loaded (it cannot be read, or a line of it is no number), whatever
    its text and whether it can be appended to or not, [load_sent_ids]
    gives the empty set and the pass selects and publishes every item of
    the fetched list, published before or not.  When moreover the file
    cannot be read, or its text ends with a line feed, the identifiers the
    pass appends do not repair it: it fails to load in the same way
    afterwards, so the next pass starts from the empty set again. *)
Theorem x_hardened_unloadable_file_resends_all (E : env) (F : list json)
    (w : world) (e : exn) :
  stored_ids (disk w) = Raise e ->
  e <> FileNotFoundError ->
  network E (gets w) = Ok (JArr F) ->
  Forall (fun p => is_Some (item_id p)) F ->
  Forall (ready_hardened E) F ->
  exists w',
    Testing22.check_for_new_products_once E w = (Ok tt, w')
    /\ fst (Testing22.load_sent_ids w) = Ok ∅
    /\ calls (log w')
       = calls (log w) ++ calls_for E (sends w) (omap (payload_hardened E) F)
    /\ length (omap (payload_hardened E) F) = length F
    /\ (can_read (disk w) = false
        \/ (exists c, data (disk w) = Some (c ++ [LF])) ->
        stored_ids (disk w') = Raise e
        /\ fst (Testing22.load_sent_ids w') = Ok ∅).
Proof.
  intros He Hne Hnet HF Hready.
  pose proof (pass_hardened_any_file E F w Hnet HF) as Hpass.
  rewrite He in Hpass. cbv zeta in Hpass.
  rewrite (filter_unsent_empty F HF) in Hpass.
  destruct (Hpass Hready) as (w' & Hrun & Hc).
  exists w'. split; [exact Hrun|].
  split; [rewrite load_hardened_run, He; now destruct e|].
  split; [exact Hc|].
  split.
  { apply omap_total_length. eapply Forall_impl; [exact Hready|].
    now intros p [_ H]. }
  intros Hbad.
  assert (Hs : stored_ids (disk w') = Raise e).
  { destruct (growing_pass_hardened E w) as (evs & _ & T & Fo & R & _ & D).
    rewrite Hrun in *. cbn [snd] in *.
    destruct (id_lines_store_text _ Fo) as (new & Hnew).
    apply (stored_ids_stays_bad (disk w) (disk w') e new); try assumption.
    now rewrite T, Hnew. }
  split; [exact Hs|].
  rewrite load_hardened_run, Hs. now destruct e.
Qed.

Lemma x_hardened_unloadable_file_resends_all_witness :
  let F := [product 1 "a"; product 2 "b"] in
  let E := demo_env (Ok (JArr F)) in
  let w := disk_of (Some (lit "1" ++ [LF] ++ lit "oops")) true false in
  let v := disk_of (Some (lit "1" ++ [LF] ++ lit "oops" ++ [LF])) true true in
  (exists w',
     Testing22.check_for_new_products_once E w = (Ok tt, w')
     /\ calls (log w') = calls_for E 0 (omap (payload_hardened E) F))
  /\ (exists v',
        Testing22.check_for_new_products_once E v = (Ok tt, v')
        /\ calls (log v') = calls_for E 0 (omap (payload_hardened E) F)
        /\ stored_ids (disk v') = Raise ValueError).
Proof.
  intros F E w v.
  assert (HF : Forall (fun p => is_Some (item_id p)) F).
  { repeat (constructor; [eexists; reflexivity|]). constructor. }
  assert (Hr : Forall (ready_hardened E) F).
  { repeat (constructor; [split; eexists; reflexivity|]). constructor. }
  split.
  - destruct (x_hardened_unloadable_file_resends_all E F w ValueError
                eq_refl ltac:(discriminate) eq_refl HF Hr)
      as (w' & H1 & _ & H2 & _).
    exists w'. split; [exact H1|exact H2].
  - destruct (x_hardened_unloadable_file_resends_all E F v ValueError
                eq_refl ltac:(discriminate) eq_refl HF Hr)
      as (v' & H1 & _ & H2 & _ & H3).
    exists v'. split; [exact H1|]. split; [exact H2|].
    apply H3. right. exists (lit "1" ++ [LF] ++ lit "oops"). reflexivity.
Defined.



(** ** The excerpt is what is left of the description *)

Lemma newline_ahead_sub_space_newline s :
  newline_ahead (sub_space_newline s) = newline_ahead s.
Proof.
  induction s as [|c r IH]; [reflexivity|].
  cbn [sub_space_newline newline_ahead].
  destruct (is_space c && newline_ahead r) eqn:Hd.
  - rewrite IH. apply andb_true_iff in Hd as [Hs Hn].
    rewrite Hn, ?Hs. now destruct (c =? LF)%N.
  - cbn [newline_ahead]. now rewrite IH, Hd.
Qed.

Lemma has_space_newline_sub s : has_space_newline (sub_space_newline s) = false.
Proof.
  induction s as [|c r IH]; [reflexivity|].
  cbn [sub_space_newline].
  destruct (is_space c && newline_ahead r) eqn:Hd; [exact IH|].
  cbn [has_space_newline].
  now rewrite newline_ahead_sub_space_newline, Hd, IH.
Qed.

Lemma sub_space_newline_fixed s :
  has_space_newline s = false -> sub_space_newline s = s.
Proof.
  induction s as [|c r IH]; [reflexivity|].
  cbn [has_space_newline sub_space_newline]. intros [Hc Hr]%orb_false_iff.
  rewrite Hc. f_equal. now apply IH.
Qed.

Lemma has_space_newline_suffix a b :
  has_space_newline (a ++ b) = false -> has_space_newline b = false.
Proof.
  induction a as [|c a IH]; [trivial|].
  cbn [app has_space_newline]. intros [_ H]%orb_false_iff. now apply IH.
Qed.

Lemma newline_ahead_prefix a b :
  newline_ahead a = true -> newline_ahead (a ++ b) = true.
Proof.
  induction a as [|c a IH]; [discriminate|].
  cbn [app newline_ahead]. destruct (c =? LF)%N; [reflexivity|].
  intros [-> H]%andb_true_iff. now rewrite IH.
Qed.

Lemma has_space_newline_prefix a b :
  has_space_newline (a ++ b) = false -> has_space_newline a = false.
Proof.
  induction a as [|c a IH]; [reflexivity|].
  cbn [app has_space_newline]. intros [Hc H]%orb_false_iff.
  rewrite (IH H), orb_false_r.
  apply andb_false_iff in Hc as [Hc|Hc]; [now rewrite Hc|].
  destruct (newline_ahead a) eqn:Ha; [|apply andb_false_r].
  now rewrite (newline_ahead_prefix a b Ha) in Hc.
Qed.

Lemma has_space_newline_strip s :
  has_space_newline s = false -> has_space_newline (py_strip s) = false.
Proof.
  intros H. unfold py_strip.
  destruct (lstrip_suffix s) as (a & Ha).
  destruct (rstrip_prefix (lstrip s)) as (b & Hb).
  rewrite Ha in H. apply has_space_newline_suffix in H. rewrite Hb in H.
  now apply has_space_newline_prefix in H.
Qed.

Lemma lstrip_head s :
  match lstrip s with [] => True | c :: _ => is_space c = false end.
Proof.
  induction s as [|c r IH]; [exact I|].
  cbn [lstrip]. now destruct (is_space c) eqn:Hc.
Qed.

Lemma lstrip_fixed s :
  match s with [] => True | c :: _ => is_space c = false end -> lstrip s = s.
Proof. destruct s as [|c r]; [reflexivity|]. cbn. now intros ->. Qed.

Lemma lstrip_lstrip s : lstrip (lstrip s) = lstrip s.
Proof. apply lstrip_fixed, lstrip_head. Qed.

Lemma py_strip_strip s : py_strip (py_strip s) = py_strip s.
Proof.
  unfold py_strip.
  assert (H : lstrip (rstrip (lstrip s)) = rstrip (lstrip s)).
  { apply lstrip_fixed.
    destruct (rstrip_prefix (lstrip s)) as (b & Hb).
    pose proof (lstrip_head s) as Hh. rewrite Hb in Hh.
    now destruct (rstrip (lstrip s)). }
  rewrite H. unfold rstrip at 1 2. rewrite rev_involutive.
  now rewrite lstrip_lstrip.
Qed.

(** X6.  The excerpt either program makes of a description that is a
    text: [bbbbbaqiap92s.py] only takes characters out of the description
    and [testing22.py] only takes characters out of that; cleaning an
    excerpt again gives the same excerpt; the excerpt of [testing22.py]
    has no white space at either end and none before a line feed. *)
Theorem x_excerpt_only_removes (s : pystr) :
  exists t1 t2,
    Bbbbbaqiap92s.clean_html (JStr s) = Ok t1
    /\ Testing22.clean_html (JStr s) = Ok t2
    /\ sublist t1 s
    /\ sublist t2 t1
    /\ Bbbbbaqiap92s.clean_html (JStr t1) = Ok t1
    /\ Testing22.clean_html (JStr t2) = Ok t2
    /\ py_strip t2 = t2
    /\ has_space_newline t2 = false.
Proof.
  set (t1 := sub_tags false s).
  set (t2 := py_strip (sub_space_newline t1)).
  assert (Hhard : forall x,
    Testing22.clean_html (JStr x)
    = Ok (py_strip (sub_space_newline (sub_tags false x)))).
  { intros [|c r]; reflexivity. }
  assert (Ht2 : has_tag t2 = false).
  { apply has_tag_strip, has_tag_sub_space_newline, has_tag_sub_tags. }
  assert (Hs2 : has_space_newline t2 = false).
  { apply has_space_newline_strip, has_space_newline_sub. }
  exists t1, t2.
  split; [reflexivity|]. split; [apply Hhard|].
  split; [apply sublist_sub_tags|].
  split.
  { unfold t2. etransitivity; [apply sublist_py_strip|].
    apply sublist_sub_space_newline. }
  split.
  { cbn [Bbbbbaqiap92s.clean_html]. f_equal.
    apply sub_tags_fixed, has_tag_sub_tags. }
  split.
  { rewrite Hhard, (sub_tags_fixed t2 Ht2), (sub_space_newline_fixed t2 Hs2).
    f_equal. apply py_strip_strip. }
  split; [apply py_strip_strip|exact Hs2].
Qed.

(** ** The shape of the hashtags *)

Lemma replace_space_no_space s :
  existsb (fun c => (c =? SPACE)%N) (replace_space s) = false.
Proof.
  induction s as [|c r IH]; [reflexivity|].
  cbn [replace_space List.map existsb]. fold (replace_space r). rewrite IH.
  now destruct (c =? SPACE)%N eqn:Hc; [|rewrite Hc].
Qed.

Lemma is_hashtag_plain s :
  has_dot (replace_space s) = false ->
  is_hashtag false (HASH :: replace_space s) = true.
Proof.
  intros Hd. cbn [is_hashtag]. now rewrite Hd, replace_space_no_space.
Qed.

Lemma is_hashtag_hardened c r :
  has_dot (replace_space (c :: r)) = false ->
  is_hashtag true (HASH :: replace_space (c :: r)) = true.
Proof.
  intros Hd. cbn [is_hashtag]. now rewrite Hd, replace_space_no_space.
Qed.

Lemma hashtags_plain_shape ts : forall tags,
  Bbbbbaqiap92s.hashtags ts = Ok tags ->
  forallb (is_hashtag false) tags = true.
Proof.
  induction ts as [|t ts IH]; intros tags; [now intros [= <-]|].
  cbn [Bbbbbaqiap92s.hashtags].
  destruct (getitem t (lit "name")) as [[| | |s| |]|]; try discriminate.
  cbn [bind].
  destruct (Bbbbbaqiap92s.hashtags ts) as [l|]; [|discriminate].
  cbn [bind]. specialize (IH l eq_refl).
  destruct (has_dot (replace_space s)) eqn:Hd; intros [= <-]; [exact IH|].
  cbn [forallb]. rewrite IH, andb_true_r.
  exact (is_hashtag_plain s Hd).
Qed.

Lemma hashtags_hardened_shape E ts : forall tags,
  Testing22.hashtags E ts = Ok tags ->
  forallb (is_hashtag true) tags = true.
Proof.
  induction ts as [|t ts IH]; intros tags; [now intros [= <-]|].
  cbn [Testing22.hashtags].
  destruct (py_get t (lit "name") (JStr [])) as [v|]; [|discriminate].
  cbn [bind].
  destruct (py_strip (py_str (repr E) v)) as [|c r]; [apply IH|].
  destruct (has_dot (replace_space (c :: r))) eqn:Hd; [apply IH|].
  destruct (Testing22.hashtags E ts) as [l|]; [|discriminate].
  cbn [bind]. intros [= <-].
  cbn [forallb]. rewrite (IH l eq_refl), andb_true_r.
  exact (is_hashtag_hardened c r Hd).
Qed.

Lemma has_dot_app a b : has_dot (a ++ b) = has_dot a || has_dot b.
Proof. apply existsb_app. Qed.

Lemma is_hashtag_no_dot n t : is_hashtag n t = true -> has_dot t = false.
Proof.
  destruct t as [|c body]; [discriminate|]. cbn [is_hashtag has_dot existsb].
  intros [[[Hc Hd]%andb_true_iff _]%andb_true_iff _]%andb_true_iff.
  apply N.eqb_eq in Hc. subst c. apply negb_true_iff in Hd.
  unfold has_dot in Hd. now rewrite Hd.
Qed.

Lemma has_dot_join n tags :
  forallb (is_hashtag n) tags = true -> has_dot (py_join [SPACE] tags) = false.
Proof.
  induction tags as [|t rest IH]; [reflexivity|].
  cbn [forallb]. intros [Ht Hr]%andb_true_iff.
  pose proof (is_hashtag_no_dot n t Ht) as Hd.
  destruct rest as [|t' rest']; [exact Hd|].
  change (py_join [SPACE] (t :: t' :: rest'))
    with (t ++ [SPACE] ++ py_join [SPACE] (t' :: rest')).
  rewrite !has_dot_app, Hd, (IH Hr). reflexivity.
Qed.

(** X7.  Whatever the tags of an item are, when [format_tags] returns,
    its text is a list of hashtags joined by single spaces: each is a [#]
    followed by a body that has no space and no period, so the text has
    no period at all; in [testing22.py] no body is empty. *)
Theorem x_hashtags_are_single_words (E : env) (tl : json) (out : pystr) :
  (Bbbbbaqiap92s.format_tags tl = Ok out ->
   has_dot out = false
   /\ exists tags,
        out = py_join [SPACE] tags /\ forallb (is_hashtag false) tags = true)
  /\ (Testing22.format_tags E tl = Ok out ->
      has_dot out = false
      /\ exists tags,
           out = py_join [SPACE] tags /\ forallb (is_hashtag true) tags = true).
Proof.
  split.
  - unfold Bbbbbaqiap92s.format_tags.
    destruct (py_iter tl) as [ts|]; [|discriminate]. cbn [bind].
    destruct (Bbbbbaqiap92s.hashtags ts) as [tags|] eqn:Ht; [|discriminate].
    cbn [bind]. intros [= <-].
    pose proof (hashtags_plain_shape ts tags Ht) as Hs.
    split; [now apply (has_dot_join false)|now exists tags].
  - unfold Testing22.format_tags.
    destruct (py_iter tl) as [ts|]; [|discriminate]. cbn [bind].
    destruct (Testing22.hashtags E ts) as [tags|] eqn:Ht; [|discriminate].
    cbn [bind]. intros [= <-].
    pose proof (hashtags_hardened_shape E ts tags Ht) as Hs.
    split; [now apply (has_dot_join true)|now exists tags].
Qed.

Lemma x_hashtags_are_single_words_witness :
  let tl := JArr [JObj [(lit "name", JStr (lit " new in "))];
                  JObj [(lit "name", JStr (lit "v1.2"))];
                  JObj [(lit "name", JNum 7)]] in
  let tl1 := JArr [JObj [(lit "name", JStr (lit " new in "))];
                   JObj [(lit "name", JStr [])]] in
  Testing22.format_tags (demo_env (Ok JNull)) tl = Ok (lit "#new_in #7")
  /\ has_dot (lit "#new_in #7") = false
  /\ Bbbbbaqiap92s.format_tags tl1 = Ok (lit "#_new_in_ #")
  /\ has_dot (lit "#_new_in_ #") = false.
Proof.
  intros tl tl1.
  pose proof (x_hashtags_are_single_words (demo_env (Ok JNull)) tl
                (lit "#new_in #7")) as [_ H2].
  pose proof (x_hashtags_are_single_words (demo_env (Ok JNull)) tl1
                (lit "#_new_in_ #")) as [H1 _].
  split; [reflexivity|]. split; [exact (proj1 (H2 eq_refl))|].
  split; [reflexivity|exact (proj1 (H1 eq_refl))].
Defined.

(** ** Recording into a file that was not written by the program *)

Lemma ids_of_lines_app l1 : forall l2 s1 s2,
  ids_of_lines l1 = Ok s1 -> ids_of_lines l2 = Ok s2 ->
  ids_of_lines (l1 ++ l2) = Ok (s1 ∪ s2).
Proof.
  induction l1 as [|line rest IH]; intros l2 s1 s2.
  - intros [= <-] H2. cbn [app]. rewrite H2. f_equal. now rewrite (left_id_L ∅ _).
  - cbn [app ids_of_lines]. destruct (py_strip line) as [|c r]; [apply IH|].
    destruct (int_of_str (c :: r)) as [z|]; [|discriminate].
    destruct (ids_of_lines rest) as [s|] eqn:Hrest; [|discriminate].
    cbn [bind]. intros [= <-] H2. rewrite (IH l2 s s2 eq_refl H2).
    cbn [bind]. f_equal. now rewrite (assoc_L _).
Qed.

Lemma saves_keep_the_file ids w :
  is_Some (data (disk w)) ->
  is_Some (data (disk (snd (for_each ids Testing22.save_sent_id w)))).
Proof.
  assert (G : growing (fun _ => True) (for_each ids Testing22.save_sent_id)).
  { unfold Testing22.save_sent_id. repeat growing_step.
    now apply growing_append. }
  destruct (G w) as (evs & _ & _ & _ & _ & _ & D). exact D.
Qed.

Lemma readlines_store_text ids :
  readlines [] (store_text ids)
  = List.map (fun z => str_of_int z ++ [LF]) ids.
Proof.
  induction ids as [|z ids IH]; [reflexivity|].
  cbn [store_text flat_map List.map]. rewrite <- app_assoc. cbn [app].
  rewrite readlines_line by apply str_of_int_plain.
  fold (store_text ids). now rewrite IH.
Qed.

(** X8.  Recording into a dedup file that loads, whoever wrote it: when
    the file gives the set [s0], its text is empty or ends with a line
    feed, and its lines and the identifiers [ids] are within the limit
    the interpreter puts on the digits of a number, then appending [ids]
    makes the file load as [s0] and [ids] together, in both programs, and
    its lines are still within the limit. *)
Theorem x_recording_extends_a_loadable_file (E : env) (ids : list Z)
    (s0 : gset Z) (w : world) :
  stored_ids (disk w) = Ok s0 ->
  Forall short (readlines [] (file_text (disk w))) ->
  Forall (fun z => short (str_of_int z)) ids ->
  file_text (disk w) = [] \/ (exists c, file_text (disk w) = c ++ [LF]) ->
  can_write (disk w) = true ->
  exists w',
    for_each ids Testing22.save_sent_id w = (Ok tt, w')
    /\ for_each (List.map JNum ids) (Bbbbbaqiap92s.save_sent_id E) w
       = (Ok tt, w')
    /\ fst (Testing22.load_sent_ids w') = Ok (s0 ∪ list_to_set ids)
    /\ fst (Bbbbbaqiap92s.load_sent_ids w') = Ok (s0 ∪ list_to_set ids)
    /\ Forall short (readlines [] (file_text (disk w'))).
Proof.
  intros Hs Hlines Hids Hend Hw.
  destruct (saves_hardened_run ids w Hw) as (w' & Hrun & Ht & Hr & _ & _).
  exists w'. split; [exact Hrun|].
  split; [now rewrite saves_plain_run|].
  assert (Hnew : Forall short (readlines [] (store_text ids))).
  { rewrite readlines_store_text. clear -Hids.
    induction Hids as [|z ids Hz _ IH]; [constructor|].
    cbn [List.map]. constructor; [|exact IH]. unfold short in *.
    cbv beta. pose proof (py_strip_line _ (str_of_int_plain z)) as Hl.
    unfold char in *. rewrite Hl.
    now rewrite (py_strip_plain _ (str_of_int_plain z)) in Hz. }
  assert (Hl' : Forall short (readlines [] (file_text (disk w')))).
  { rewrite Ht. destruct Hend as [->|(c & Hc)]; [exact Hnew|].
    rewrite Hc in *. rewrite <- app_assoc. cbn [app].
    rewrite readlines_terminated. apply Forall_app. now split. }
  assert (Hs' : stored_ids (disk w') = Ok (s0 ∪ list_to_set ids)).
  { pose proof (saves_keep_the_file ids w) as Hk. rewrite Hrun in Hk.
    cbn [snd] in Hk. clear Hl' Hlines. unfold stored_ids, file_text in *.
    destruct (data (disk w)) as [content|]; [|discriminate].
    destruct (Hk ltac:(now eexists)) as (content' & Hc'). rewrite Hc' in *.
    cbn [from_option id] in *. rewrite Hr.
    destruct (can_read (disk w)); [|discriminate]. rewrite Ht.
    destruct Hend as [->|(c & ->)].
    - cbn [app] in *. injection Hs as <-.
      rewrite ids_of_store_text. f_equal. now rewrite (left_id_L ∅ _).
    - rewrite <- app_assoc. cbn [app]. rewrite readlines_terminated.
      apply ids_of_lines_app; [exact Hs|apply ids_of_store_text]. }
  rewrite load_hardened_run, load_plain_run, Hs'. now repeat split.
Qed.

Lemma x_recording_extends_a_loadable_file_witness :
  let w := disk_of (Some (lit " 7 " ++ [CR; LF; LF; 1635%N; LF] ++ lit "+1_0"
                          ++ [LF]))
             true true in
  exists w',
    for_each [12; 7] Testing22.save_sent_id w = (Ok tt, w')
    /\ fst (Testing22.load_sent_ids w')
       = Ok ({[7; 3; 10]} ∪ list_to_set [12; 7]).
Proof.
  intros w.
  destruct (x_recording_extends_a_loadable_file (demo_env (Ok JNull))
              [12; 7] {[7; 3; 10]} w)
    as (w' & H1 & _ & H2 & _).
  - vm_compute. f_equal.
  - let l := eval vm_compute in (readlines [] (file_text (disk w))) in
    change (Forall short l).
    repeat (constructor; [apply Z.leb_le; vm_compute; reflexivity|]).
    constructor.
  - repeat (constructor; [apply Z.leb_le; vm_compute; reflexivity|]).
    constructor.
  - right. exists (lit " 7 " ++ [CR; LF; LF; 1635%N; LF] ++ lit "+1_0").
    reflexivity.
  - reflexivity.
  - exists w'. split; [exact H1|exact H2].
Defined.

(** Without the line feed at the end the first identifier recorded runs
    into the last line of the file. *)
Example unterminated_last_line_fuses :
  let w := disk_of (Some (lit "12")) true true in
  stored_ids (disk w) = Ok {[12]}
  /\ stored_ids (disk (snd (Testing22.save_sent_id 3 w))) = Ok {[123]}.
Proof. split; vm_compute; f_equal. Qed.

(** ** An answer of the catalog that is no list *)

(** X9.  When the catalog answers with a value that is no list (the
    object of an error message, say), neither program publishes or
    records anything.  [testing22.py] prints the answer as unexpected and
    the pass returns.  In [bbbbbaqiap92s.py], once the dedup file is
    loaded, the pass ends in [TypeError], which goes to the main loop;
    only the empty text and the empty object pass as a catalog without
    products. *)
Theorem x_answer_that_is_no_list (E : env) (w : world) (v : json) :
  network E (gets w) = Ok v ->
  is_list v = false ->
  (exists w',
     Testing22.check_for_new_products_once E w = (Ok tt, w')
     /\ disk w' = disk w
     /\ calls (log w') = calls (log w)
     /\ last (log w') = Some (Print (MsgUnexpectedResponse v)))
  /\ (raises (fst (Bbbbbaqiap92s.load_sent_ids w)) = false ->
      exists w',
        Bbbbbaqiap92s.check_for_new_products E w
        = (match v with
           | JStr [] | JObj [] => Ok tt
           | _ => Raise TypeError
           end, w')
        /\ disk w' = disk w
        /\ calls (log w') = calls (log w)).
Proof.
  intros Hnet Hv. split.
  - rewrite check_hardened_unfold.
    unfold bindM at 1. unfold print at 1, emit at 1. cbv beta iota.
    unfold bindM at 1. rewrite load_hardened_run. cbn [disk set_log].
    destruct (stored_ids (disk w)) as [s|[]];
      unfold bindM at 1;
      unfold Testing22.fetch_products, try_except, http_json;
      cbn [gets set_log]; rewrite Hnet;
      (destruct v; try discriminate Hv);
      (eexists; split; [reflexivity|]);
      cbn [disk log set_log];
      rewrite ?calls_app; cbn [calls omap list_omap];
      rewrite ?app_nil_r, ?last_snoc; auto.
  - rewrite check_plain_unfold, load_plain_run. intros Hload.
    unfold bindM at 1. unfold print at 1, emit at 1. cbv beta iota.
    unfold bindM at 1. rewrite load_plain_run. cbn [disk set_log].
    destruct (stored_ids (disk w)) as [s|[]]; try discriminate Hload;
      unfold bindM at 1; unfold try_except; unfold bindM at 1;
      unfold http_json; cbn [gets set_log]; rewrite Hnet;
      (destruct v as [| | |[|c r]| |[|[k x] fs]]; try discriminate Hv);
      (eexists; split; [reflexivity|]);
      cbn [disk log set_log];
      rewrite ?calls_app; cbn [calls omap list_omap];
      rewrite ?app_nil_r; auto.
Qed.

Lemma x_answer_that_is_no_list_witness :
  let v := JObj [(lit "code", JStr (lit "rest_forbidden"))] in
  let E := demo_env (Ok v) in
  let w := disk_of (Some (store_text [1])) true true in
  (exists w',
     Testing22.check_for_new_products_once E w = (Ok tt, w')
     /\ disk w' = disk w
     /\ last (log w') = Some (Print (MsgUnexpectedResponse v)))
  /\ (exists w',
        Bbbbbaqiap92s.check_for_new_products E w = (Raise TypeError, w')
        /\ calls (log w') = []).
Proof.
  intros v E w.
  destruct (x_answer_that_is_no_list E w v eq_refl eq_refl) as [H2 H1].
  destruct H2 as (w2 & R2 & D2 & _ & L2).
  destruct (H1 eq_refl) as (w1 & R1 & _ & C1).
  split.
  - exists w2. split; [exact R2|]. split; [exact D2|exact L2].
  - exists w1. split; [exact R1|exact C1].
Defined.

(** ** An item without identifier *)

Lemma select_plain_keyerror F P :
  Forall id_or_none F ->
  Exists (fun p => field p "id" = None) F ->
  Bbbbbaqiap92s.select F P = Raise KeyError.
Proof.
  induction 1 as [|p F [Hobj Hid] _ IH]; intros Hex; [inversion Hex|].
  cbn [Bbbbbaqiap92s.select].
  destruct p as [| | | | |fields]; try discriminate Hobj.
  destruct Hid as [Hnone|[z Hz]].
  - cbn [field] in Hnone. cbn [getitem]. now rewrite Hnone.
  - destruct (item_id_inv _ z Hz) as (fields' & [= <-] & Hk).
    cbn [getitem]. rewrite Hk. cbn [bind py_in].
    rewrite IH; [reflexivity|].
    inversion Hex as [? ? Hn|]; subst; [|assumption].
    cbn [field] in Hn. congruence.
Qed.

Lemma select_hardened_zero F P :
  Forall id_or_none F ->
  Testing22.new_products F P
  = Ok (List.filter (fun p => negb (bool_decide (id_or_zero p ∈ P))) F).
Proof.
  induction 1 as [|p F [Hobj Hid] _ IH]; [reflexivity|].
  cbn [Testing22.new_products List.filter].
  assert (Hp : Testing22.product_id p = Ok (id_or_zero p)).
  { unfold id_or_zero. destruct Hid as [Hnone|[z Hz]].
    - destruct p as [| | | | |fields]; try discriminate Hobj.
      cbn [field] in Hnone. unfold item_id, Testing22.product_id.
      cbn [py_get getitem]. now rewrite Hnone.
    - rewrite Hz. now apply product_id_of_item. }
  rewrite Hp. cbn [bind]. rewrite IH. cbn [bind].
  now destruct (bool_decide (id_or_zero p ∈ P)).
Qed.

(** X10.  A fetched list in which some item has no identifier, the
    others having integers.  [bbbbbaqiap92s.py] fails at the selection
    with [KeyError]: the request has been sent, but no item of the list,
    well formed or not, is published or recorded in this pass.
    [testing22.py] selects as if the identifier were [0]: such an item is
    selected exactly as long as [0] is not in the published set. *)
Theorem x_item_without_identifier (E : env) (F : list json) (w : world)
    (P : gset Z) :
  Forall id_or_none F ->
  Exists (fun p => field p "id" = None) F ->
  network E (gets w) = Ok (JArr F) ->
  raises (fst (Bbbbbaqiap92s.load_sent_ids w)) = false ->
  (exists w',
     Bbbbbaqiap92s.check_for_new_products E w = (Raise KeyError, w')
     /\ gets w' = S (gets w)
     /\ disk w' = disk w
     /\ calls (log w') = calls (log w))
  /\ Testing22.new_products F P
     = Ok (List.filter (fun p => negb (bool_decide (id_or_zero p ∈ P))) F).
Proof.
  intros HF Hex Hnet Hload. split; [|now apply select_hardened_zero].
  revert Hload. rewrite check_plain_unfold, load_plain_run. intros Hload.
  unfold bindM at 1. unfold print at 1, emit at 1. cbv beta iota.
  unfold bindM at 1. rewrite load_plain_run. cbn [disk set_log].
  destruct (stored_ids (disk w)) as [s|[]]; try discriminate Hload;
    unfold bindM at 1; unfold try_except; unfold bindM at 1;
    unfold http_json; cbn [gets set_log]; rewrite Hnet;
    unfold ret; cbv beta iota;
    unfold after_fetch_plain, bindM, lift, Bbbbbaqiap92s.new_products;
    cbn [py_iter bind]; rewrite (select_plain_keyerror F _ HF Hex);
    (eexists; split; [reflexivity|]);
    cbn [disk log gets set_log];
    rewrite ?calls_app; cbn [calls omap list_omap];
    rewrite ?app_nil_r; auto.
Qed.

Lemma x_item_without_identifier_witness :
  let F := [product 1 "a"; JObj [(lit "name", JStr (lit "b"))]] in
  let E := demo_env (Ok (JArr F)) in
  let w := disk_of None true true in
  (exists w',
     Bbbbbaqiap92s.check_for_new_products E w = (Raise KeyError, w')
     /\ calls (log w') = [])
  /\ Testing22.new_products F {[0]} = Ok [product 1 "a"].
Proof.
  intros F E w.
  assert (HF : Forall id_or_none F).
  { constructor; [split; [reflexivity|right; eexists; reflexivity]|].
    constructor; [split; [reflexivity|left; reflexivity]|constructor]. }
  assert (Hex : Exists (fun p => field p "id" = None) F).
  { apply Exists_cons_tl, Exists_cons_hd. reflexivity. }
  destruct (x_item_without_identifier E F w {[0]} HF Hex eq_refl eq_refl)
    as [(w' & H1 & _ & _ & H2) H3].
  split; [exists w'; split; [exact H1|exact H2]|].
  rewrite H3. reflexivity.
Defined.

(** ** The requests of [testing22.py] *)

Lemma keeps_requests_after_fetch_hardened E s products :
  keeps (fun w => requests (log w)) (after_fetch_hardened E s products).
Proof.
  pose proof (keeps_requests_handle_hardened E) as H.
  unfold after_fetch_hardened. repeat keeps_step.
Qed.

Lemma requests_hardened_pass E w :
  requests (log (snd (Testing22.check_for_new_products_once E w)))
  = requests (log w) ++ [Testing22.fetch_request E 100].
Proof.
  rewrite check_hardened_unfold.
  unfold bindM at 1. unfold print at 1, emit at 1. cbv beta iota.
  unfold bindM at 1. rewrite load_hardened_run. cbn [disk set_log].
  assert (H : forall s w2,
    requests (log (snd (bindM (Testing22.fetch_products E 100)
                          (after_fetch_hardened E s) w2)))
    = requests (log w2) ++ [Testing22.fetch_request E 100]).
  { intros s w2. unfold bindM, Testing22.fetch_products, try_except, http_json.
    destruct (network E (gets w2)) as [body|e].
    - cbv beta iota.
      rewrite (keeps_requests_after_fetch_hardened E s body). cbn [log].
      now rewrite requests_app.
    - unfold any_exception, bindM, print, emit, ret. cbv beta iota.
      rewrite (keeps_requests_after_fetch_hardened E s (JArr [])).
      cbn [log set_log]. rewrite !requests_app. cbn. now rewrite app_nil_r. }
  destruct (stored_ids (disk w)) as [s|[]]; rewrite H; cbn [log set_log];
    rewrite !requests_app; cbn; now rewrite ?app_nil_r.
Qed.

Lemma round_hardened_requests E w :
  exists w',
    Testing22.background_round E w = (Ok tt, w')
    /\ requests (log w') = requests (log w) ++ [Testing22.fetch_request E 100].
Proof.
  pose proof (requests_hardened_pass E w) as Hp.
  unfold Testing22.background_round, bindM, try_except.
  destruct (Testing22.check_for_new_products_once E w) as [[[]|e] w1];
    cbn [snd] in Hp; unfold any_exception, print, sleep, emit;
    (eexists; split; [reflexivity|]); cbn [log set_log];
    rewrite !requests_app, Hp; cbn; now rewrite !app_nil_r.
Qed.

(** X11.  [testing22.py] sends exactly one request to the catalog in
    every round of its loop, whatever the dedup file, the answers and the
    items are.  The request is always the same: the dictionary that
    [fetch_products] hands to [requests.get] is taken as the query, so the
    request has no authentication and no timeout, the two credentials
    stand in the query under the key [auth], and of the three parameters
    only the names are sent, under the key [params]. *)
Theorem x_hardened_polls_once_per_round (E : env) (n : nat) (w : world) :
  let r := Testing22.fetch_request E 100 in
  (exists w',
     Testing22.background_loop E n w = (Ok tt, w')
     /\ requests (log w') = requests (log w) ++ repeat r n)
  /\ url r = API_URL (cfg E)
  /\ auth r = None
  /\ timeout r = None
  /\ query r
     = List.map (pair (lit "auth"))
         (omap id [CONSUMER_KEY (cfg E); CONSUMER_SECRET (cfg E)])
       ++ [(lit "params", lit "per_page"); (lit "params", lit "orderby");
           (lit "params", lit "order")].
Proof.
  intros r. split; [|now repeat split].
  assert (Hloop : forall k w0, exists w',
    while_true k (Testing22.background_round E) w0 = (Ok tt, w')
    /\ requests (log w') = requests (log w0) ++ repeat r k).
  { induction k as [|k IH]; intros w0.
    - exists w0. split; [reflexivity|]. cbn. now rewrite app_nil_r.
    - destruct (round_hardened_requests E w0) as (w1 & H1 & R1).
      destruct (IH w1) as (w' & H' & R').
      exists w'. cbn [while_true]. unfold bindM at 1. rewrite H1.
      split; [exact H'|]. rewrite R', R1, <- app_assoc. reflexivity. }
  unfold Testing22.background_loop, bindM at 1, print, emit.
  destruct (Hloop n (set_log w (log w ++ [Print MsgStarted])))
    as (w' & H' & R').
  exists w'. split; [exact H'|]. rewrite R'. cbn [log set_log].
  rewrite requests_app. cbn. now rewrite app_nil_r.
Qed.

(** ** An item that cannot be formatted *)

Lemma for_each_app {A} (l1 l2 : list A) body w :
  for_each (l1 ++ l2) body w
  = bindM (for_each l1 body) (fun _ => for_each l2 body) w.
Proof.
  revert w. induction l1 as [|a l1 IH]; intros w; [reflexivity|].
  cbn [app for_each]. unfold bindM.
  destruct (body a w) as [[[]|e] w1]; [|reflexivity].
  rewrite IH. reflexivity.
Qed.

Section Blocked.
Context (E : env).

(** Up to the loop over the new products, a pass with a good dedup file
    and a list of items with identifiers only prints and fetches. *)
Lemma pass_hardened_to_loop (ids0 : list Z) (F : list json) (w : world) :
  file_text (disk w) = store_text ids0 ->
  can_read (disk w) = true ->
  network E (gets w) = Ok (JArr F) ->
  Forall (fun p => is_Some (item_id p)) F ->
  List.filter (unsent (list_to_set ids0)) F <> [] ->
  exists w4,
    Testing22.check_for_new_products_once E w
    = for_each (List.filter (unsent (list_to_set ids0)) F)
        (Testing22.handle E) w4
    /\ disk w4 = disk w /\ sends w4 = sends w
    /\ calls (log w4) = calls (log w).
Proof.
  intros Ht Hr Hnet HF Hsel.
  unfold Testing22.check_for_new_products_once.
  unfold bindM at 1. unfold print at 1, emit at 1. cbv beta iota.
  unfold bindM at 1. rewrite load_hardened_run. cbn [disk set_log].
  assert (Hload : exists pre,
    match stored_ids (disk w) with
    | Ok s => (Ok s, set_log w (log w ++ [Print MsgChecking]))
    | Raise FileNotFoundError =>
        (Ok ∅, set_log (set_log w (log w ++ [Print MsgChecking]))
                 (log (set_log w (log w ++ [Print MsgChecking]))
                  ++ [Print MsgNoIdsFile]))
    | Raise e =>
        (Ok ∅, set_log (set_log w (log w ++ [Print MsgChecking]))
                 (log (set_log w (log w ++ [Print MsgChecking]))
                  ++ [Print (MsgLoadError e)]))
    end = (Ok (list_to_set ids0 : gset Z), set_log w (log w ++ pre))
    /\ calls pre = []).
  { destruct (stored_ids_of_text _ _ Hr Ht) as [->|[-> ->]].
    - exists [Print MsgChecking]. now split.
    - exists [Print MsgChecking; Print MsgNoIdsFile]. cbn.
      rewrite <- app_assoc. now split. }
  destruct Hload as (pre & Hload & Hcpre).
  rewrite Hload. cbv beta iota. clear Hload.
  set (w2 := set_log w (log w ++ pre)).
  unfold bindM at 1. unfold Testing22.fetch_products, try_except, http_json.
  change (gets w2) with (gets w). rewrite Hnet. cbv beta iota.
  unfold bindM at 1. unfold lift at 1.
  rewrite (select_hardened F _ HF). cbv beta iota.
  destruct (List.filter (unsent (list_to_set ids0)) F) as [|p l];
    [contradiction|].
  unfold bindM at 1. unfold print at 1, emit at 1. cbv beta iota.
  eexists. split; [reflexivity|].
  cbn [disk sends log set_log]. unfold w2. cbn [disk sends log set_log].
  rewrite !calls_app, Hcpre. cbn. now rewrite !app_nil_r.
Qed.

Lemma pass_plain_to_loop (ids0 : list Z) (F : list json) (w : world) :
  file_text (disk w) = store_text ids0 ->
  can_read (disk w) = true ->
  network E (gets w) = Ok (JArr F) ->
  Forall (fun p => is_Some (item_id p)) F ->
  List.filter (unsent (list_to_set ids0)) F <> [] ->
  exists w4,
    Bbbbbaqiap92s.check_for_new_products E w
    = for_each (rev (List.filter (unsent (list_to_set ids0)) F))
        (Bbbbbaqiap92s.handle E) w4
    /\ disk w4 = disk w /\ sends w4 = sends w
    /\ calls (log w4) = calls (log w).
Proof.
  intros Ht Hr Hnet HF Hsel.
  unfold Bbbbbaqiap92s.check_for_new_products.
  unfold bindM at 1. unfold print at 1, emit at 1. cbv beta iota.
  unfold bindM at 1. rewrite load_plain_run. cbn [disk set_log].
  assert (Hload : exists pre,
    match stored_ids (disk w) with
    | Raise FileNotFoundError =>
        (Ok ∅, set_log (set_log w (log w ++ [Print MsgChecking]))
                 (log (set_log w (log w ++ [Print MsgChecking]))
                  ++ [Print MsgNoIdsFile]))
    | r => (r, set_log w (log w ++ [Print MsgChecking]))
    end = (Ok (list_to_set ids0 : gset Z), set_log w (log w ++ pre))
    /\ calls pre = []).
  { destruct (stored_ids_of_text _ _ Hr Ht) as [->|[-> ->]].
    - exists [Print MsgChecking]. now split.
    - exists [Print MsgChecking; Print MsgNoIdsFile]. cbn.
      rewrite <- app_assoc. now split. }
  destruct Hload as (pre & Hload & Hcpre).
  rewrite Hload. cbv beta iota. clear Hload.
  set (w2 := set_log w (log w ++ pre)).
  unfold bindM at 1. unfold try_except. unfold bindM at 1. unfold http_json.
  change (gets w2) with (gets w). rewrite Hnet. cbv beta iota.
  unfold ret at 1. cbv beta iota.
  unfold bindM at 1. unfold lift at 1.
  unfold Bbbbbaqiap92s.new_products. cbn [py_iter bind].
  rewrite (select_plain F _ HF). cbv beta iota.
  destruct (List.filter (unsent (list_to_set ids0)) F) as [|p l];
    [contradiction|].
  unfold bindM at 1. unfold print at 1, emit at 1. cbv beta iota.
  eexists. split; [reflexivity|].
  cbn [disk sends log set_log]. unfold w2. cbn [disk sends log set_log].
  rewrite !calls_app, Hcpre. cbn. now rewrite !app_nil_r.
Qed.

(** The loop body leaves at the formatting, before any call. *)
Lemma handle_hardened_raise p e w :
  is_Some (item_id p) ->
  Testing22.format_item E p = Raise e ->
  exists w',
    Testing22.handle E p w = (Raise e, w')
    /\ disk w' = disk w /\ calls (log w') = calls (log w).
Proof.
  intros [z Hz] Hf. unfold Testing22.format_item in Hf.
  unfold Testing22.handle.
  unfold bindM at 1. unfold lift at 1.
  rewrite (product_id_of_item p z Hz). cbv beta iota.
  unfold bindM at 1. unfold lift at 1.
  destruct (Testing22.item_title p) as [title|e'].
  - cbn [bind] in Hf. cbv beta iota.
    unfold bindM at 1. unfold print at 1, emit at 1. cbv beta iota.
    unfold bindM at 1. unfold lift at 1. rewrite Hf.
    eexists. split; [reflexivity|]. cbn [disk log set_log].
    rewrite calls_app. cbn. now rewrite app_nil_r.
  - cbn [bind] in Hf. injection Hf as ->. now exists w.
Qed.

Lemma handle_plain_raise p e w :
  Bbbbbaqiap92s.format_item E p = Raise e ->
  exists w',
    Bbbbbaqiap92s.handle E p w = (Raise e, w')
    /\ disk w' = disk w /\ calls (log w') = calls (log w).
Proof.
  intros Hf. unfold Bbbbbaqiap92s.format_item in Hf.
  unfold Bbbbbaqiap92s.handle.
  unfold bindM at 1. unfold lift at 1.
  destruct (Bbbbbaqiap92s.item_title p) as [title|e'].
  - cbn [bind] in Hf. cbv beta iota.
    unfold bindM at 1. unfold print at 1, emit at 1. cbv beta iota.
    unfold bindM at 1. unfold lift at 1. rewrite Hf.
    eexists. split; [reflexivity|]. cbn [disk log set_log].
    rewrite calls_app. cbn. now rewrite app_nil_r.
  - cbn [bind] in Hf. injection Hf as ->. now exists w.
Qed.

End Blocked.

(** X12.  A new item that cannot be formatted ends the pass where it
    stands, with its error, and the items the loop has not reached are
    not published in this pass, well formed or not.  With a good dedup
    file and a fetched list [F1 ++ p :: F2] in which [p] is new and its
    formatting raises [e]: [testing22.py] publishes and records the new
    items of [F1] and nothing of [F2]; [bbbbbaqiap92s.py], which goes
    through the list backwards, the new items of [F2] and nothing of
    [F1]. *)
Theorem x_unformattable_item_ends_the_pass (E : env) (ids0 : list Z)
    (F1 F2 : list json) (p : json) (w : world) :
  let P : gset Z := list_to_set ids0 in
  file_text (disk w) = store_text ids0 ->
  can_read (disk w) = true ->
  can_write (disk w) = true ->
  network E (gets w) = Ok (JArr (F1 ++ p :: F2)) ->
  Forall (fun p => is_Some (item_id p)) (F1 ++ p :: F2) ->
  unsent P p = true ->
  (forall e,
     Testing22.format_item E p = Raise e ->
     Forall (ready_hardened E) (List.filter (unsent P) F1) ->
     let done := List.filter (unsent P) F1 in
     exists w',
       Testing22.check_for_new_products_once E w = (Raise e, w')
       /\ calls (log w')
          = calls (log w)
            ++ calls_for E (sends w) (omap (payload_hardened E) done)
       /\ file_text (disk w')
          = file_text (disk w)
            ++ store_text (recorded E (sends w) (omap item_id done)))
  /\ (forall e,
        Bbbbbaqiap92s.format_item E p = Raise e ->
        Forall (ready_plain E) (List.filter (unsent P) F2) ->
        let done := rev (List.filter (unsent P) F2) in
        exists w',
          Bbbbbaqiap92s.check_for_new_products E w = (Raise e, w')
          /\ calls (log w')
             = calls (log w)
               ++ calls_for E (sends w) (omap (payload_plain E) done)
          /\ file_text (disk w')
             = file_text (disk w)
               ++ store_text (recorded E (sends w) (omap item_id done))).
Proof.
  intros P Ht Hr Hw Hnet HF Hp.
  assert (Hsel : List.filter (unsent P) (F1 ++ p :: F2)
                 = List.filter (unsent P) F1 ++ p :: List.filter (unsent P) F2).
  { rewrite List.filter_app. cbn [List.filter]. now rewrite Hp. }
  assert (Hne : List.filter (unsent P) (F1 ++ p :: F2) <> []).
  { rewrite Hsel. now destruct (List.filter (unsent P) F1). }
  assert (Hid : is_Some (item_id p)).
  { apply Forall_app in HF as [_ HF]. now inversion HF. }
  split.
  - intros e Hf Hready done.
    destruct (pass_hardened_to_loop E ids0 _ w Ht Hr Hnet HF Hne)
      as (w4 & Hrun & Hd4 & Hs4 & Hc4).
    fold P in Hrun. rewrite Hsel, for_each_app in Hrun.
    assert (Hw4 : can_write (disk w4) = true) by now rewrite Hd4.
    destruct (for_each_hardened E done w4 Hready Hw4)
      as (w5 & Hrun5 & Ht5 & _ & _ & _ & _ & Hc5 & _).
    unfold bindM at 1 in Hrun. fold done in Hrun. rewrite Hrun5 in Hrun.
    cbn [for_each] in Hrun. unfold bindM at 1 in Hrun.
    destruct (handle_hardened_raise E p e w5 Hid Hf) as (w' & Hrun' & Hd' & Hc').
    rewrite Hrun' in Hrun. exists w'. split; [exact Hrun|].
    split.
    + now rewrite Hc', Hc5, Hc4, Hs4.
    + now rewrite Hd', Ht5, Hd4, Hs4.
  - intros e Hf Hready done.
    destruct (pass_plain_to_loop E ids0 _ w Ht Hr Hnet HF Hne)
      as (w4 & Hrun & Hd4 & Hs4 & Hc4).
    fold P in Hrun. rewrite Hsel, rev_app_distr in Hrun.
    cbn [rev] in Hrun. rewrite <- app_assoc in Hrun. cbn [app] in Hrun.
    rewrite for_each_app in Hrun.
    assert (Hw4 : can_write (disk w4) = true) by now rewrite Hd4.
    apply Forall_rev in Hready. fold done in Hready.
    destruct (for_each_plain E done w4 Hready Hw4)
      as (w5 & Hrun5 & Ht5 & _ & _ & _ & _ & Hc5 & _).
    unfold bindM at 1 in Hrun. fold done in Hrun. rewrite Hrun5 in Hrun.
    cbn [for_each] in Hrun. unfold bindM at 1 in Hrun.
    destruct (handle_plain_raise E p e w5 Hf) as (w' & Hrun' & Hd' & Hc').
    rewrite Hrun' in Hrun. exists w'. split; [exact Hrun|].
    split.
    + now rewrite Hc', Hc5, Hc4, Hs4.
    + now rewrite Hd', Ht5, Hd4, Hs4.
Qed.

Lemma x_unformattable_item_ends_the_pass_witness :
  let bad := JObj [(lit "id", JNum 2); (lit "name", JStr (lit "b"));
                   (lit "images", JArr []); (lit "tags", JNull)] in
  let F := [product 1 "a"; bad; product 3 "c"] in
  let E := demo_env (Ok (JArr F)) in
  let w := disk_of None true true in
  (exists w',
     Testing22.check_for_new_products_once E w = (Raise TypeError, w')
     /\ file_text (disk w') = store_text [1])
  /\ (exists w',
        Bbbbbaqiap92s.check_for_new_products E w = (Raise TypeError, w')
        /\ file_text (disk w') = store_text [3]).
Proof.
  intros bad F E w.
  assert (HF : Forall (fun p => is_Some (item_id p))
                 ([product 1 "a"] ++ bad :: [product 3 "c"])).
  { repeat (constructor; [eexists; reflexivity|]). constructor. }
  destruct (x_unformattable_item_ends_the_pass E [] [product 1 "a"]
              [product 3 "c"] bad w eq_refl eq_refl eq_refl eq_refl HF eq_refl)
    as [H2 H1].
  split.
  - destruct (H2 TypeError eq_refl) as (w' & Hrun & _ & Ht).
    { constructor; [split; eexists; reflexivity|constructor]. }
    exists w'. split; [exact Hrun|exact Ht].
  - destruct (H1 TypeError eq_refl) as (w' & Hrun & _ & Ht).
    { constructor; [split; eexists; reflexivity|constructor]. }
    exists w'. split; [exact Hrun|exact Ht].
Defined.
